(** * SCRNet: dataset builder and staged trainer

    A shallow embedding of the two notebooks of the repository:

    - [create_comp_noisy_emnist_letters_training_data.ipynb]
      ([median_downsampling], [down_sample_list], [create_training_data] and
      the cell that writes the four containers);
    - the SCRNet training notebook ([build_SCRNet], [fit_model] and its
      "Load Training Data" cell).

    Python integers are [Z], float64 values are rationals [Q] (kept in reduced
    form), numpy arrays are nested lists in C (row-major) order, Python
    exceptions are values of [exn], and the two sources of effects (the global
    numpy random generator, the model object trained in place together with
    standard output) are threaded explicitly. *)

From Stdlib Require Import ZArith QArith Lia.
From stdpp Require Import base list strings sorting pretty functions.
From stdpp Require gmap.

Local Open Scope Z_scope.

(** ** Python exceptions and the two monads *)

Module Py.

Inductive exn : Type :=
| ValueError (msg : string)
| ZeroDivisionError
| IndexError
| KeyError (key : string)
| UnboundLocalError (name : string)
| FitRaised (what : string).
(* [FitRaised]: an exception that escapes from [in_model.fit]. *)

(** A computation that returns or raises. *)
Definition result (A : Type) : Type := exn + A.

Definition Ok {A} (x : A) : result A := inr x.
Definition Raise {A} (e : exn) : result A := inl e.

#[global] Instance result_ret : MRet result := λ A x, Ok x.
#[global] Instance result_bind : MBind result :=
  λ A B f m, match m with inl e => inl e | inr x => f x end.

(** A computation over a mutable store [S]; the store survives a raise, as
    the effects of a Python call survive the exception that ends it. *)
Definition SE (S A : Type) : Type := S → result A * S.

#[global] Instance SE_ret {S} : MRet (SE S) := λ A x s, (Ok x, s).
#[global] Instance SE_bind {S} : MBind (SE S) :=
  λ A B f m s,
    match m s with
    | (inl e, s') => (inl e, s')
    | (inr x, s') => f x s'
    end.

Definition raise {S A} (e : exn) : SE S A := λ s, (Raise e, s).
Definition lift {S A} (r : result A) : SE S A := λ s, (r, s).
Definition get {S} : SE S S := λ s, (Ok s, s).
Definition put {S} (s : S) : SE S unit := λ _, (Ok tt, s).

(** [for x in l: body(x)], collecting the values. *)
Fixpoint for_each {A B} (body : A → result B) (l : list A) : result (list B) :=
  match l with
  | [] => Ok []
  | x :: l' =>
      match body x with
      | inl e => inl e
      | inr y =>
          match for_each body l' with
          | inl e => inl e
          | inr ys => Ok (y :: ys)
          end
      end
  end.

Fixpoint for_each_SE {S A B} (body : A → SE S B) (l : list A) : SE S (list B) :=
  match l with
  | [] => mret []
  | x :: l' => y ← body x; ys ← for_each_SE body l'; mret (y :: ys)
  end.

End Py.
Import Py.

(** ** The numpy and scikit-image routines the builder calls

    Library code, modelled from its documented behaviour on the arguments the
    notebooks pass: 2-D arrays are lists of rows, 3-D arrays lists of 2-D
    arrays. *)

Module Np.

(** Shape of a 2-D array held as a list of rows (an array without rows is
    given width 0). *)
Definition shape2 {A} (a : list (list A)) : Z * Z :=
  (Z.of_nat (length a), Z.of_nat (length (hd [] a))).

Definition size2 {A} (a : list (list A)) : Z :=
  Z.of_nat (length (concat a)).

(** [a] is an [h]-by-[w] array. *)
Definition is_grid {A} (h w : nat) (a : list (list A)) : Prop :=
  length a = h ∧ Forall (λ row, length row = w) a.

Definition map2d {A B} (f : A → B) (a : list (list A)) : list (list B) :=
  map (map f) a.
Definition map3d {A B} (f : A → B) (a : list (list (list A))) : list (list (list B)) :=
  map (map2d f) a.

(** The [h]-by-[w] window whose top-left corner is at row [r], column [c]. *)
Definition window {A} (a : list (list A)) (r c h w : nat) : list (list A) :=
  map (λ row, take w (drop c row)) (take h (drop r a)).

(** [skimage.util.shape.view_as_windows(arr_in, window_shape, step)] on a
    2-D array with a scalar step: the argument checks in the order the
    library makes them, then the 4-D array
    [out[i][j][a][b] = arr_in[i*step + a][j*step + b]] with
    [(shape - window_shape) // step + 1] windows along each axis. *)
Definition view_as_windows {A} (arr_in : list (list A))
    (window_shape : Z * Z) (step : Z) : result (list (list (list (list A)))) :=
  let '(rows, cols) := shape2 arr_in in
  let '(wr, wc) := window_shape in
  if step <? 1 then Raise (ValueError "`step` must be >= 1")
  else if (rows - wr <? 0) || (cols - wc <? 0)
  then Raise (ValueError "`window_shape` is too large")
  else if (wr - 1 <? 0) || (wc - 1 <? 0)
  then Raise (ValueError "`window_shape` is too small")
  else
    let nr := Z.to_nat ((rows - wr) / step + 1) in
    let nc := Z.to_nat ((cols - wc) / step + 1) in
    let st := Z.to_nat step in
    Ok (map (λ i, map (λ j, window arr_in (i * st) (j * st)
                                     (Z.to_nat wr) (Z.to_nat wc))
                      (seq 0 nc))
            (seq 0 nr)).

Definition sumZ (l : list Z) : Z := foldr Z.add 0 l.

(** [np.mean] of a 1-D integer array: float64 accumulation, so no
    wrap-around; [0] stands for the [nan] of an empty slice. *)
Definition mean (l : list Z) : Q :=
  Qred (inject_Z (sumZ l) / inject_Z (Z.of_nat (length l))).

(** [np.median] of the flattened data: the middle element of the ordered
    data when the size is odd, the mean of the two middle elements when it
    is even. *)
Definition median (a : list Z) : Q :=
  let part := merge_sort Z.le a in
  let sz := length part in
  let index := (sz / 2)%nat in
  if Nat.odd sz then mean (take 1 (drop index part))
  else mean (take 2 (drop (index - 1) part)).

(** [np.median(windows, axis=(2, 3))]. *)
Definition median_axis23 (windows : list (list (list (list Z)))) : list (list Q) :=
  map (map (λ win, median (concat win))) windows.

(** Broadcasting of one axis of a value to length [n]: equal lengths are
    kept, a length of one is repeated, anything else does not fit. *)
Definition broadcast_axis {A} (n : nat) (l : list A) : option (list A) :=
  if decide (length l = n) then Some l
  else match l with
       | [x] => Some (replicate n x)
       | _ => None
       end.

(** The value stored by [out[idx] = value] when [out[idx]] has shape
    [(n, n)]. *)
Definition broadcast2 {A} (n : nat) (value : list (list A)) : option (list (list A)) :=
  rows ← broadcast_axis n value;
  mapM (broadcast_axis n) rows.

(** [np.clip(x, lo, hi)]: [minimum(maximum(x, lo), hi)]. *)
Definition clip (x lo hi : Z) : Z := Z.min (Z.max x lo) hi.

(** True division of an integer by 255. *)
Definition div255 (x : Z) : Q := Qred (inject_Z x / 255).

(** [matrix.reshape(n,)]: the data in row-major order, when there are [n]
    of them. *)
Definition reshape1 {A} (n : Z) (matrix : list (list A)) : result (list A) :=
  if decide (size2 matrix = n) then Ok (concat matrix)
  else Raise (ValueError ("cannot reshape array of size " +:+ pretty (size2 matrix)
                          +:+ " into shape (" +:+ pretty n +:+ ",)")).

(** [vector.reshape(h, w)]: rows of [w] consecutive entries. *)
Fixpoint chunks {A} (h w : nat) (v : list A) : list (list A) :=
  match h with
  | O => []
  | S h' => take w v :: chunks h' w (drop w v)
  end.

Definition reshape2 {A} (h w : nat) (v : list A) : result (list (list A)) :=
  if decide (length v = (h * w)%nat) then Ok (chunks h w v)
  else Raise (ValueError "cannot reshape array").

End Np.
Import Np.

(** ** The dataset builder notebook *)

Module DatasetBuilder.

(** A 2-D numpy array with its element kind: [median_downsampling] returns
    either a fresh float64 array of medians or its integer argument. *)
Inductive ndarray2 : Type :=
| IntArray (a : list (list Z))
| FloatArray (a : list (list Q)).

Definition as_float (v : ndarray2) : list (list Q) :=
  match v with
  | IntArray a => map2d inject_Z a
  | FloatArray a => a
  end.

Definition shape_of (v : ndarray2) : Z * Z :=
  match v with
  | IntArray a => shape2 a
  | FloatArray a => shape2 a
  end.

(** [median_downsampling(in_image, cmp_dim)]. [28//cmp_dim] is Python's
    floor division, which [Z.div] is for a non-zero divisor. *)
Definition median_downsampling (in_image : list (list Z)) (cmp_dim : Z)
    : result ndarray2 :=
  if cmp_dim <? 15 then
    if cmp_dim =? 0 then Raise ZeroDivisionError
    else
      let window_size := 28 / cmp_dim in
      windows ← view_as_windows in_image (window_size, window_size) window_size;
      mret (FloatArray (median_axis23 windows))
  else mret (IntArray in_image).

Definition broadcast_msg (from to : Z * Z) : string :=
  "could not broadcast input array from shape ("
    +:+ pretty from.1 +:+ "," +:+ pretty from.2 +:+ ") into shape ("
    +:+ pretty to.1 +:+ "," +:+ pretty to.2 +:+ ")".

(** [out_array[idx] = value] for a float64 [out_array] whose entries have
    shape [(cmp_dim, cmp_dim)]. *)
Definition assign_slot (cmp_dim : Z) (value : ndarray2) : result (list (list Q)) :=
  match broadcast2 (Z.to_nat cmp_dim) (as_float value) with
  | Some v => Ok v
  | None => Raise (ValueError (broadcast_msg (shape_of value) (cmp_dim, cmp_dim)))
  end.

(** [down_sample_list(in_array, cmp_dim)]: [np.empty] refuses a negative
    dimension; the loop then fills one slot per image, in order. *)
Definition down_sample_list (in_array : list (list (list Z))) (cmp_dim : Z)
    : result (list (list (list Q))) :=
  if cmp_dim <? 0 then Raise (ValueError "negative dimensions are not allowed")
  else
    for_each (λ image, value ← median_downsampling image cmp_dim;
                       assign_slot cmp_dim value)
             in_array.

(** The global numpy generator: one Poisson draw of rate [lam] from state
    [g] gives a count and the next state. *)
Class PoissonGen (G : Type) := poisson_draw : Q → G → Z * G.

Definition draw `{PoissonGen G} (lam : Q) : SE G Z :=
  λ g, let '(k, g') := poisson_draw lam g in (Ok k, g').

Definition negative (x : Q) : bool := negb (Qle_bool 0 x).

(** [np.random.poisson(lam=a)] for a 3-D array of rates: the rates are
    checked first, then the draws are made element by element in C order. *)
Definition random_poisson `{PoissonGen G} (lam : list (list (list Q)))
    : SE G (list (list (list Z))) :=
  if existsb (existsb (existsb negative)) lam
  then raise (ValueError "lam < 0")
  else for_each_SE (for_each_SE (for_each_SE draw)) lam.

(** [np.array([matrix.reshape(cmp_dim**2,) for matrix in a/255])]. *)
Definition scale_and_flatten (cmp_dim : Z) (a : list (list (list Z)))
    : result (list (list Q)) :=
  for_each (reshape1 (cmp_dim ^ 2)) (map3d div255 a).

(** [create_training_data(clean_train, clean_test, cmp_dim, out_dim)]. *)
Definition create_training_data `{PoissonGen G}
    (clean_train clean_test : list (list (list Z))) (cmp_dim out_dim : Z)
    : SE G (list (list Q) * list (list Q)) :=
  cmp_train ← lift (down_sample_list clean_train cmp_dim);
  cmp_test ← lift (down_sample_list clean_test cmp_dim);
  noisy_train_ ← random_poisson cmp_train;
  noisy_test_ ← random_poisson cmp_test;
  let noisy_train := map3d (λ x, clip x 0 255) noisy_train_ in
  let noisy_test := map3d (λ x, clip x 0 255) noisy_test_ in
  noisy_train ← lift (scale_and_flatten cmp_dim noisy_train);
  noisy_test ← lift (scale_and_flatten cmp_dim noisy_test);
  mret (noisy_train, noisy_test).

End DatasetBuilder.

(** ** The training notebook *)

Module Trainer.

(** A Python [dict] with string keys, in insertion order. *)
Definition dict (V : Type) : Type := list (string * V).

Definition dict_keys {V} (d : dict V) : list string := d.*1.

Fixpoint dict_lookup {V} (d : dict V) (key : string) : option V :=
  match d with
  | [] => None
  | (k, v) :: d' => if decide (k = key) then Some v else dict_lookup d' key
  end.

(** [d[key]] *)
Definition dict_get {V} (d : dict V) (key : string) : result V :=
  match dict_lookup d key with
  | Some v => Ok v
  | None => Raise (KeyError key)
  end.

(** [d[key] = v]: an existing key keeps its place, a new one goes last. *)
Fixpoint dict_set {V} (d : dict V) (key : string) (v : V) : dict V :=
  match d with
  | [] => [(key, v)]
  | (k, w) :: d' =>
      if decide (k = key) then (k, v) :: d' else (k, w) :: dict_set d' key v
  end.

(** The model object's interface: [fit] trains the parameters in place
    and returns a [History]; [fit p x y epochs batch_size split] gives the
    escaping exception, or the new parameters with [History.history]. Each
    call returns a fresh [History] object, as Keras does. *)
Class Keras (P X Y V : Type) :=
  fit : P → X → Y → Z → Z → Q → string + (P * dict (list V)).

(** What the outside sees of a run, in order. *)
Inductive event : Type :=
| Stdout (text : string)
| FitCall (model : nat) (epochs batch_size : Z) (validation_split : Q).

(** The store: the parameters of every model object, by reference, and
    the events so far (latest last). *)
Record world (P : Type) : Type := World {
  heap : nat → P;
  events : list event;
}.
Arguments World {P} _ _.
Arguments heap {P} _ _.
Arguments events {P} _.

Definition emit {P} (e : event) : SE (world P) unit :=
  λ w, (Ok tt, World (heap w) (events w ++ [e])).

Definition newline : string := String (Ascii.ascii_of_nat 10) EmptyString.

(** [print(text)] *)
Definition print {P} (text : string) : SE (world P) unit :=
  emit (Stdout (text +:+ newline)).

(** [in_model.fit(input_data, output_data, epochs=.., batch_size=..,
    validation_split=..).history] *)
Definition call_fit `{Keras P X Y V} (in_model : nat) (input_data : X)
    (output_data : Y) (epochs batch_size : Z) (validation_split : Q)
    : SE (world P) (dict (list V)) :=
  _ ← emit (FitCall in_model epochs batch_size validation_split);
  w ← get;
  match fit (heap w in_model) input_data output_data epochs batch_size
            validation_split with
  | inl e => raise (FitRaised e)
  | inr (p, history) =>
      _ ← put (World (<[in_model := p]> (heap w)) (events w));
      mret history
  end.

Definition length_msg (n m : nat) : string :=
  "Input lists must be of equal size. epochs_list has length " +:+ pretty n
    +:+ " but batch_sizes has length " +:+ pretty m +:+ ".".

Definition stage_msg (idx : nat) (epoch batch_size : Z) : string :=
  "Training Stage #" +:+ pretty (idx + 1)%nat +:+ " with " +:+ pretty epoch
    +:+ " epochs and a batch size of " +:+ pretty batch_size +:+ "."
    +:+ newline.

(** [for key in fit_hist_all.keys():
       fit_hist_all[key] = fit_hist_all[key] + fit_hist.history[key]]
    over the keys still to visit. *)
Fixpoint merge_keys {V} (keys : list string) (fit_hist_all history : dict (list V))
    : result (dict (list V)) :=
  match keys with
  | [] => Ok fit_hist_all
  | key :: keys' =>
      old ← dict_get fit_hist_all key;
      new ← dict_get history key;
      merge_keys keys' (dict_set fit_hist_all key (old ++ new)) history
  end.

Definition merge_history {V} (fit_hist_all history : dict (list V))
    : result (dict (list V)) :=
  merge_keys (dict_keys fit_hist_all) fit_hist_all history.

(** The local variable [fit_hist_all]: [None] until it is first bound. *)
Definition read_local {A} (name : string) (v : option A) : result A :=
  match v with
  | Some a => Ok a
  | None => Raise (UnboundLocalError name)
  end.

(** [batch_sizes[idx]] *)
Definition index {A} (l : list A) (idx : nat) : result A :=
  match l !! idx with
  | Some a => Ok a
  | None => Raise IndexError
  end.

(** The loop [for idx, epoch in enumerate(epochs_list)] from position
    [idx] on. *)
Fixpoint stages `{Keras P X Y V} (in_model : nat) (idx : nat)
    (epochs_list batch_sizes : list Z) (input_data : X) (output_data : Y)
    (fit_hist_all : option (dict (list V)))
    : SE (world P) (option (dict (list V))) :=
  match epochs_list with
  | [] => mret fit_hist_all
  | epoch :: rest =>
      batch_size ← lift (index batch_sizes idx);
      _ ← print (stage_msg idx epoch batch_size);
      history ← call_fit in_model input_data output_data epoch batch_size (2 # 10);
      merged ← lift (if decide (idx = 0%nat) then Ok history
                     else all ← read_local "fit_hist_all" fit_hist_all;
                          merge_history all history);
      stages in_model (S idx) rest batch_sizes input_data output_data (Some merged)
  end.

(** [fit_model(in_model, epochs_list, batch_sizes, input_data, output_data)] *)
Definition fit_model `{Keras P X Y V} (in_model : nat)
    (epochs_list batch_sizes : list Z) (input_data : X) (output_data : Y)
    : SE (world P) (nat * dict (list V)) :=
  if decide (length epochs_list ≠ length batch_sizes)
  then raise (ValueError (length_msg (length epochs_list) (length batch_sizes)))
  else
    fit_hist_all ← stages in_model 0 epochs_list batch_sizes input_data
                          output_data None;
    fit_hist_all ← lift (read_local "fit_hist_all" fit_hist_all);
    mret (in_model, fit_hist_all).

(** [labels - 1] on a uint8 array: the difference modulo 2^8. *)
Definition uint8_sub (x y : Z) : Z := (x - y) mod 256.

Definition maxZ (l : list Z) : option Z :=
  match l with
  | [] => None
  | x :: l' => Some (foldr Z.max x l')
  end.

(** [keras.utils.to_categorical(x, num_classes)] on a 1-D integer array:
    a zero matrix with [categorical[i, x[i]] = 1]; an index is valid in
    [-num_classes .. num_classes - 1], negative ones counting from the
    end. *)
Definition to_categorical (x : list Z) (num_classes : Z) : result (list (list Q)) :=
  num_classes ←
    (if num_classes =? 0
     then match maxZ x with
          | Some m => Ok (m + 1)
          | None => Raise (ValueError "zero-size array to reduction operation maximum which has no identity")
          end
     else Ok num_classes);
  if num_classes <? 0 then Raise (ValueError "negative dimensions are not allowed")
  else if forallb (λ v, (- num_classes <=? v) && (v <? num_classes)) x
  then Ok (map (λ v, <[Z.to_nat (if v <? 0 then v + num_classes else v) := 1%Q]>
                       (replicate (Z.to_nat num_classes) 0%Q)) x)
  else Raise IndexError.

(** [to_categorical(labels - 1, num_classes=26)] *)
Definition encode_labels (labels : list Z) : result (list (list Q)) :=
  to_categorical (map (λ l, uint8_sub l 1) labels) 26.

End Trainer.

(** ** Specification vocabulary

    What the prose of the specification talks about, stated on the data
    alone, independently of the code above. *)

Module Spec.
Import DatasetBuilder Trainer.

(** [a[r][c]] *)
Definition at2 {A} (a : list (list A)) (r c : nat) : option A :=
  a !! r ≫= (.!! c).

(** [blk] lists, row by row, the [w]-by-[w] block of [img] in block row
    [i] and block column [j] of the tiling by non-overlapping blocks. *)
Definition is_block (img : list (list Z)) (w i j : nat) (blk : list Z) : Prop :=
  length blk = (w * w)%nat ∧
  ∀ a b, (a < w)%nat → (b < w)%nat →
    blk !! (a * w + b)%nat = at2 img (i * w + a) (j * w + b).

Definition count_lt (l : list Z) (v : Z) : nat := length (filter (λ x, x < v) l).
Definition count_le (l : list Z) (v : Z) : nat := length (filter (λ x, x ≤ v) l).

(** [v] is the value of rank [k] (from 0) of [l]: it occurs in [l], at most
    [k] entries are strictly below it and more than [k] are at or below. *)
Definition has_rank (l : list Z) (k : nat) (v : Z) : Prop :=
  v ∈ l ∧ (count_lt l v ≤ k)%nat ∧ (k < count_le l v)%nat.

(** The exact median: the middle value for an odd count, the midpoint of
    the two middle values for an even one. *)
Definition exact_median (l : list Z) (m : Q) : Prop :=
  let n := length l in
  if Nat.odd n
  then ∃ v, has_rank l (n / 2) v ∧ m = inject_Z v
  else ∃ lo hi, has_rank l (n / 2 - 1) lo ∧ has_rank l (n / 2) hi ∧
                (m == (inject_Z lo + inject_Z hi) / 2)%Q.

(** The grid of medians of the [w]-by-[w] blocks of [img], [nr] block rows
    by [nc] block columns. *)
Definition block_medians (img : list (list Z)) (w nr nc : nat) : list (list Q) :=
  map (λ i, map (λ j, median (concat (window img (i * w) (j * w) w w))) (seq 0 nc))
      (seq 0 nr).

(** What [down_sample_list] stores for one image at a level that fits:
    the block medians below 15, the image itself (as floats) otherwise. *)
Definition compressed (level : Z) (img : list (list Z)) : list (list Q) :=
  if level <? 15
  then block_medians img (Z.to_nat (28 / level)) (Z.to_nat level) (Z.to_nat level)
  else map2d inject_Z img.

(** A uint8 image of the corpus: 28 by 28, intensities 0 to 255. *)
Definition raw_image (img : list (list Z)) : Prop :=
  is_grid 28 28 img ∧ Forall (Forall (λ p, 0 ≤ p ≤ 255)) img.

(** The four compression levels of the data model. *)
Definition compression_level (level : Z) : Prop :=
  level = 4 ∨ level = 7 ∨ level = 14 ∨ level = 28.

(** The levels at which a 28-by-28 image fills its slot: below 15, as many
    windows of side [28 // level] fit along an axis as the level says; from
    15 on, the image is kept and must itself be level-by-level. *)
Definition level_fits (level : Z) : Prop :=
  (1 ≤ level < 15 ∧ 28 / (28 / level) = level) ∨ level = 28.

Definition in_range {A} (P : A → Prop) (a : list (list (list A))) : Prop :=
  Forall (Forall (Forall P)) a.

Definition sumQ (l : list Q) : Q := foldr Qplus 0%Q l.

(** One sample of [down_sample_list] on its own: what the loop body
    stores for [image]. *)
Definition one_slot (cmp_dim : Z) (image : list (list Z)) : result (list (list Q)) :=
  value ← median_downsampling image cmp_dim;
  assign_slot cmp_dim value.

(** One sample of [create_training_data] on its own: compress [image],
    draw the noise from generator state [g], clamp, scale, flatten. *)
Definition noisy_sample `{PoissonGen G} (cmp_dim : Z) (image : list (list Z))
    : SE G (list Q) :=
  slot ← lift (one_slot cmp_dim image);
  draws ← for_each_SE (for_each_SE draw) slot;
  lift (reshape1 (cmp_dim ^ 2) (map2d div255 (map2d (λ x, clip x 0 255) draws))).

(** Generator and output after the samples of [images], one after the
    other from state [g]; [None] once a sample raises. *)
Fixpoint samples_from `{PoissonGen G} (cmp_dim : Z) (images : list (list (list Z)))
    (g : G) : option (list (list Q) * G) :=
  match images with
  | [] => Some ([], g)
  | image :: rest =>
      match noisy_sample cmp_dim image g with
      | (inr v, g') =>
          match samples_from cmp_dim rest g' with
          | Some (vs, g'') => Some (v :: vs, g'')
          | None => None
          end
      | (inl _, _) => None
      end
  end.

(** The stages of a plan run one after the other on parameters [p]: the
    parameters and the history after each stage, or [None] when a stage's
    [fit] raises. *)
Fixpoint train_seq `{Keras P X Y V} (p : P) (x : X) (y : Y) (plan : list (Z * Z))
    : option (list (P * dict (list V))) :=
  match plan with
  | [] => Some []
  | (epochs, batch_size) :: rest =>
      match fit p x y epochs batch_size (2 # 10) with
      | inl _ => None
      | inr (p', h) => (λ runs, (p', h) :: runs) <$> train_seq p' x y rest
      end
  end.

(** The events of the stages of a plan, numbered from [idx]. *)
Fixpoint stage_events (in_model idx : nat) (plan : list (Z * Z)) : list event :=
  match plan with
  | [] => []
  | (epochs, batch_size) :: rest =>
      Stdout (stage_msg idx epochs batch_size +:+ newline)
        :: FitCall in_model epochs batch_size (2 # 10)
        :: stage_events in_model (S idx) rest
  end.

(** The per-epoch values of [key] over the stage histories [hs], in stage
    order. *)
Definition concat_histories {V} (key : string) (hs : list (dict (list V))) : list V :=
  concat (map (λ h, default [] (dict_lookup h key)) hs).

End Spec.

(** ** Sample data *)

Module Examples.
Import DatasetBuilder Trainer.

(** The synthetic image with every pixel equal to 100. *)
Definition flat_image : list (list Z) := replicate 28 (replicate 28 100).

(** An image with varied intensities. *)
Definition ramp_image : list (list Z) :=
  map (λ i, map (λ j, Z.of_nat (i * 28 + j) mod 256) (seq 0 28)) (seq 0 28).

(** A deterministic stand-in for the generator: the state counts the draws
    and shifts the rate's numerator by a small amount around zero. *)
#[export] Instance counter_gen : PoissonGen Z :=
  λ lam g, (Qnum lam + g mod 7 - 3, g + 1).

(** A model whose parameters count the epochs trained so far and whose
    history holds one entry per epoch run, as a Keras [History] does: no
    epoch, no key. *)
#[export] Instance epoch_counter : Keras Z unit unit Z :=
  λ p _ _ epochs batch_size _,
    if epochs <? 0 then inl "epochs must be non-negative"
    else inr (p + epochs,
              if epochs =? 0 then []
              else [("loss", map (λ i, p + Z.of_nat i) (seq 0 (Z.to_nat epochs)));
                    ("val_loss", replicate (Z.to_nat epochs) batch_size)]).

Definition fresh_world : world Z := World (λ _, 0) [].

End Examples.

(** ** The cells that drive the two notebooks

    The builder's last cell and the trainer's "Load Training Data" cell, over
    a file system that holds directories and HDF5 containers.  [os.path],
    [os.makedirs] and [h5py] are library code, modelled from their documented
    behaviour on the calls the cells make; the corpus
    ([extract_training_samples], [extract_test_samples]) is an input. *)

Module Notebook.
Import DatasetBuilder Trainer.

(** An HDF5 container: its datasets by name. *)
Abbreviation h5file := (gmap.gmap string (list (list Q))).

(** The directories that exist and the containers, by path. *)
Record fs : Type := FS {
  dirs : gmap.gset string;
  files : gmap.gmap string h5file;
}.

(** What can end a cell: an exception of the notebooks' own code or of
    numpy and Keras, an [OSError] of the file system, a [TypeError]. *)
Inductive failure : Type :=
| PyError (e : exn)
| OSError (path : string)
| TypeError (msg : string).

Definition outcome (A : Type) : Type := failure + A.

#[global] Instance outcome_ret : MRet outcome := λ A x, inr x.
#[global] Instance outcome_bind : MBind outcome :=
  λ A B f m, match m with inl e => inl e | inr x => f x end.

Definition of_result {A} (r : result A) : outcome A :=
  match r with
  | inl e => inl (PyError e)
  | inr a => inr a
  end.

(** The part of a path before its last "/", if it has one. *)
Fixpoint split_dir (path : string) : option string :=
  match path with
  | EmptyString => None
  | String c rest =>
      match split_dir rest with
      | Some d => Some (String c d)
      | None => if Ascii.eqb c (Ascii.ascii_of_nat 47) then Some EmptyString else None
      end
  end.

(** [os.path.dirname(path)] *)
Definition dirname (path : string) : string := default EmptyString (split_dir path).

(** [os.path.exists(path)] *)
Definition path_exists (path : string) (d : fs) : bool :=
  bool_decide (path ∈ dirs d) || bool_decide (is_Some (files d !! path)).

(** [os.makedirs(path)] for a path of one component. *)
Definition makedirs (path : string) (d : fs) : outcome fs :=
  if path_exists path d then inl (OSError path)
  else inr (FS ({[path]} ∪ dirs d) (files d)).

(** [h5py.File(path, 'w')]: the directory of the path must exist and the
    path must not be a directory; the container is created, or emptied
    when it exists. *)
Definition h5_create (path : string) (d : fs) : outcome fs :=
  if bool_decide (dirname path = EmptyString ∨ dirname path ∈ dirs d)
     && negb (bool_decide (path ∈ dirs d))
  then inr (FS (dirs d) (<[path := ∅]> (files d)))
  else inl (OSError path).

(** [f.create_dataset(name, data=data, compression='gzip')] on the
    container opened at [path]; the compression is lossless.  A compressed
    dataset is stored in chunks, and HDF5 refuses the chunks that h5py
    picks for an array without rows. *)
Definition create_dataset (path name : string) (data : list (list Q)) (d : fs)
    : outcome fs :=
  match files d !! path with
  | None => inl (OSError path)
  | Some f =>
      match f !! name with
      | Some _ => inl (PyError (ValueError "Unable to create dataset (name already exists)"))
      | None =>
          if bool_decide (data = [])
          then inl (PyError (ValueError "Unable to create dataset (chunk size must be <= maximum dimension size for fixed-sized dimensions)"))
          else inr (FS (dirs d) (<[path := <[name := data]> f]> (files d)))
      end
  end.

(** [h5py.File(path, 'r')] *)
Definition h5_open (path : string) (d : fs) : outcome h5file :=
  match files d !! path with
  | Some f => inr f
  | None => inl (OSError path)
  end.

(** [f[name][:]] *)
Definition h5_read (f : h5file) (name : string) : outcome (list (list Q)) :=
  match f !! name with
  | Some a => inr a
  | None => inl (PyError (KeyError name))
  end.

(** *** The builder's driver cell *)

Definition directory : string := "training_data".
Definition out_dim : Z := 28.

(** [f'{directory}/emnist_{cmp_dim}x{cmp_dim}_train.h5'] *)
Definition dat_file_name (cmp_dim : Z) : string :=
  directory +:+ "/emnist_" +:+ pretty cmp_dim +:+ "x" +:+ pretty cmp_dim
    +:+ "_train.h5".

(** The generator and the disk. *)
Record machine (G : Type) : Type := Machine {
  gen : G;
  disk : fs;
}.
Arguments Machine {G} _ _.
Arguments gen {G} _.
Arguments disk {G} _.

Definition IO (G A : Type) : Type := machine G → outcome A * machine G.

#[global] Instance IO_ret {G} : MRet (IO G) := λ A x m, (inr x, m).
#[global] Instance IO_bind {G} : MBind (IO G) :=
  λ A B f c m,
    match c m with
    | (inl e, m') => (inl e, m')
    | (inr x, m') => f x m'
    end.

(** A computation of the builder, on the generator. *)
Definition with_gen {G A} (c : SE G A) : IO G A :=
  λ m, let '(r, g') := c (gen m) in (of_result r, Machine g' (disk m)).

(** A change of the disk. *)
Definition on_disk {G} (op : fs → outcome fs) : IO G unit :=
  λ m, match op (disk m) with
       | inl e => (inl e, m)
       | inr d' => (inr tt, Machine (gen m) d')
       end.

Fixpoint for_each_IO {G A} (body : A → IO G unit) (l : list A) : IO G unit :=
  match l with
  | [] => mret tt
  | x :: l' => _ ← body x; for_each_IO body l'
  end.

(** The body of [for cmp_dim in [4,7,14,28]]. *)
Definition build_level `{PoissonGen G}
    (clean_train_og clean_test_og : list (list (list Z))) (cmp_dim : Z) : IO G unit :=
  let dat_file := dat_file_name cmp_dim in
  noisy ← with_gen (create_training_data clean_train_og clean_test_og cmp_dim out_dim);
  _ ← on_disk (h5_create dat_file);
  _ ← on_disk (create_dataset dat_file "noisy_train" noisy.1);
  on_disk (create_dataset dat_file "noisy_test" noisy.2).

(** The cell: make the directory when nothing has its name, then build and
    store the four levels in turn. *)
Definition build_datasets `{PoissonGen G}
    (clean_train_og clean_test_og : list (list (list Z))) : IO G unit :=
  _ ← (λ m, if path_exists directory (disk m) then (inr tt, m)
            else on_disk (makedirs directory) m);
  for_each_IO (build_level clean_train_og clean_test_og) [4; 7; 14; 28].

(** *** The trainer's "Load Training Data" cell *)

(** A value of [in_signals_by_cmp]: the list [[]] that [dict.fromkeys]
    shares among the keys, or a dictionary of signals. *)
Inductive signals : Type :=
| Placeholder
| Signals (d : dict (list (list Q))).

(** [dict.fromkeys(keys, v)] *)
Definition dict_fromkeys {V} (keys : list string) (v : V) : dict V :=
  foldl (λ d key, dict_set d key v) [] keys.

(** [in_signals_by_cmp = dict.fromkeys(['4x4','7x7','14x14','28x28'],[])] *)
Definition in_signals_by_cmp0 : dict signals :=
  dict_fromkeys ["4x4"; "7x7"; "14x14"; "28x28"] Placeholder.

(** [f'{cmp_dim}x{cmp_dim}'] *)
Definition signal_key (cmp_dim : Z) : string :=
  pretty cmp_dim +:+ "x" +:+ pretty cmp_dim.

(** The body of the loading loop. *)
Definition load_level (d : fs) (in_signals_by_cmp : dict signals) (cmp_dim : Z)
    : outcome (dict signals) :=
  let dat_file := dat_file_name cmp_dim in
  f ← h5_open dat_file d;
  noisy_train ← h5_read f "noisy_train";
  noisy_test ← h5_read f "noisy_test";
  let in_signals := dict_set (dict_set [] "train" noisy_train) "test" noisy_test in
  mret (dict_set in_signals_by_cmp (signal_key cmp_dim) (Signals in_signals)).

Fixpoint load_levels (d : fs) (in_signals_by_cmp : dict signals) (levels : list Z)
    : outcome (dict signals) :=
  match levels with
  | [] => mret in_signals_by_cmp
  | cmp_dim :: rest =>
      in_signals_by_cmp ← load_level d in_signals_by_cmp cmp_dim;
      load_levels d in_signals_by_cmp rest
  end.

(** What the cell leaves in the notebook's globals. *)
Record training_data : Type := TrainingData {
  in_signals_by_cmp : dict signals;
  clean_train : list (list Q);
  clean_test : list (list Q);
  train_labels : list (list Q);
  test_labels : list (list Q);
}.

(** The cell, given the corpus. *)
Definition load_training_data (d : fs)
    (clean_train_og : list (list (list Z))) (train_labels_og : list Z)
    (clean_test_og : list (list (list Z))) (test_labels_og : list Z)
    : outcome training_data :=
  signals ← load_levels d in_signals_by_cmp0 [4; 7; 14; 28];
  clean_train ← of_result (scale_and_flatten out_dim clean_train_og);
  clean_test ← of_result (scale_and_flatten out_dim clean_test_og);
  let train_labels := map (λ l, uint8_sub l 1) train_labels_og in
  let test_labels := map (λ l, uint8_sub l 1) test_labels_og in
  train_labels ← of_result (to_categorical train_labels 26);
  test_labels ← of_result (to_categorical test_labels 26);
  mret (TrainingData signals clean_train clean_test train_labels test_labels).

(** [in_signals_by_cmp[key]['train']], the features of a training cell. *)
Definition train_signals (data : training_data) (key : string)
    : outcome (list (list Q)) :=
  entry ← of_result (dict_get (in_signals_by_cmp data) key);
  match entry with
  | Placeholder => inl (TypeError "list indices must be integers or slices, not str")
  | Signals d => of_result (dict_get d "train")
  end.

End Notebook.

(** ** The architecture builder

    [build_SCRNet] of the trainer, as far as it is decided when the graph is
    built: the layers, how they are wired and the shape of every symbolic
    tensor (without the batch axis).  The shape rules of the Keras layers
    are library behaviour, modelled from their documentation for positive
    sizes; a target of [Reshape] with a size below 1 (among them the
    wildcard -1) is outside the model and refused.  The weights, which
    Keras draws at random, are not modelled. *)

Module SCRNet.
Import Trainer.

Inductive activation : Type := Sigmoid | Relu | Softmax.
Inductive padding : Type := Same | Valid.

Inductive layer : Type :=
| Input (shape : list Z)
| Dense (units : Z) (act : activation)
| Reshape (target_shape : list Z)
| Conv2D (filters : Z) (kernel_size : Z * Z) (act : activation) (pad : padding)
| MaxPooling2D (pool_size : Z * Z)
| Flatten
| Add.

(** A symbolic tensor: the layer it comes out of with the name given to
    that layer, if any, the tensors the layer was called on, and its
    shape. *)
#[warnings="-register-all"] Inductive tensor : Type :=
| Tensor (name : option string) (made_by : layer) (args : list tensor)
         (shape : list Z).

Definition name_of (t : tensor) : option string :=
  match t with Tensor name _ _ _ => name end.
Definition layer_of (t : tensor) : layer :=
  match t with Tensor _ made_by _ _ => made_by end.
Definition args_of (t : tensor) : list tensor :=
  match t with Tensor _ _ args _ => args end.
Definition shape (t : tensor) : list Z :=
  match t with Tensor _ _ _ shape => shape end.

Definition product (s : list Z) : Z := foldr Z.mul 1 s.

(** Broadcasting of two shapes given last axis first. *)
Fixpoint broadcast_rev (a b : list Z) : option (list Z) :=
  match a, b with
  | [], _ => Some b
  | _, [] => Some a
  | x :: a', y :: b' =>
      match broadcast_rev a' b' with
      | Some rest =>
          if decide (x = y) then Some (x :: rest)
          else if decide (x = 1) then Some (y :: rest)
          else if decide (y = 1) then Some (x :: rest)
          else None
      | None => None
      end
  end.

Definition incompatible {A} : result A :=
  Raise (ValueError "input is incompatible with the layer").

(** The shape of what a layer returns on arguments of the given shapes. *)
Definition out_shape (l : layer) (args : list (list Z)) : result (list Z) :=
  match l, args with
  | Input shape, [] => Ok shape
  | Dense units _, [s] =>
      if (1 <=? units) && negb (bool_decide (s = []))
      then Ok (take (length s - 1) s ++ [units])
      else incompatible
  | Reshape target_shape, [s] =>
      if forallb (λ n, 1 <=? n) target_shape && (product s =? product target_shape)
      then Ok target_shape
      else incompatible
  | Conv2D filters (kh, kw) _ pad, [[h; w; _]] =>
      if 1 <=? filters then
        match pad with
        | Same => Ok [h; w; filters]
        | Valid =>
            if (kh <=? h) && (kw <=? w)
            then Ok [h - kh + 1; w - kw + 1; filters]
            else incompatible
        end
      else incompatible
  | MaxPooling2D (ph, pw), [[h; w; c]] =>
      if (ph <=? h) && (pw <=? w)
      then Ok [(h - ph) / ph + 1; (w - pw) / pw + 1; c]
      else incompatible
  | Flatten, [s] => Ok [product s]
  | Add, [a; b] =>
      match broadcast_rev (reverse a) (reverse b) with
      | Some s => Ok (reverse s)
      | None => incompatible
      end
  | _, _ => incompatible
  end.

(** [layer(args)], for a layer under [name]. *)
Definition call (name : option string) (l : layer) (args : list tensor)
    : result tensor :=
  s ← out_shape l (map shape args);
  mret (Tensor name l args s).

(** A compiled model. *)
Record model : Type := Model {
  inputs : tensor;
  outputs : list tensor;
  learning_rate : Q;
  loss : dict string;
  loss_weights : dict Q;
  metrics : dict string;
}.

(** [build_SCRNet(in_dim, out_dim, enc_dim, learning_rate)] *)
Definition build_SCRNet (in_dim out_dim enc_dim : Z) (learning_rate : Q)
    : result model :=
  inputs ← call None (Input [in_dim ^ 2]) [];
  Dec1 ← call None (Dense (out_dim ^ 2) Sigmoid) [inputs];
  reshpimg ← call None (Reshape [out_dim; out_dim; 1]) [Dec1];
  conv1 ← call None (Conv2D 32 (3, 3) Relu Same) [reshpimg];
  maxp1 ← call None (MaxPooling2D (2, 2)) [conv1];
  conv2 ← call None (Conv2D 64 (3, 3) Relu Valid) [maxp1];
  maxp2 ← call None (MaxPooling2D (2, 2)) [conv2];
  flatt ← call None Flatten [maxp2];
  hid1 ← call None (Dense 128 Relu) [flatt];
  dpred ← call (Some "digit-pred") (Dense 26 Softmax) [hid1];
  Enc2_hid ← call None (Dense enc_dim Sigmoid) [Dec1];
  Enc2 ← call None (Dense (in_dim ^ 2) Sigmoid) [Enc2_hid];
  dpred_transformed ← call None (Dense (in_dim ^ 2) Sigmoid) [dpred];
  addenc ← call None Add [Enc2; dpred_transformed];
  Dec2_hid ← call None (Dense enc_dim Sigmoid) [addenc];
  reconimg ← call (Some "reconimg") (Dense (out_dim ^ 2) Sigmoid) [Dec2_hid];
  mret (Model inputs [reconimg; dpred] learning_rate
          [("reconimg", "mse"); ("digit-pred", "mse")]
          [("reconimg", 1%Q); ("digit-pred", 1%Q)]
          [("reconimg", "mse"); ("digit-pred", "categorical_crossentropy")]).

(** The defaults of the last two parameters: [enc_dim = 256],
    [learning_rate = 0.001]. *)
Definition build_SCRNet_for (in_dim out_dim : Z) : result model :=
  build_SCRNet in_dim out_dim 256 (1 # 1000).

End SCRNet.

(** ** More vocabulary *)

Module Spec2.
Import Trainer.

(** The world after the banner and the [fit] call of stage [idx], when the
    call returned parameters [p']. *)
Definition after_stage {P} (in_model idx : nat) (epoch b : Z) (p' : P)
    (w : world P) : world P :=
  World (<[in_model := p']> (heap w))
        ((events w ++ [Stdout (stage_msg idx epoch b +:+ newline)])
           ++ [FitCall in_model epoch b (2 # 10)]).

(** The world after the banner and the [fit] call of stage [idx], when the
    call raised. *)
Definition after_failed_stage {P} (in_model idx : nat) (epoch b : Z)
    (w : world P) : world P :=
  World (heap w)
        ((events w ++ [Stdout (stage_msg idx epoch b +:+ newline)])
           ++ [FitCall in_model epoch b (2 # 10)]).

(** The container the builder's cell leaves for one level: the two
    datasets of a pair of noisy arrays. *)
Definition container (noisy : list (list Q) * list (list Q)) : Notebook.h5file :=
  <["noisy_test" := noisy.2]> (<["noisy_train" := noisy.1]> ∅).

(** The entry of [in_signals_by_cmp] for a pair of noisy arrays. *)
Definition signals_of (noisy : list (list Q) * list (list Q)) : Notebook.signals :=
  Notebook.Signals [("train", noisy.1); ("test", noisy.2)].

(** [in_signals_by_cmp] once the loading loop has stored four pairs of
    noisy arrays. *)
Definition signals_table (r4 r7 r14 r28 : list (list Q) * list (list Q))
    : dict Notebook.signals :=
  [("4x4", signals_of r4); ("7x7", signals_of r7);
   ("14x14", signals_of r14); ("28x28", signals_of r28)].

(** The container of [level] is on the disk and holds the pair [noisy]. *)
Definition stored (d : Notebook.fs) (level : Z)
    (noisy : list (list Q) * list (list Q)) : Prop :=
  ∃ f, Notebook.files d !! Notebook.dat_file_name level = Some f
       ∧ f !! "noisy_train" = Some noisy.1
       ∧ f !! "noisy_test" = Some noisy.2.

(** The shape of the flattened features that the classifier of a model
    reads: the argument of the hidden layer under its second output. *)
Definition classifier_features (model : SCRNet.model) : option (list Z) :=
  dpred ← SCRNet.outputs model !! 1%nat;
  hid1 ← head (SCRNet.args_of dpred);
  flatt ← head (SCRNet.args_of hid1);
  Some (SCRNet.shape flatt).

(** A batch of vectors that a tensor of the given shape accepts. *)
Definition fits (t : SCRNet.tensor) (batch : list (list Q)) : Prop :=
  Forall (λ v, SCRNet.shape t = [Z.of_nat (length v)]) batch.

End Spec2.

(** ** More sample data *)

Module Examples2.

(** [img] with every pixel outside its top-left [m]-by-[m] corner set to 0. *)
Definition zero_margin (m : nat) (img : list (list Z)) : list (list Z) :=
  imap (λ i row, imap (λ j p, if (i <? m)%nat && (j <? m)%nat then p else 0) row) img.

(** A disk with the four containers, each holding one train and one test
    vector of zeros of its level's length. *)
Definition tiny_disk : Notebook.fs :=
  Notebook.FS ∅
    (foldr (λ level files,
              <[Notebook.dat_file_name level
                := Spec2.container ([replicate (Z.to_nat (level * level)) 0%Q],
                                    [replicate (Z.to_nat (level * level)) 0%Q])]>
                files)
           ∅ [4; 7; 14; 28]).

End Examples2.

(** * Properties *)

(** ** The staged trainer *)

Module TrainerFacts.
Import Trainer Spec.

Arguments stage_msg : simpl never.
Arguments String.append : simpl never.

Section Generic.
Context `{K : Keras P X Y V}.
Implicit Types (w : world P) (x : X) (y : Y) (d h : dict (list V)).

Lemma bind_lift_ok {A B} (a : A) (k : A → SE (world P) B) w :
  (lift (Ok a) ≫= k) w = k a w.
Proof. reflexivity. Qed.

(** No raise point of the loop is the length check's [ValueError]. *)
Lemma merge_keys_not_ValueError keys d h msg :
  merge_keys keys d h ≠ Raise (ValueError msg).
Proof.
  revert d. induction keys as [|key keys IH]; intros d; simpl; [done|].
  unfold dict_get.
  destruct (dict_lookup d key); simpl; [|done].
  destruct (dict_lookup h key); simpl; [apply IH|done].
Qed.

Lemma stages_not_ValueError in_model el : ∀ idx bs x y acc w msg,
  (stages in_model idx el bs x y acc w).1 ≠ Raise (ValueError msg).
Proof.
  induction el as [|epoch rest IH]; intros idx bs x y acc w msg; [done|].
  cbn [stages]. unfold index.
  destruct (bs !! idx) as [b|]; [|done].
  rewrite bind_lift_ok.
  unfold print, emit, call_fit, emit, get, put, raise, lift, mbind, SE_bind, mret, SE_ret.
  cbn.
  destruct (fit _ x y epoch b _) as [e|[p history]]; cbn; [done|].
  destruct (decide (idx = 0%nat)); cbn.
  - apply IH.
  - destruct acc as [all|]; cbn; [|done].
    destruct (merge_history all history) as [e|merged] eqn:E; cbn.
    + unfold Raise. intros [= ->]. by eapply merge_keys_not_ValueError.
    + apply IH.
Qed.

(** *** Dictionaries *)

Lemma dict_lookup_set {A} (d : dict A) key v key' :
  dict_lookup (dict_set d key v) key'
  = if decide (key = key') then Some v else dict_lookup d key'.
Proof.
  induction d as [|[k0 v0] d IH]; simpl.
  - by destruct (decide (key = key')).
  - destruct (decide (k0 = key)) as [->|Hne]; simpl.
    + by destruct (decide (key = key')).
    + rewrite IH. destruct (decide (k0 = key')) as [->|]; [|done].
      by rewrite decide_False by congruence.
Qed.

Lemma dict_lookup_keys {A} (d : dict A) key :
  is_Some (dict_lookup d key) ↔ key ∈ dict_keys d.
Proof.
  unfold dict_keys. induction d as [|[k0 v0] d IH]; simpl.
  - split; [by intros [? ?]|by intros ?%elem_of_nil].
  - rewrite elem_of_cons. destruct (decide (k0 = key)) as [->|Hne].
    + split; [by left|by eexists].
    + rewrite IH. split; [by right|]. intros [->|?]; done.
Qed.

Lemma dict_keys_set {A} (d : dict A) key v :
  is_Some (dict_lookup d key) → dict_keys (dict_set d key v) = dict_keys d.
Proof.
  unfold dict_keys. induction d as [|[k0 v0] d IH]; simpl.
  - by intros [? ?].
  - destruct (decide (k0 = key)) as [->|Hne]; simpl; [done|].
    intros Hs. f_equal. by apply IH.
Qed.

(** *** The merge loop *)

Lemma merge_keys_spec h : ∀ keys d,
  NoDup keys →
  (∀ key, key ∈ keys → is_Some (dict_lookup d key) ∧ is_Some (dict_lookup h key)) →
  ∃ d', merge_keys keys d h = Ok d'
        ∧ dict_keys d' = dict_keys d
        ∧ ∀ key, dict_lookup d' key
                 = if decide (key ∈ keys)
                   then old ← dict_lookup d key;
                        Some (old ++ default [] (dict_lookup h key))
                   else dict_lookup d key.
Proof.
  induction keys as [|k keys IH]; intros d Hnd Hin.
  - exists d. split; [done|]. split; [done|].
    intros key. rewrite decide_False; [done|]. apply not_elem_of_nil.
  - apply list.NoDup_cons in Hnd as [Hk Hnd].
    destruct (Hin k) as [[old Hold] [new Hnew]]; [by left|].
    destruct (IH (dict_set d k (old ++ new)) Hnd) as (d' & Hrun & Hkeys & Hlook).
    { intros key Hkey. rewrite dict_lookup_set.
      destruct (decide (k = key)) as [->|]; [done|].
      apply Hin. by right. }
    exists d'. split; [|split].
    + simpl. unfold dict_get. rewrite Hold, Hnew. simpl. exact Hrun.
    + rewrite Hkeys. apply dict_keys_set. by rewrite Hold.
    + intros key. rewrite Hlook, dict_lookup_set.
      destruct (decide (k = key)) as [<-|Hne].
      * rewrite decide_False by done. rewrite decide_True by (by left).
        by rewrite Hold, Hnew.
      * destruct (decide (key ∈ keys)) as [Hkey|Hkey].
        -- by rewrite decide_True by (by right).
        -- rewrite decide_False; [done|].
           rewrite elem_of_cons. intros [->|?]; done.
Qed.

Lemma merge_history_spec d h :
  NoDup (dict_keys d) →
  (∀ key, key ∈ dict_keys d → is_Some (dict_lookup h key)) →
  ∃ d', merge_history d h = Ok d'
        ∧ dict_keys d' = dict_keys d
        ∧ ∀ key, key ∈ dict_keys d →
            dict_lookup d' key
            = (old ← dict_lookup d key; Some (old ++ default [] (dict_lookup h key))).
Proof.
  intros Hnd Hin.
  destruct (merge_keys_spec h (dict_keys d) d Hnd) as (d' & Hrun & Hkeys & Hlook).
  { intros key Hkey. split; [by apply dict_lookup_keys|by apply Hin]. }
  exists d'. split; [done|]. split; [done|].
  intros key Hkey. by rewrite Hlook, decide_True.
Qed.

Lemma last_cons_default {A} (d a : A) (l : list A) :
  default d (list.last (a :: l)) = default a (list.last l).
Proof.
  destruct l as [|b l _] using rev_ind; [done|].
  by rewrite app_comm_cons, !last_snoc.
Qed.

(** *** The loop after its first round *)

Lemma stages_tail in_model x y : ∀ (plan : list (Z * Z)) idx pre_bs all w runs,
  idx = length pre_bs → idx ≠ 0%nat →
  train_seq (heap w in_model) x y plan = Some runs →
  NoDup (dict_keys all) →
  (∀ h key, h ∈ runs.*2 → key ∈ dict_keys all → is_Some (dict_lookup h key)) →
  ∃ merged w',
    stages in_model idx plan.*1 (pre_bs ++ plan.*2) x y (Some all) w
    = (Ok (Some merged), w')
    ∧ heap w' in_model = default (heap w in_model) (list.last runs.*1)
    ∧ (∀ r, r ≠ in_model → heap w' r = heap w r)
    ∧ events w' = events w ++ stage_events in_model idx plan
    ∧ dict_keys merged = dict_keys all
    ∧ ∀ key, key ∈ dict_keys all →
        dict_lookup merged key
        = (old ← dict_lookup all key; Some (old ++ concat_histories key runs.*2)).
Proof.
  induction plan as [|[epoch b] plan IH]; intros idx pre_bs all w runs Hidx Hnz Hrun Hnd Hkeys.
  - injection Hrun as <-. exists all, w. simpl.
    split; [done|]. split; [done|]. split; [done|].
    split; [by rewrite app_nil_r|]. split; [done|].
    intros key Hkey. apply dict_lookup_keys in Hkey as [old ->]. simpl.
    unfold concat_histories. simpl. by rewrite app_nil_r.
  - simpl in Hrun.
    destruct (fit (heap w in_model) x y epoch b (2 # 10)) as [e|[p' h]] eqn:Hfit; [done|].
    destruct (train_seq p' x y plan) as [runs'|] eqn:Hrun'; [|done].
    injection Hrun as <-.
    destruct (merge_history_spec all h Hnd) as (all1 & Hm & Hk1 & Hl1).
    { intros key Hkey. apply (Hkeys h key); [|done]. simpl. by left. }
    set (w2 := World (<[in_model := p']> (heap w))
                     ((events w ++ [Stdout (stage_msg idx epoch b +:+ newline)])
                        ++ [FitCall in_model epoch b (2 # 10)])).
    destruct (IH (S idx) (pre_bs ++ [b]) all1 w2 runs') as
      (merged & w' & Hst & Hheap & Hother & Hev & Hk & Hl).
    { rewrite length_app. simpl. lia. }
    { done. }
    { subst w2. simpl. by rewrite fn_lookup_insert. }
    { by rewrite Hk1. }
    { intros h' key Hh' Hkey. rewrite Hk1 in Hkey.
      apply (Hkeys h' key); [|done]. simpl. by right. }
    exists merged, w'. split; [|split; [|split; [|split; [|split]]]].
    + rewrite <- Hst. rewrite !fmap_cons. cbn [fst snd].
      assert (Hb : ((pre_bs ++ [b]) ++ plan.*2) !! idx = Some b).
      { rewrite <- app_assoc. by apply list_lookup_middle. }
      replace (pre_bs ++ b :: plan.*2) with ((pre_bs ++ [b]) ++ plan.*2)
        by (by rewrite <- app_assoc).
      cbn [stages]. unfold index. rewrite Hb.
      unfold print, emit, call_fit, emit, get, put, raise, lift, mbind, SE_bind,
        mret, SE_ret, Ok. cbn.
      rewrite Hfit. rewrite decide_False by done.
      unfold read_local, result_bind. cbn. by rewrite Hm.
    + rewrite Hheap. subst w2. cbn [heap]. rewrite fn_lookup_insert.
      rewrite fmap_cons. cbn [fst]. by rewrite last_cons_default.
    + intros r Hr. rewrite Hother by done. subst w2. simpl.
      by rewrite fn_lookup_insert_ne.
    + rewrite Hev. subst w2. simpl. by rewrite <- !app_assoc.
    + by rewrite Hk, Hk1.
    + intros key Hkey. rewrite Hl by (by rewrite Hk1). rewrite Hl1 by done.
      apply dict_lookup_keys in Hkey as [old ->]. simpl.
      unfold concat_histories. simpl. by rewrite app_assoc.
Qed.

End Generic.

(** C1. A call of [fit_model] whose two lists differ in length raises the
    [ValueError] of the length check at once: the store is unchanged, so no
    parameter was touched, nothing was printed and [fit] was not called.
    With lists of equal length no [ValueError] is raised by [fit_model]. *)
Theorem fit_model_length_check `{K : Keras P X Y V} (in_model : nat)
    (epochs_list batch_sizes : list Z) (x : X) (y : Y) (w : world P) :
  (length epochs_list ≠ length batch_sizes →
     fit_model in_model epochs_list batch_sizes x y w
     = (Raise (ValueError (length_msg (length epochs_list) (length batch_sizes))), w))
  ∧ (length epochs_list = length batch_sizes →
     ∀ msg, (fit_model in_model epochs_list batch_sizes x y w).1
            ≠ Raise (ValueError msg)).
Proof.
  split; intros Hlen.
  - unfold fit_model. by rewrite decide_True.
  - intros msg. unfold fit_model. rewrite decide_False by auto.
    unfold mbind, SE_bind.
    destruct (stages _ _ _ _ _ _ _ _) as [[e|acc] w'] eqn:E.
    + cbn. unfold Raise. intros [= ->].
      eapply (stages_not_ValueError in_model epochs_list 0 batch_sizes x y None w msg).
      by rewrite E.
    + destruct acc; cbn; done.
Qed.

(** C10. With both lists empty the length check passes and the loop body
    never runs, so [fit_hist_all] is unbound at [return]: the call raises
    [UnboundLocalError] instead of returning a model and an empty history;
    the store is untouched. *)
Theorem fit_model_empty_lists_unbound `{K : Keras P X Y V} (in_model : nat)
    (x : X) (y : Y) (w : world P) :
  length (@nil Z) = length (@nil Z)
  ∧ fit_model in_model [] [] x y w = (Raise (UnboundLocalError "fit_hist_all"), w)
  ∧ ∀ r, fit_model in_model [] [] x y w ≠ (Ok r, w).
Proof. split; [done|]. split; [done|]. intros r. by cbv. Qed.

(** C7, as amended. When the lists have equal length and are not empty,
    every stage's [fit] returns, the first stage's history [h0] has
    distinct keys and every stage's history holds every key of [h0], then
    [fit_model] returns the reference it was given together with a history
    that has exactly the keys of [h0], each bound to the concatenation, in
    stage order, of the stages' values for that key.  One stage ran per
    (epoch count, batch size) pair, in list order: the events are each
    stage's banner followed by its [fit] call, and the model object holds
    the parameters left by the last stage, every other object being
    untouched. *)
Theorem fit_model_merges_histories `{K : Keras P X Y V} (in_model : nat)
    (epochs_list batch_sizes : list Z) (x : X) (y : Y) (w : world P)
    (runs : list (P * dict (list V))) (h0 : dict (list V)) :
  length epochs_list = length batch_sizes →
  epochs_list ≠ [] →
  train_seq (heap w in_model) x y (zip epochs_list batch_sizes) = Some runs →
  head runs.*2 = Some h0 →
  NoDup (dict_keys h0) →
  (∀ h key, h ∈ runs.*2 → key ∈ dict_keys h0 → is_Some (dict_lookup h key)) →
  ∃ merged w' p_last,
    fit_model in_model epochs_list batch_sizes x y w = (Ok (in_model, merged), w')
    ∧ list.last runs.*1 = Some p_last
    ∧ heap w' in_model = p_last
    ∧ (∀ r, r ≠ in_model → heap w' r = heap w r)
    ∧ events w' = events w ++ stage_events in_model 0 (zip epochs_list batch_sizes)
    ∧ dict_keys merged = dict_keys h0
    ∧ ∀ key, key ∈ dict_keys h0 →
        dict_lookup merged key = Some (concat_histories key runs.*2).
Proof.
  intros Hlen Hne Hrun Hhead Hnd Hkeys.
  destruct epochs_list as [|epoch el]; [done|].
  destruct batch_sizes as [|b bs]; [done|].
  simpl in Hlen. injection Hlen as Hlen.
  cbn [zip zip_with train_seq] in Hrun.
  destruct (fit (heap w in_model) x y epoch b (2 # 10)) as [e|[p1 h1]] eqn:Hfit; [done|].
  fold (zip el bs) in Hrun.
  destruct (train_seq p1 x y (zip el bs)) as [runs'|] eqn:Hrun'; [|done].
  injection Hrun as <-. injection Hhead as ->.
  set (w1 := World (<[in_model := p1]> (heap w))
                   ((events w ++ [Stdout (stage_msg 0 epoch b +:+ newline)])
                      ++ [FitCall in_model epoch b (2 # 10)])).
  destruct (stages_tail in_model x y (zip el bs) 1 [b] h0 w1 runs')
    as (merged & w' & Hst & Hheap & Hother & Hev & Hk & Hl); [done|done| | | |].
  { subst w1. cbn [heap]. by rewrite fn_lookup_insert. }
  { done. }
  { intros h key Hh Hkey. apply Hkeys; [|done]. rewrite fmap_cons. by right. }
  rewrite fst_zip, snd_zip in Hst by lia.
  exists merged, w', (default p1 (list.last runs'.*1)).
  split; [|split; [|split; [|split; [|split; [|split]]]]].
  - unfold fit_model. rewrite decide_False by (simpl; lia).
    transitivity
      ((fit_hist_all ← stages in_model 1 el ([b] ++ bs) x y (Some h0);
        fit_hist_all ← lift (read_local "fit_hist_all" fit_hist_all);
        mret (in_model, fit_hist_all)) w1).
    + cbn [stages]. unfold index, print, emit, call_fit, emit, get, put, raise,
        lift, mbind, SE_bind, mret, SE_ret, Ok. cbn.
      by rewrite Hfit.
    + unfold mbind at 1, SE_bind at 1. by rewrite Hst.
  - rewrite fmap_cons, last_cons. cbn [fst].
    by destruct (list.last runs'.*1).
  - rewrite Hheap. subst w1. cbn [heap]. by rewrite fn_lookup_insert.
  - intros r Hr. rewrite Hother by done. subst w1. cbn [heap].
    by rewrite fn_lookup_insert_ne.
  - rewrite Hev. subst w1. cbn [events zip zip_with stage_events].
    by rewrite <- !app_assoc.
  - done.
  - intros key Hkey. rewrite Hl by done.
    apply dict_lookup_keys in Hkey as [old Hold].
    rewrite fmap_cons. unfold concat_histories. cbn [map concat snd].
    by rewrite Hold.
Qed.

(** *** Concrete runs *)

Import Examples.

Lemma fit_model_length_check_witness :
  (length [20; 30] ≠ length [100; 150; 200]
   ∧ fit_model 0%nat [20; 30] [100; 150; 200] tt tt fresh_world
     = (Raise (ValueError (length_msg 2 3)), fresh_world))
  ∧ (length [20; 30] = length [100; 150]
     ∧ ∀ msg, (fit_model 0%nat [20; 30] [100; 150] tt tt fresh_world).1
              ≠ Raise (ValueError msg)).
Proof.
  split; (split; [simpl; lia|]).
  - apply (proj1 (fit_model_length_check 0%nat [20; 30] [100; 150; 200] tt tt
                    fresh_world)).
    simpl; lia.
  - apply (proj2 (fit_model_length_check 0%nat [20; 30] [100; 150] tt tt
                    fresh_world)).
    reflexivity.
Defined.

(** A second stage of zero epochs reports no key, and the merge loop's
    lookup of the first stage's key in it raises [KeyError]: lists of equal
    length, not empty, and yet no history is returned. *)
Lemma fit_model_zero_epoch_stage_raises :
  length [1; 0] = length [100; 150]
  ∧ [1; 0] ≠ @nil Z
  ∧ (fit_model 0%nat [1; 0] [100; 150] tt tt fresh_world).1 = Raise (KeyError "loss")
  ∧ ¬ ∃ merged w',
        fit_model 0%nat [1; 0] [100; 150] tt tt fresh_world = (Ok (0%nat, merged), w').
Proof.
  split; [reflexivity|]. split; [done|]. split; [by vm_compute|].
  intros (merged & w' & Heq).
  apply (f_equal fst) in Heq. vm_compute in Heq. discriminate Heq.
Qed.

Lemma fit_model_merges_histories_witness :
  ∃ runs h0,
    (length [2; 3] = length [100; 150]
     ∧ [2; 3] ≠ @nil Z
     ∧ train_seq (heap fresh_world 0%nat) tt tt (zip [2; 3] [100; 150]) = Some runs
     ∧ head runs.*2 = Some h0
     ∧ NoDup (dict_keys h0))
    ∧ ∃ merged w' p_last,
        fit_model 0%nat [2; 3] [100; 150] tt tt fresh_world = (Ok (0%nat, merged), w')
        ∧ list.last runs.*1 = Some p_last
        ∧ heap w' 0%nat = p_last
        ∧ (∀ r, r ≠ 0%nat → heap w' r = heap fresh_world r)
        ∧ events w' = events fresh_world
                      ++ stage_events 0 0 (zip [2; 3] [100; 150])
        ∧ dict_keys merged = dict_keys h0
        ∧ ∀ key, key ∈ dict_keys h0 →
            dict_lookup merged key = Some (concat_histories key runs.*2).
Proof.
  assert (Hrun : train_seq (heap fresh_world 0%nat) tt tt (zip [2; 3] [100; 150])
                 = Some [(2, [("loss", [0; 1]); ("val_loss", [100; 100])]);
                         (5, [("loss", [2; 3; 4]); ("val_loss", [150; 150; 150])])])
    by reflexivity.
  assert (Hnd : NoDup (dict_keys [("loss", [0; 1]); ("val_loss", [100; 100])])).
  { apply NoDup_cons_2; [|apply NoDup_singleton].
    intros Hin%list_elem_of_singleton. discriminate Hin. }
  eexists _, _. split.
  - split; [reflexivity|]. split; [discriminate|]. split; [exact Hrun|].
    split; [reflexivity|exact Hnd].
  - apply (fit_model_merges_histories 0%nat [2; 3] [100; 150] tt tt fresh_world
             _ _ eq_refl ltac:(discriminate) Hrun eq_refl Hnd).
    intros h key Hh Hkey.
    cbn in Hh, Hkey.
    apply list_elem_of_In in Hh. apply list_elem_of_In in Hkey.
    destruct Hkey as [<-|[<-|[]]]; destruct Hh as [<-|[<-|[]]]; by eexists.
Defined.

End TrainerFacts.

(** ** The label preparation *)

Module LabelFacts.
Import Trainer Spec.

Lemma sumQ_app (a b : list Q) : (sumQ (a ++ b) == sumQ a + sumQ b)%Q.
Proof.
  induction a as [|q a IH]; simpl.
  - by rewrite Qplus_0_l.
  - rewrite IH. apply Qplus_assoc.
Qed.

Lemma sumQ_zeros (n : nat) : (sumQ (replicate n 0%Q) == 0)%Q.
Proof.
  induction n as [|n IH]; simpl; [reflexivity|].
  rewrite IH. reflexivity.
Qed.

(** A row of zeros with a single one. *)
Lemma one_hot_row (k n : nat) :
  (k < n)%nat →
  let row := <[k := 1%Q]> (replicate n 0%Q) in
  length row = n
  ∧ (sumQ row == 1)%Q
  ∧ row !! k = Some 1%Q
  ∧ ∀ j, j ≠ k → (j < n)%nat → row !! j = Some 0%Q.
Proof.
  intros Hk row. subst row. split; [|split; [|split]].
  - by rewrite length_insert, length_replicate.
  - rewrite insert_take_drop by (by rewrite length_replicate).
    rewrite take_replicate, drop_replicate, sumQ_app. simpl.
    rewrite !sumQ_zeros. reflexivity.
  - apply list_lookup_insert_eq. by rewrite length_replicate.
  - intros j Hj Hlt. rewrite list_lookup_insert_ne by done.
    by apply lookup_replicate_2.
Qed.

Lemma uint8_sub_label (raw : Z) : 1 ≤ raw ≤ 26 → uint8_sub raw 1 = raw - 1.
Proof. intros H. unfold uint8_sub. apply Z.mod_small. lia. Qed.

(** C6. For raw labels between 1 and 26, subtracting one and expanding to
    26 classes gives, sample by sample, a row of 26 entries that sum to
    exactly 1, with a 1 at index [raw - 1] and 0 everywhere else. *)
Theorem encode_labels_one_hot (labels : list Z) :
  Forall (λ raw, 1 ≤ raw ≤ 26) labels →
  ∃ rows,
    encode_labels labels = Ok rows
    ∧ length rows = length labels
    ∧ ∀ i raw, labels !! i = Some raw →
        ∃ row, rows !! i = Some row
               ∧ length row = 26%nat
               ∧ (sumQ row == 1)%Q
               ∧ row !! Z.to_nat (raw - 1) = Some 1%Q
               ∧ ∀ j, j ≠ Z.to_nat (raw - 1) → (j < 26)%nat → row !! j = Some 0%Q.
Proof.
  intros Hraw.
  exists (map (λ raw, <[Z.to_nat (raw - 1) := 1%Q]> (replicate 26 0%Q)) labels).
  split; [|split].
  - unfold encode_labels, to_categorical. cbn [Z.eqb mbind result_bind Ok Z.ltb Z.compare].
    replace (forallb _ _) with true.
    + f_equal. rewrite map_map. apply map_ext_Forall.
      eapply list.Forall_impl; [exact Hraw|]. intros raw Hr. cbn beta in Hr |- *.
      rewrite uint8_sub_label by done.
      by rewrite (proj2 (Z.ltb_ge _ _)) by lia.
    + symmetry. apply List.forallb_forall. intros v Hv.
      apply List.in_map_iff in Hv as (raw & <- & Hin).
      pose proof (proj1 (List.Forall_forall _ _) Hraw raw Hin) as Hr.
      cbn beta in Hr. rewrite uint8_sub_label by done.
      apply andb_true_intro. split; [apply Z.leb_le|apply Z.ltb_lt]; lia.
  - by rewrite length_map.
  - intros i raw Hi.
    eexists. split; [by rewrite list_lookup_fmap, Hi|].
    pose proof (proj1 (Forall_lookup _ _) Hraw i raw Hi) as Hr. cbn beta in Hr.
    apply (one_hot_row (Z.to_nat (raw - 1)) 26). lia.
Qed.

Lemma encode_labels_one_hot_witness :
  Forall (λ raw, 1 ≤ raw ≤ 26) [1; 26; 3]
  ∧ ∃ rows,
      encode_labels [1; 26; 3] = Ok rows
      ∧ length rows = length [1; 26; 3]
      ∧ ∀ i raw, [1; 26; 3] !! i = Some raw →
          ∃ row, rows !! i = Some row
                 ∧ length row = 26%nat
                 ∧ (sumQ row == 1)%Q
                 ∧ row !! Z.to_nat (raw - 1) = Some 1%Q
                 ∧ ∀ j, j ≠ Z.to_nat (raw - 1) → (j < 26)%nat → row !! j = Some 0%Q.
Proof.
  assert (H : Forall (λ raw, 1 ≤ raw ≤ 26) [1; 26; 3])
    by (repeat constructor; lia).
  split; [exact H|]. exact (encode_labels_one_hot [1; 26; 3] H).
Defined.

End LabelFacts.

(** ** The array routines *)

Module NpFacts.
Import Spec.

(** *** Ranks in ordered data *)

Lemma count_all (P : Z → Prop) `{∀ x, Decision (P x)} (l : list Z) :
  Forall P l → length (filter P l) = length l.
Proof.
  induction 1 as [|x l Hx Hl IH]; [done|].
  rewrite filter_cons_True by done. simpl. by rewrite IH.
Qed.

Lemma count_none (P : Z → Prop) `{∀ x, Decision (P x)} (l : list Z) :
  Forall (λ x, ¬ P x) l → length (filter P l) = 0%nat.
Proof.
  induction 1 as [|x l Hx Hl IH]; [done|].
  by rewrite filter_cons_False by done.
Qed.

Lemma count_bound (P : Z → Prop) `{∀ x, Decision (P x)} (l : list Z) :
  (length (filter P l) ≤ length l)%nat.
Proof.
  induction l as [|x l IH]; [done|].
  destruct (decide (P x)).
  - rewrite filter_cons_True by done. simpl. lia.
  - rewrite filter_cons_False by done. simpl. lia.
Qed.

(** In ordered data the entry at position [k] has rank [k]. *)
Lemma sorted_lookup_rank (s : list Z) (k : nat) (v : Z) :
  StronglySorted Z.le s → s !! k = Some v → has_rank s k v.
Proof.
  intros Hs Hk.
  pose proof (lookup_lt_Some _ _ _ Hk) as Hlt.
  rewrite <- (take_drop_middle s k v Hk) in Hs |- *.
  assert (Hbelow : Forall (λ x, x ≤ v) (take k s)).
  { apply list.Forall_forall. intros x Hx.
    apply (StronglySorted_app_1_elem_of _ _ _ _ _ Hs Hx). by left. }
  assert (Habove : Forall (λ x, v ≤ x) (v :: drop (S k) s)).
  { apply StronglySorted_app_1_r in Hs.
    apply StronglySorted_inv in Hs as [_ Hs].
    constructor; [lia|done]. }
  split; [|split].
  - apply elem_of_app. right. by left.
  - unfold count_lt. rewrite list.filter_app, length_app.
    rewrite (count_none (λ x, x < v) (v :: drop (S k) s)).
    + pose proof (count_bound (λ x, x < v) (take k s)) as Hb.
      rewrite length_take in Hb. lia.
    + eapply list.Forall_impl; [exact Habove|]. intros x Hx. cbn beta in *. lia.
  - unfold count_le. rewrite list.filter_app, length_app.
    rewrite (count_all (λ x, x ≤ v) (take k s)) by done.
    rewrite filter_cons_True by (cbn beta; lia).
    rewrite length_take. simpl. lia.
Qed.

Lemma has_rank_Permutation (l l' : list Z) (k : nat) (v : Z) :
  l ≡ₚ l' → has_rank l k v → has_rank l' k v.
Proof.
  intros Hp (Hin & Hlt & Hle). unfold has_rank, count_lt, count_le in *.
  by rewrite <- Hp.
Qed.

Lemma sort_rank (l : list Z) (k : nat) (v : Z) :
  merge_sort Z.le l !! k = Some v → has_rank l k v.
Proof.
  intros Hk. apply (has_rank_Permutation (merge_sort Z.le l)).
  - apply merge_sort_Permutation.
  - apply sorted_lookup_rank; [|done].
    apply StronglySorted_merge_sort; [apply _|apply Z.le_total].
Qed.

(** *** The mean and the median *)

Lemma mean_one (v : Z) : mean [v] = inject_Z v.
Proof.
  unfold mean. cbn [sumZ foldr length].
  rewrite <- (inject_Z_Qred v). apply Qred_complete.
  rewrite Z.add_0_r. unfold Qeq. simpl. lia.
Qed.

Lemma mean_two (lo hi : Z) : (mean [lo; hi] == (inject_Z lo + inject_Z hi) / 2)%Q.
Proof.
  unfold mean. rewrite Qred_correct. cbn [sumZ foldr length].
  rewrite Z.add_0_r. unfold Qeq. simpl. lia.
Qed.

Lemma take_one_drop {A} (s : list A) (k : nat) (v : A) :
  s !! k = Some v → take 1 (drop k s) = [v].
Proof. intros Hk. by rewrite (drop_S _ _ _ Hk). Qed.

Lemma take_two_drop {A} (s : list A) (k : nat) (lo hi : A) :
  s !! k = Some lo → s !! S k = Some hi → take 2 (drop k s) = [lo; hi].
Proof.
  intros Hlo Hhi. by rewrite (drop_S _ _ _ Hlo), (drop_S _ _ _ Hhi).
Qed.

(** [median] computes the exact median of non-empty data. *)
Lemma median_exact (l : list Z) : l ≠ [] → exact_median l (median l).
Proof.
  intros Hne. unfold exact_median, median.
  pose proof (Permutation_length (merge_sort_Permutation Z.le l)) as Hlen.
  rewrite Hlen.
  assert (Hpos : (0 < length l)%nat) by (destruct l; [done|simpl; lia]).
  destruct (Nat.odd (length l)) eqn:Hodd.
  - destruct (lookup_lt_is_Some_2 (merge_sort Z.le l) (length l / 2)) as [v Hv].
    { rewrite Hlen. apply Nat.div_lt; lia. }
    exists v. split; [by apply sort_rank|].
    by rewrite (take_one_drop _ _ _ Hv), mean_one.
  - assert (∃ m, length l = (2 * S m)%nat) as [m Hm].
    { apply (f_equal negb) in Hodd. rewrite Nat.negb_odd in Hodd. simpl in Hodd.
      apply Nat.even_spec in Hodd as [m Hm]. exists (m - 1)%nat. lia. }
    rewrite Hm.
    replace (2 * S m / 2)%nat with (S m)
      by (symmetry; rewrite Nat.mul_comm; apply Nat.div_mul; lia).
    replace (S m - 1)%nat with m by lia.
    destruct (lookup_lt_is_Some_2 (merge_sort Z.le l) m) as [lo Hlo]; [lia|].
    destruct (lookup_lt_is_Some_2 (merge_sort Z.le l) (S m)) as [hi Hhi]; [lia|].
    exists lo, hi. split; [by apply sort_rank|]. split; [by apply sort_rank|].
    rewrite (take_two_drop _ _ _ _ Hlo Hhi). apply mean_two.
Qed.

Lemma sumZ_nonneg (l : list Z) : Forall (λ x, 0 ≤ x) l → 0 ≤ sumZ l.
Proof. induction 1; simpl; lia. Qed.

Lemma mean_nonneg (l : list Z) : Forall (λ x, 0 ≤ x) l → (0 <= mean l)%Q.
Proof.
  intros Hl. unfold mean. rewrite Qred_correct.
  apply Qmult_le_0_compat.
  - change 0%Q with (inject_Z 0). rewrite <- Zle_Qle. by apply sumZ_nonneg.
  - apply Qinv_le_0_compat. change 0%Q with (inject_Z 0). rewrite <- Zle_Qle. lia.
Qed.

(** The median of non-negative data is not negative. *)
Lemma median_nonneg (l : list Z) : Forall (λ x, 0 ≤ x) l → (0 <= median l)%Q.
Proof.
  intros Hl. unfold median.
  assert (Hs : Forall (λ x, 0 ≤ x) (merge_sort Z.le l)).
  { by rewrite merge_sort_Permutation. }
  destruct (Nat.odd _); apply mean_nonneg.
  - by apply Forall_take, Forall_drop.
  - by apply Forall_take, Forall_drop.
Qed.

(** *** Windows *)

Lemma concat_lookup_uniform {A} (w : nat) (l : list (list A)) (a b : nat) :
  Forall (λ row, length row = w) l → (b < w)%nat →
  concat l !! (a * w + b)%nat = l !! a ≫= (.!! b).
Proof.
  intros Hl Hb. revert a.
  induction Hl as [|row l Hrow Hl IH]; intros a; [done|].
  simpl. destruct a as [|a]; simpl.
  - by rewrite lookup_app_l by lia.
  - rewrite lookup_app_r by lia.
    replace (w + a * w + b - length row)%nat with (a * w + b)%nat by lia.
    apply IH.
Qed.

Lemma length_concat_uniform {A} (w : nat) (l : list (list A)) :
  Forall (λ row, length row = w) l → length (concat l) = (length l * w)%nat.
Proof.
  induction 1 as [|row l Hrow Hl IH]; [done|].
  simpl. rewrite length_app, IH. lia.
Qed.

Lemma window_grid {A} (a : list (list A)) (r c h w H W : nat) :
  is_grid H W a → (r + h ≤ H)%nat → (c + w ≤ W)%nat →
  is_grid h w (window a r c h w).
Proof.
  intros [Hrows Hcols] Hr Hc. unfold window. split.
  - rewrite length_map, length_take, length_drop. lia.
  - apply Forall_fmap, Forall_take, Forall_drop.
    eapply list.Forall_impl; [exact Hcols|]. intros row Hrow. cbn in *.
    rewrite length_take, length_drop. lia.
Qed.

Lemma window_lookup {A} (a : list (list A)) (r c h w x y : nat) :
  (x < h)%nat → (y < w)%nat →
  at2 (window a r c h w) x y = at2 a (r + x) (c + y).
Proof.
  intros Hx Hy. unfold at2, window.
  rewrite list_lookup_fmap, lookup_take_lt, lookup_drop by done.
  destruct (a !! (r + x)%nat) as [row|]; [|done]. simpl.
  by rewrite lookup_take_lt, lookup_drop by done.
Qed.

(** The window at block position [(i, j)] lists that block of the tiling. *)
Lemma window_is_block (img : list (list Z)) (w i j H W : nat) :
  is_grid H W img → (i * w + w ≤ H)%nat → (j * w + w ≤ W)%nat →
  is_block img w i j (concat (window img (i * w) (j * w) w w)).
Proof.
  intros Hg Hi Hj.
  destruct (window_grid img (i * w) (j * w) w w H W Hg Hi Hj) as [Hlen Hrows].
  split.
  - by rewrite (length_concat_uniform w), Hlen.
  - intros a b Ha Hb.
    rewrite (concat_lookup_uniform w) by done.
    by apply (window_lookup img (i * w) (j * w) w w a b).
Qed.

Lemma shape2_grid {A} (a : list (list A)) (H W : nat) :
  is_grid H W a → (0 < H)%nat → shape2 a = (Z.of_nat H, Z.of_nat W).
Proof.
  intros [Hrows Hcols] Hpos. unfold shape2.
  destruct Hcols as [|row a Hrow _]; simpl in *; [lia|]. by subst.
Qed.

(** [view_as_windows] on a grid with a square window that fits, stepping
    by the window side. *)
Lemma view_as_windows_grid {A} (a : list (list A)) (H W : nat) (w : Z) :
  is_grid H W a → 1 ≤ w → w ≤ Z.of_nat H → w ≤ Z.of_nat W →
  view_as_windows a (w, w) w
  = Ok (map (λ i, map (λ j, window a (i * Z.to_nat w) (j * Z.to_nat w)
                                    (Z.to_nat w) (Z.to_nat w))
                      (seq 0 (Z.to_nat ((Z.of_nat W - w) / w + 1))))
            (seq 0 (Z.to_nat ((Z.of_nat H - w) / w + 1)))).
Proof.
  intros Hg Hw HH HW. unfold view_as_windows.
  rewrite (shape2_grid a H W Hg) by lia.
  rewrite (proj2 (Z.ltb_ge w 1)) by lia.
  rewrite (proj2 (Z.ltb_ge (Z.of_nat H - w) 0)) by lia.
  rewrite (proj2 (Z.ltb_ge (Z.of_nat W - w) 0)) by lia.
  by rewrite (proj2 (Z.ltb_ge (w - 1) 0)) by lia.
Qed.

Lemma block_medians_grid (img : list (list Z)) (w nr nc : nat) :
  is_grid nr nc (block_medians img w nr nc).
Proof.
  unfold block_medians. split.
  - by rewrite length_map, length_seq.
  - apply Forall_fmap, list.Forall_forall. intros i _. cbn.
    by rewrite length_map, length_seq.
Qed.

Lemma block_medians_lookup (img : list (list Z)) (w nr nc i j : nat) :
  (i < nr)%nat → (j < nc)%nat →
  at2 (block_medians img w nr nc) i j
  = Some (median (concat (window img (i * w) (j * w) w w))).
Proof.
  intros Hi Hj. unfold at2, block_medians.
  rewrite list_lookup_fmap, lookup_seq_lt by done. simpl.
  by rewrite list_lookup_fmap, lookup_seq_lt by done.
Qed.

(** *** Broadcasting into a slot *)

Lemma broadcast_axis_same {A} (n : nat) (l : list A) :
  length l = n → broadcast_axis n l = Some l.
Proof. intros Hl. unfold broadcast_axis. by rewrite decide_True. Qed.

Lemma broadcast2_same {A} (n : nat) (g : list (list A)) :
  is_grid n n g → broadcast2 n g = Some g.
Proof.
  intros [Hrows Hcols]. unfold broadcast2.
  rewrite broadcast_axis_same by done. simpl.
  apply mapM_Some_2, Forall2_same_length_lookup. split; [done|].
  intros i row row' Hrow Hrow'. simplify_eq.
  apply broadcast_axis_same.
  by apply (proj1 (Forall_lookup _ _) Hcols i).
Qed.

Lemma broadcast2_mismatch {A} (n s : nat) (g : list (list A)) :
  is_grid s s g → s ≠ n → s ≠ 1%nat → broadcast2 n g = None.
Proof.
  intros [Hrows Hcols] Hn H1. unfold broadcast2, broadcast_axis.
  rewrite decide_False by lia.
  destruct g as [|r1 [|r2 g]]; simpl in *; [done|lia|done].
Qed.

End NpFacts.

(** ** The dataset builder *)

Module BuilderFacts.
Import DatasetBuilder Spec NpFacts Examples.

Lemma for_each_map {A B} (body : A → result B) (f : A → B) (l : list A) :
  Forall (λ x, body x = Ok (f x)) l → for_each body l = Ok (map f l).
Proof.
  induction 1 as [|x l Hx Hl IH]; [done|].
  simpl. by rewrite Hx, IH.
Qed.

Lemma for_each_inv {A B} (body : A → result B) (l : list A) (ys : list B) :
  for_each body l = Ok ys → Forall2 (λ x y, body x = Ok y) l ys.
Proof.
  revert ys. induction l as [|x l IH]; intros ys; simpl.
  - intros [= <-]. constructor.
  - destruct (body x) as [e|y] eqn:Hx; [done|].
    destruct (for_each body l) as [e|ys'] eqn:Hl; [done|].
    intros [= <-]. constructor; [done|by apply IH].
Qed.

(** *** Compression of one image *)

Lemma down_sample_list_loop (imgs : list (list (list Z))) (level : Z) :
  down_sample_list imgs level
  = if level <? 0 then Raise (ValueError "negative dimensions are not allowed")
    else for_each (one_slot level) imgs.
Proof. reflexivity. Qed.

Lemma window_side_bounds (level : Z) : 1 ≤ level < 15 → 2 ≤ 28 / level ≤ 28.
Proof.
  intros H. split.
  - apply Z.div_le_lower_bound; lia.
  - apply Z.div_le_upper_bound; lia.
Qed.

(** Below 15 the result is the grid of block medians, with as many blocks
    per axis as windows of side [28 // level] fit when stepping by that
    side. *)
Lemma median_downsampling_small (img : list (list Z)) (level : Z) :
  is_grid 28 28 img → 1 ≤ level < 15 →
  median_downsampling img level
  = Ok (FloatArray (block_medians img (Z.to_nat (28 / level))
                      (Z.to_nat ((28 - 28 / level) / (28 / level) + 1))
                      (Z.to_nat ((28 - 28 / level) / (28 / level) + 1)))).
Proof.
  intros Hg Hl. pose proof (window_side_bounds level Hl) as Hw.
  unfold median_downsampling.
  rewrite (proj2 (Z.ltb_lt level 15)) by lia.
  rewrite (proj2 (Z.eqb_neq level 0)) by lia.
  rewrite (view_as_windows_grid img 28 28 (28 / level) Hg) by lia.
  cbn [mbind result_bind Ok mret result_ret]. do 2 f_equal.
  unfold median_axis23, block_medians.
  rewrite map_map. apply map_ext. intros i. by rewrite map_map.
Qed.

Lemma assign_slot_same (n : nat) (level : Z) (g : list (list Q)) :
  is_grid n n g → Z.to_nat level = n → assign_slot level (FloatArray g) = Ok g.
Proof.
  intros Hg <-. unfold assign_slot. cbn [as_float].
  by rewrite broadcast2_same.
Qed.

Lemma map2d_grid {A B} (f : A → B) (h w : nat) (a : list (list A)) :
  is_grid h w a → is_grid h w (map2d f a).
Proof.
  intros [Hrows Hcols]. unfold map2d. split; [by rewrite length_map|].
  apply Forall_fmap. eapply list.Forall_impl; [exact Hcols|].
  intros row Hrow. cbn in *. by rewrite length_map.
Qed.

Lemma window_count (w : Z) : 1 ≤ w → (28 - w) / w + 1 = 28 / w.
Proof.
  intros Hw. rewrite <- Z.div_add by lia. f_equal. lia.
Qed.

(** Below 15, whenever the number of windows per axis is the level. *)
Lemma compress_small (level : Z) (img : list (list Z)) :
  is_grid 28 28 img → 1 ≤ level < 15 → 28 / (28 / level) = level →
  one_slot level img
  = Ok (block_medians img (Z.to_nat (28 / level)) (Z.to_nat level) (Z.to_nat level)).
Proof.
  intros Hg Hl Hn. pose proof (window_side_bounds level Hl) as Hw.
  unfold one_slot. rewrite median_downsampling_small by done.
  replace ((28 - 28 / level) / (28 / level) + 1) with level.
  - cbn [mbind result_bind Ok].
    apply (assign_slot_same (Z.to_nat level)); [apply block_medians_grid|done].
  - by rewrite window_count, Hn by lia.
Qed.

Lemma compression_level_fits (level : Z) : compression_level level → level_fits level.
Proof.
  intros [-> | [-> | [-> | ->]]]; [left; split; [lia|reflexivity]..|by right].
Qed.

Lemma level_positive (level : Z) : level_fits level → 0 < level.
Proof. intros [[Hl _] | ->]; lia. Qed.

Lemma compressed_grid (level : Z) (img : list (list Z)) :
  is_grid 28 28 img → level_fits level →
  is_grid (Z.to_nat level) (Z.to_nat level) (compressed level img).
Proof.
  intros Hg [[Hl _] | ->]; unfold compressed.
  - rewrite (proj2 (Z.ltb_lt level 15)) by lia. apply block_medians_grid.
  - by apply (map2d_grid inject_Z 28 28).
Qed.

(** One round of the loop of [down_sample_list] at a level that fits. *)
Lemma compress_one (level : Z) (img : list (list Z)) :
  is_grid 28 28 img → level_fits level → one_slot level img = Ok (compressed level img).
Proof.
  intros Hg [[Hl Hn] | ->].
  - rewrite compress_small by done. unfold compressed.
    by rewrite (proj2 (Z.ltb_lt level 15)) by lia.
  - unfold one_slot.
    change (median_downsampling img 28) with (Ok (IntArray img)).
    cbn [mbind result_bind Ok].
    unfold assign_slot. cbn [as_float]. change (Z.to_nat 28) with 28%nat.
    by rewrite (broadcast2_same 28) by (by apply (map2d_grid inject_Z 28 28)).
Qed.

Lemma down_sample_list_levels (imgs : list (list (list Z))) (level : Z) :
  Forall (is_grid 28 28) imgs → level_fits level →
  down_sample_list imgs level = Ok (map (compressed level) imgs).
Proof.
  intros Hg Hl. pose proof (level_positive level Hl) as Hpos.
  rewrite down_sample_list_loop, (proj2 (Z.ltb_ge level 0)) by lia.
  apply for_each_map.
  eapply list.Forall_impl; [exact Hg|]. intros img Himg. cbn beta.
  by apply compress_one.
Qed.

(** Below 15, whenever the number of windows per axis is not the level:
    the first image already does not fit its slot. *)
Lemma compress_misfit (level : Z) (img : list (list Z)) :
  is_grid 28 28 img → 2 ≤ level < 15 → 28 / (28 / level) ≠ level →
  one_slot level img
  = Raise (ValueError (broadcast_msg (28 / (28 / level), 28 / (28 / level))
                                     (level, level))).
Proof.
  intros Hg Hl Hn. pose proof (window_side_bounds level ltac:(lia)) as Hw.
  unfold one_slot.
  assert (Hcount : (28 - 28 / level) / (28 / level) + 1 = 28 / (28 / level))
    by (apply window_count; lia).
  assert (2 ≤ 28 / (28 / level)).
  { apply Z.div_le_lower_bound; [lia|].
    assert (28 / level ≤ 14); [|lia].
    apply Z.div_le_upper_bound; lia. }
  rewrite median_downsampling_small by (done || lia).
  rewrite Hcount. cbn [mbind result_bind Ok].
  set (n := Z.to_nat (28 / (28 / level))).
  pose proof (block_medians_grid img (Z.to_nat (28 / level)) n n) as Hb.
  unfold assign_slot. cbn [as_float shape_of].
  rewrite (broadcast2_mismatch _ n) by (done || lia).
  rewrite (shape2_grid _ n n) by (done || lia).
  subst n. by rewrite Z2Nat.id by lia.
Qed.

(** *** Loops over a store *)

Lemma for_each_SE_inv {S A B} (body : A → SE S B) (l : list A) : ∀ g ys g',
  for_each_SE body l g = (Ok ys, g') →
  Forall2 (λ x y, ∃ g1 g2, body x g1 = (Ok y, g2)) l ys.
Proof.
  induction l as [|x l IH]; intros g ys g'; simpl.
  - intros [= <- <-]. constructor.
  - unfold mbind, SE_bind.
    destruct (body x g) as [[e|y] g1] eqn:Hx; [done|].
    destruct (for_each_SE body l g1) as [[e|ys'] g2] eqn:Hl; [done|].
    intros [= <- <-]. constructor; [by eexists _, _|by eapply IH].
Qed.

Lemma for_each_SE_total {S A B} (body : A → SE S B) :
  (∀ x g, ∃ y g', body x g = (Ok y, g')) →
  ∀ l g, ∃ ys g', for_each_SE body l g = (Ok ys, g').
Proof.
  intros Hbody l. induction l as [|x l IH]; intros g; simpl.
  - by eexists _, _.
  - unfold mbind, SE_bind.
    destruct (Hbody x g) as (y & g1 & ->).
    destruct (IH g1) as (ys & g2 & ->). by eexists _, _.
Qed.

Lemma for_each_SE_length {S A B} (body : A → SE S B) (l : list A) g ys g' :
  for_each_SE body l g = (Ok ys, g') → length ys = length l.
Proof.
  intros Hrun. symmetry. eapply Forall2_length, for_each_SE_inv, Hrun.
Qed.

(** *** The Poisson draws *)

Section Draws.
Context `{PG : PoissonGen G}.

Lemma draw_total (lam : Q) (g : G) : ∃ k g', draw lam g = (Ok k, g').
Proof. unfold draw. destruct (poisson_draw lam g) as [k g']. by eexists _, _. Qed.

(** The draws for a grid of rates have the shape of the grid. *)
Lemma draws_grid (h w : nat) (rates : list (list Q)) (g g' : G)
    (draws : list (list Z)) :
  for_each_SE (for_each_SE draw) rates g = (Ok draws, g') →
  is_grid h w rates → is_grid h w draws.
Proof.
  intros Hrun [Hrows Hcols].
  pose proof (for_each_SE_inv _ _ _ _ _ Hrun) as Hall. split.
  - rewrite <- Hrows. symmetry. by eapply Forall2_length.
  - clear Hrun Hrows. induction Hall as [|row drow rates draws Hrow Hall IH].
    + constructor.
    + apply list.Forall_cons in Hcols as [Hlen Hcols].
      constructor; [|by apply IH].
      destruct Hrow as (g1 & g2 & Hrow).
      by rewrite (for_each_SE_length _ _ _ _ _ Hrow).
Qed.

Lemma existsb_none {A} (f : A → bool) (l : list A) :
  Forall (λ x, f x = false) l → existsb f l = false.
Proof. induction 1 as [|x l Hx Hl IH]; [done|]. simpl. by rewrite Hx, IH. Qed.

(** Rates that are not negative are all drawn from, sample by sample,
    and the draws keep the shape of the rates. *)
Lemma random_poisson_returns (n : nat) (lam : list (list (list Q))) (g : G) :
  in_range (λ q, 0 <= q)%Q lam → Forall (is_grid n n) lam →
  ∃ draws g',
    random_poisson lam g = (Ok draws, g')
    ∧ for_each_SE (for_each_SE (for_each_SE draw)) lam g = (Ok draws, g')
    ∧ length draws = length lam
    ∧ Forall (is_grid n n) draws.
Proof.
  intros Hpos Hgrid.
  destruct (for_each_SE_total (for_each_SE (for_each_SE draw))
              (for_each_SE_total _ (for_each_SE_total _ draw_total)) lam g)
    as (draws & g' & Hrun).
  exists draws, g'. split; [|split; [done|split]].
  - unfold random_poisson. rewrite existsb_none; [done|].
    eapply list.Forall_impl; [exact Hpos|]. intros grid Hg. cbn beta.
    apply existsb_none. eapply list.Forall_impl; [exact Hg|].
    intros row Hr. cbn beta.
    apply existsb_none. eapply list.Forall_impl; [exact Hr|].
    intros q Hq. cbn beta in *. unfold negative.
    by rewrite (proj2 (Qle_bool_iff 0 q)).
  - by apply for_each_SE_length in Hrun.
  - pose proof (for_each_SE_inv _ _ _ _ _ Hrun) as Hall.
    clear Hrun Hpos. induction Hall as [|grid d lam draws Hd Hall IH].
    + constructor.
    + apply list.Forall_cons in Hgrid as [Hgr Hgrid].
      constructor; [|by apply IH].
      destruct Hd as (g1 & g2 & Hd). by eapply draws_grid.
Qed.

End Draws.

(** *** Clamping, scaling, flattening *)

Lemma clip_range (x : Z) : 0 ≤ clip x 0 255 ≤ 255.
Proof. unfold clip. lia. Qed.

Lemma div255_range (x : Z) : 0 ≤ x ≤ 255 → (0 <= div255 x <= 1)%Q.
Proof.
  intros Hx. unfold div255. rewrite Qred_correct.
  unfold Qle, Qdiv, Qmult, Qinv. simpl. lia.
Qed.

Lemma map3d_in_range {A B} (f : A → B) (P : B → Prop) (a : list (list (list A))) :
  (∀ x, P (f x)) → in_range P (map3d f a).
Proof.
  intros Hf. unfold in_range, map3d, map2d.
  apply Forall_fmap, list.Forall_forall. intros grid _. cbn.
  apply Forall_fmap, list.Forall_forall. intros row _. cbn.
  apply Forall_fmap, list.Forall_forall. intros x _. cbn. apply Hf.
Qed.

Lemma map3d_in_range_impl {A B} (f : A → B) (P : A → Prop) (R : B → Prop)
    (a : list (list (list A))) :
  (∀ x, P x → R (f x)) → in_range P a → in_range R (map3d f a).
Proof.
  intros Hf Ha. unfold in_range, map3d, map2d in *.
  apply Forall_fmap. eapply list.Forall_impl; [exact Ha|]. intros grid Hg. cbn.
  apply Forall_fmap. eapply list.Forall_impl; [exact Hg|]. intros row Hr. cbn.
  apply Forall_fmap. eapply list.Forall_impl; [exact Hr|]. intros x Hx. cbn.
  by apply Hf.
Qed.

Lemma map3d_grids {A B} (f : A → B) (h w : nat) (a : list (list (list A))) :
  Forall (is_grid h w) a → Forall (is_grid h w) (map3d f a).
Proof.
  intros Ha. unfold map3d. apply Forall_fmap.
  eapply list.Forall_impl; [exact Ha|]. intros grid Hg. cbn.
  by apply map2d_grid.
Qed.

Lemma reshape1_grid {A} (n : nat) (level : Z) (m : list (list A)) :
  is_grid n n m → level = Z.of_nat n → reshape1 (level ^ 2) m = Ok (concat m).
Proof.
  intros [Hrows Hcols] ->. unfold reshape1, size2.
  rewrite (length_concat_uniform n) by done.
  rewrite decide_True; [done|]. rewrite Hrows. lia.
Qed.

Lemma scale_and_flatten_grids (n : nat) (level : Z) (a : list (list (list Z))) :
  Forall (is_grid n n) a → level = Z.of_nat n →
  scale_and_flatten level a = Ok (map (@concat Q) (map3d div255 a)).
Proof.
  intros Ha Hl. unfold scale_and_flatten. apply for_each_map.
  eapply list.Forall_impl; [exact (map3d_grids div255 n n a Ha)|].
  intros m Hm. cbn beta. by apply (reshape1_grid n).
Qed.

Lemma chunks_concat {A} (w : nat) (a : list (list A)) :
  Forall (λ row, length row = w) a → chunks (length a) w (concat a) = a.
Proof.
  induction 1 as [|row a Hrow Ha IH]; [done|].
  simpl. rewrite take_app_length', drop_app_length' by done. by rewrite IH.
Qed.

(** Reshaping a flattened grid back gives the grid. *)
Lemma reshape2_concat {A} (h w : nat) (a : list (list A)) :
  is_grid h w a → reshape2 h w (concat a) = Ok a.
Proof.
  intros [Hrows Hcols]. unfold reshape2.
  rewrite (length_concat_uniform w), Hrows by done.
  rewrite decide_True by done. rewrite <- Hrows. by rewrite chunks_concat.
Qed.

(** *** Compressed images are valid rates *)

Lemma window_Forall {A} (P : A → Prop) (a : list (list A)) (r c h w : nat) :
  Forall (Forall P) a → Forall P (concat (window a r c h w)).
Proof.
  intros Ha. apply Forall_concat. unfold window.
  apply Forall_fmap, Forall_take, Forall_drop.
  eapply list.Forall_impl; [exact Ha|]. intros row Hrow. cbn.
  by apply Forall_take, Forall_drop.
Qed.

Lemma compressed_nonneg (level : Z) (img : list (list Z)) :
  raw_image img → Forall (Forall (λ q, 0 <= q)%Q) (compressed level img).
Proof.
  intros [_ Hpix]. unfold compressed. destruct (level <? 15).
  - unfold block_medians.
    apply Forall_fmap, list.Forall_forall. intros i _. cbn.
    apply Forall_fmap, list.Forall_forall. intros j _. cbn.
    apply median_nonneg, window_Forall.
    eapply list.Forall_impl; [exact Hpix|]. intros row Hrow. cbn beta.
    eapply list.Forall_impl; [exact Hrow|]. intros p Hp. cbn beta in *. lia.
  - unfold map2d.
    apply Forall_fmap. eapply list.Forall_impl; [exact Hpix|]. intros row Hrow. cbn.
    apply Forall_fmap. eapply list.Forall_impl; [exact Hrow|]. intros p Hp. cbn in *.
    change 0%Q with (inject_Z 0). rewrite <- Zle_Qle. lia.
Qed.

(** *** Sample images *)

Lemma flat_image_raw : raw_image flat_image.
Proof.
  split; [split; [done|]|]; apply Forall_replicate.
  - done.
  - apply Forall_replicate. lia.
Qed.

Lemma ramp_image_raw : raw_image ramp_image.
Proof.
  unfold ramp_image. split; [split; [done|]|]; apply Forall_fmap, list.Forall_forall;
    intros i _; cbn beta; unfold compose.
  - by rewrite length_map.
  - apply Forall_fmap, list.Forall_forall. intros j _. cbn beta. unfold compose.
    pose proof (Z.mod_pos_bound (Z.of_nat (i * 28 + j)) 256). lia.
Qed.

(** *** The whole pipeline *)

Lemma for_each_reshape_back {A} (h w : nat) (a : list (list (list A))) :
  Forall (is_grid h w) a → for_each (reshape2 h w) (map (@concat A) a) = Ok a.
Proof.
  induction 1 as [|m a Hm Ha IH]; [done|].
  simpl. by rewrite reshape2_concat, IH.
Qed.

Lemma flat_lengths {A} (n : nat) (a : list (list (list A))) :
  Forall (is_grid n n) a →
  Forall (λ v, length v = (n * n)%nat) (map (@concat A) a).
Proof.
  intros Ha. apply Forall_fmap. eapply list.Forall_impl; [exact Ha|].
  intros m [Hrows Hcols]. cbn. by rewrite (length_concat_uniform n), Hrows.
Qed.

Lemma flat_in_range {A} (P : A → Prop) (a : list (list (list A))) :
  in_range P a → Forall (Forall P) (map (@concat A) a).
Proof.
  intros Ha. apply Forall_fmap. eapply list.Forall_impl; [exact Ha|].
  intros m Hm. cbn. by apply Forall_concat.
Qed.

Section Pipeline.
Context `{PG : PoissonGen G}.

Lemma compressed_all (level : Z) (imgs : list (list (list Z))) :
  Forall raw_image imgs → level_fits level →
  down_sample_list imgs level = Ok (map (compressed level) imgs)
  ∧ in_range (λ q, 0 <= q)%Q (map (compressed level) imgs)
  ∧ Forall (is_grid (Z.to_nat level) (Z.to_nat level)) (map (compressed level) imgs).
Proof.
  intros Himgs Hl. split; [|split].
  - apply down_sample_list_levels; [|done].
    eapply list.Forall_impl; [exact Himgs|]. by intros img [Hg _].
  - apply Forall_fmap. eapply list.Forall_impl; [exact Himgs|].
    intros img Himg. cbn. by apply compressed_nonneg.
  - apply Forall_fmap. eapply list.Forall_impl; [exact Himgs|].
    intros img [Hg _]. cbn. by apply compressed_grid.
Qed.

(** On images of the corpus, at a level that fits, every step of
    [create_training_data] returns; the result is the flattening of the
    scaled, clamped draws. *)
Lemma create_training_data_returns (clean_train clean_test : list (list (list Z)))
    (level out_dim : Z) (g : G) :
  Forall raw_image clean_train → Forall raw_image clean_test →
  level_fits level →
  ∃ noisy_train_ noisy_test_ g1 g2,
    random_poisson (map (compressed level) clean_train) g = (Ok noisy_train_, g1)
    ∧ random_poisson (map (compressed level) clean_test) g1 = (Ok noisy_test_, g2)
    ∧ length noisy_train_ = length clean_train
    ∧ length noisy_test_ = length clean_test
    ∧ Forall (is_grid (Z.to_nat level) (Z.to_nat level)) noisy_train_
    ∧ Forall (is_grid (Z.to_nat level) (Z.to_nat level)) noisy_test_
    ∧ create_training_data clean_train clean_test level out_dim g
      = (Ok (map (@concat Q) (map3d div255 (map3d (λ x, clip x 0 255) noisy_train_)),
             map (@concat Q) (map3d div255 (map3d (λ x, clip x 0 255) noisy_test_))),
         g2).
Proof.
  intros Htrain Htest Hl.
  destruct (compressed_all level clean_train Htrain Hl) as (Hc1 & Hp1 & Hg1).
  destruct (compressed_all level clean_test Htest Hl) as (Hc2 & Hp2 & Hg2).
  destruct (random_poisson_returns _ _ g Hp1 Hg1) as (d1 & g1 & Hr1 & _ & Hlen1 & Hd1).
  destruct (random_poisson_returns _ _ g1 Hp2 Hg2) as (d2 & g2 & Hr2 & _ & Hlen2 & Hd2).
  exists d1, d2, g1, g2.
  rewrite length_map in Hlen1, Hlen2.
  split; [done|]. split; [done|]. split; [done|]. split; [done|].
  split; [done|]. split; [done|].
  pose proof (level_positive level Hl) as Hpos.
  unfold create_training_data, lift, mbind, SE_bind, mret, SE_ret.
  rewrite Hc1, Hc2. unfold Ok. cbn beta iota.
  fold (@Ok (list (list (list Z)))). rewrite Hr1. unfold Ok. cbn beta iota.
  fold (@Ok (list (list (list Z)))). rewrite Hr2. unfold Ok. cbn beta iota.
  fold (@Ok (list (list Q))).
  rewrite !(scale_and_flatten_grids (Z.to_nat level))
    by (by apply map3d_grids || lia).
  done.
Qed.

End Pipeline.

(** *** Sample by sample *)

Lemma down_sample_list_inv (imgs : list (list (list Z))) (level : Z)
    (out : list (list (list Q))) :
  down_sample_list imgs level = Ok out →
  Forall2 (λ image slot, one_slot level image = Ok slot) imgs out.
Proof.
  rewrite down_sample_list_loop. destruct (level <? 0); [done|].
  apply for_each_inv.
Qed.

Section Samples.
Context `{PG : PoissonGen G}.

Lemma random_poisson_inv (lam : list (list (list Q))) (g g' : G)
    (draws : list (list (list Z))) :
  random_poisson lam g = (Ok draws, g') →
  for_each_SE (for_each_SE (for_each_SE draw)) lam g = (Ok draws, g').
Proof. unfold random_poisson. by destruct (existsb _ lam). Qed.

Lemma create_training_data_inv (clean_train clean_test : list (list (list Z)))
    (level out_dim : Z) (g g' : G) (noisy_train noisy_test : list (list Q)) :
  create_training_data clean_train clean_test level out_dim g
  = (Ok (noisy_train, noisy_test), g') →
  ∃ cmp_train cmp_test noisy_train_ noisy_test_ g1,
    down_sample_list clean_train level = Ok cmp_train
    ∧ down_sample_list clean_test level = Ok cmp_test
    ∧ random_poisson cmp_train g = (Ok noisy_train_, g1)
    ∧ random_poisson cmp_test g1 = (Ok noisy_test_, g')
    ∧ scale_and_flatten level (map3d (λ x, clip x 0 255) noisy_train_)
      = Ok noisy_train
    ∧ scale_and_flatten level (map3d (λ x, clip x 0 255) noisy_test_)
      = Ok noisy_test.
Proof.
  unfold create_training_data, lift, mbind, SE_bind, mret, SE_ret.
  destruct (down_sample_list clean_train level) as [e|c1]; [done|].
  destruct (down_sample_list clean_test level) as [e|c2]; [done|].
  destruct (random_poisson c1 g) as [[e|d1] g1] eqn:H1; [done|].
  destruct (random_poisson c2 g1) as [[e|d2] g2] eqn:H2; [done|].
  destruct (scale_and_flatten level (map3d _ d1)) as [e|v1] eqn:H3; [done|].
  destruct (scale_and_flatten level (map3d _ d2)) as [e|v2] eqn:H4; [done|].
  intros [= <- <- <-]. by exists c1, c2, d1, d2, g1.
Qed.

(** The stages of [create_training_data], each over the whole array, give
    what the samples give one after the other. *)
Lemma samples_from_stagewise (level : Z) : ∀ imgs cmp draws out (g g' : G),
  Forall2 (λ image slot, one_slot level image = Ok slot) imgs cmp →
  for_each_SE (for_each_SE (for_each_SE draw)) cmp g = (Ok draws, g') →
  scale_and_flatten level (map3d (λ x, clip x 0 255) draws) = Ok out →
  samples_from level imgs g = Some (out, g').
Proof.
  intros imgs cmp draws out g g' Hcmp. revert draws out g g'.
  induction Hcmp as [|image slot imgs cmp Hslot Hcmp IH]; intros draws out g g'.
  - cbn. intros [= <- <-]. cbn. by intros [= <-].
  - cbn [for_each_SE]. unfold mbind at 1, SE_bind at 1.
    destruct (for_each_SE (for_each_SE draw) slot g) as [[e|d] g1] eqn:Hd; [done|].
    unfold mbind at 1, SE_bind at 1.
    destruct (for_each_SE _ cmp g1) as [[e|ds] g2] eqn:Hds; [done|].
    intros [= <- <-].
    unfold scale_and_flatten. cbn [map3d map for_each].
    destruct (reshape1 _ _) as [e|v] eqn:Hv; [done|].
    destruct (for_each _ _) as [e|vs] eqn:Hvs; [done|].
    intros [= <-].
    cbn [samples_from]. unfold noisy_sample, lift, mbind, SE_bind.
    rewrite Hslot. unfold Ok at 1. cbn beta iota. rewrite Hd.
    rewrite Hv. by rewrite (IH ds vs g1 g2 Hds Hvs).
Qed.

Lemma samples_from_lookup (level : Z) : ∀ imgs out (g g' : G),
  samples_from level imgs g = Some (out, g') →
  length out = length imgs
  ∧ ∀ i image, imgs !! i = Some image →
      ∃ v gi gi', out !! i = Some v ∧ noisy_sample level image gi = (Ok v, gi').
Proof.
  induction imgs as [|image imgs IH]; intros out g g'; cbn [samples_from].
  - intros [= <- <-]. split; [done|]. by intros i image' ?.
  - destruct (noisy_sample level image g) as [[e|v] g1] eqn:Hv; [done|].
    destruct (samples_from level imgs g1) as [[vs g2]|] eqn:Hvs; [|done].
    intros [= <- <-].
    destruct (IH vs g1 g2 Hvs) as [Hlen Hlook].
    split; [simpl; by rewrite Hlen|].
    intros [|i] image'; simpl.
    + intros [= <-]. by exists v, g, g1.
    + apply Hlook.
Qed.

End Samples.

(** *** Shapes along the pipeline *)

Lemma broadcast_axis_length {A} (n : nat) (l l' : list A) :
  broadcast_axis n l = Some l' → length l' = n.
Proof.
  unfold broadcast_axis. destruct (decide (length l = n)) as [Hl|Hl].
  - by intros [= <-].
  - destruct l as [|x [|y l]]; [done| |done].
    intros [= <-]. apply length_replicate.
Qed.

Lemma broadcast2_grid {A} (n : nat) (value g : list (list A)) :
  broadcast2 n value = Some g → is_grid n n g.
Proof.
  unfold broadcast2.
  destruct (broadcast_axis n value) as [rows|] eqn:Hrows; [|done].
  simpl. intros Hm. apply mapM_Some_1 in Hm. split.
  - rewrite <- (Forall2_length Hm). by eapply broadcast_axis_length.
  - clear Hrows. induction Hm as [|row row' rows g Hrow Hm IH]; constructor.
    + by eapply broadcast_axis_length.
    + done.
Qed.

(** Whatever the loop body stores has the shape of the slot. *)
Lemma one_slot_grid (level : Z) (image : list (list Z)) (slot : list (list Q)) :
  one_slot level image = Ok slot →
  is_grid (Z.to_nat level) (Z.to_nat level) slot.
Proof.
  unfold one_slot.
  destruct (median_downsampling image level) as [e|v]; [done|].
  cbn [mbind result_bind]. unfold assign_slot.
  destruct (broadcast2 _ _) as [g|] eqn:Hb; [|done].
  intros [= <-]. by eapply broadcast2_grid.
Qed.

Lemma down_sample_list_grids (imgs : list (list (list Z))) (level : Z)
    (out : list (list (list Q))) :
  down_sample_list imgs level = Ok out →
  0 ≤ level
  ∧ length out = length imgs
  ∧ Forall (is_grid (Z.to_nat level) (Z.to_nat level)) out.
Proof.
  intros Hout. split; [|split].
  - rewrite down_sample_list_loop in Hout.
    destruct (level <? 0) eqn:Hneg; [done|]. by apply Z.ltb_ge.
  - apply down_sample_list_inv in Hout. symmetry. by eapply Forall2_length.
  - apply down_sample_list_inv in Hout.
    induction Hout as [|image slot imgs out Hslot Hout IH]; constructor.
    + by eapply one_slot_grid.
    + done.
Qed.

Lemma reshape1_inv {A} (n : Z) (m : list (list A)) (v : list A) :
  reshape1 n m = Ok v → v = concat m.
Proof. unfold reshape1. destruct (decide _); [|done]. by intros [= <-]. Qed.

Lemma scale_and_flatten_inv (level : Z) (a : list (list (list Z)))
    (out : list (list Q)) :
  scale_and_flatten level a = Ok out → out = map (@concat Q) (map3d div255 a).
Proof.
  unfold scale_and_flatten. intros Hout. apply for_each_inv in Hout.
  induction Hout as [|m v ms vs Hv Hout IH]; [done|].
  simpl. by rewrite (reshape1_inv _ _ _ Hv), IH.
Qed.

Section Shapes.
Context `{PG : PoissonGen G}.

Lemma draws_grids (h w : nat) (lam : list (list (list Q))) (g g' : G)
    (draws : list (list (list Z))) :
  for_each_SE (for_each_SE (for_each_SE draw)) lam g = (Ok draws, g') →
  Forall (is_grid h w) lam → Forall (is_grid h w) draws.
Proof.
  intros Hrun Hlam. pose proof (for_each_SE_inv _ _ _ _ _ Hrun) as Hall.
  clear Hrun. induction Hall as [|grid d lam draws Hd Hall IH]; [constructor|].
  apply list.Forall_cons in Hlam as [Hgrid Hlam].
  constructor; [|by apply IH].
  destruct Hd as (g1 & g2 & Hd). by eapply draws_grid.
Qed.

(** What a returning call of [create_training_data] went through. *)
Lemma create_training_data_steps (clean_train clean_test : list (list (list Z)))
    (level out_dim : Z) (g g' : G) (noisy_train noisy_test : list (list Q)) :
  create_training_data clean_train clean_test level out_dim g
  = (Ok (noisy_train, noisy_test), g') →
  ∃ cmp_train cmp_test noisy_train_ noisy_test_ g1,
    down_sample_list clean_train level = Ok cmp_train
    ∧ down_sample_list clean_test level = Ok cmp_test
    ∧ random_poisson cmp_train g = (Ok noisy_train_, g1)
    ∧ random_poisson cmp_test g1 = (Ok noisy_test_, g')
    ∧ noisy_train
      = map (@concat Q) (map3d div255 (map3d (λ x, clip x 0 255) noisy_train_))
    ∧ noisy_test
      = map (@concat Q) (map3d div255 (map3d (λ x, clip x 0 255) noisy_test_))
    ∧ 0 ≤ level
    ∧ length noisy_train_ = length clean_train
    ∧ length noisy_test_ = length clean_test
    ∧ Forall (is_grid (Z.to_nat level) (Z.to_nat level)) noisy_train_
    ∧ Forall (is_grid (Z.to_nat level) (Z.to_nat level)) noisy_test_.
Proof.
  intros Hrun.
  apply create_training_data_inv in Hrun
    as (c1 & c2 & d1 & d2 & g1 & Hc1 & Hc2 & Hd1 & Hd2 & Hv1 & Hv2).
  exists c1, c2, d1, d2, g1.
  destruct (down_sample_list_grids _ _ _ Hc1) as (Hpos & Hlen1 & Hg1).
  destruct (down_sample_list_grids _ _ _ Hc2) as (_ & Hlen2 & Hg2).
  pose proof (random_poisson_inv _ _ _ _ Hd1) as Hf1.
  pose proof (random_poisson_inv _ _ _ _ Hd2) as Hf2.
  split; [done|]. split; [done|]. split; [done|]. split; [done|].
  split; [by apply scale_and_flatten_inv in Hv1|].
  split; [by apply scale_and_flatten_inv in Hv2|].
  split; [done|].
  split; [by rewrite (for_each_SE_length _ _ _ _ _ Hf1)|].
  split; [by rewrite (for_each_SE_length _ _ _ _ _ Hf2)|].
  split; by eapply draws_grids.
Qed.

End Shapes.

(** *** The claims *)

(** C2. For a 28-by-28 grid and a level among 4, 7 and 14,
    [median_downsampling] returns a level-by-level grid whose entry
    [(i, j)] is the exact median of the block in block row [i] and block
    column [j] of the tiling of the input by non-overlapping blocks of side
    [28 / level]; on the grid with every pixel equal to 100, at level 4,
    that is the 4-by-4 grid with every entry equal to 100. *)
Theorem median_downsampling_block_median (img : list (list Z)) (level : Z) :
  is_grid 28 28 img →
  level = 4 ∨ level = 7 ∨ level = 14 →
  (∃ out,
     median_downsampling img level = Ok (FloatArray out)
     ∧ is_grid (Z.to_nat level) (Z.to_nat level) out
     ∧ ∀ i j, (i < Z.to_nat level)%nat → (j < Z.to_nat level)%nat →
         ∃ blk, is_block img (Z.to_nat (28 / level)) i j blk
                ∧ at2 out i j = Some (median blk)
                ∧ exact_median blk (median blk))
  ∧ median_downsampling flat_image 4
    = Ok (FloatArray (replicate 4 (replicate 4 100%Q))).
Proof.
  intros Hg Hl. split; [|by vm_compute].
  exists (block_medians img (Z.to_nat (28 / level)) (Z.to_nat level) (Z.to_nat level)).
  split; [|split].
  - destruct Hl as [-> | [-> | ->]];
      by rewrite median_downsampling_small by (done || lia).
  - apply block_medians_grid.
  - intros i j Hi Hj.
    set (w := Z.to_nat (28 / level)).
    exists (concat (window img (i * w) (j * w) w w)).
    assert (Hblk : is_block img w i j (concat (window img (i * w) (j * w) w w))).
    { apply (window_is_block img w i j 28 28 Hg); subst w;
        destruct Hl as [-> | [-> | ->]];
        change (Z.to_nat (28 / 4)) with 7%nat;
        change (Z.to_nat (28 / 7)) with 4%nat;
        change (Z.to_nat (28 / 14)) with 2%nat; lia. }
    split; [done|]. split; [by apply block_medians_lookup|].
    apply median_exact. intros Hnil.
    destruct Hblk as [Hlen _]. rewrite Hnil in Hlen. simpl in Hlen.
    subst w. destruct Hl as [-> | [-> | ->]]; vm_compute in Hlen; lia.
Qed.

(** C3. At level 28 [median_downsampling] returns its argument as it is,
    and [down_sample_list] stores a 28-by-28 image with every value
    unchanged. *)
Theorem median_downsampling_level_28_identity (img : list (list Z)) :
  median_downsampling img 28 = Ok (IntArray img)
  ∧ (is_grid 28 28 img → down_sample_list [img] 28 = Ok [map2d inject_Z img]).
Proof.
  split; [done|]. intros Hg.
  assert (Hgs : Forall (is_grid 28 28) [img]) by (constructor; [done|constructor]).
  assert (Hl : level_fits 28) by (by right).
  by rewrite (down_sample_list_levels [img] 28 Hgs Hl).
Qed.

#[local] Ltac by_divisor H k := exfalso; apply H; exists k; reflexivity.
#[local] Ltac fits H := right; split; [tauto|]; apply H; [lia|reflexivity].
#[local] Ltac misfits H := left; split; [tauto|]; apply H; [lia|discriminate].

(** C9, as amended. No level is validated by the builder itself.  On a
    non-empty array of 28-by-28 images, a level below 15 that does not
    divide 28 is processed as follows: a negative level is refused by the
    allocation of the output array; level 0 raises [ZeroDivisionError];
    levels 6, 8, 10, 11, 12 and 13 raise the broadcast [ValueError] when the
    first image's grid of medians, of side [28 // (28 // level)], is stored
    in its level-by-level slot; levels 3, 5 and 9 raise nothing: the array
    holds the level-by-level grids of medians of the blocks of side
    [28 // level], and on images of the corpus the whole of
    [create_training_data] returns. *)
Theorem down_sample_list_uneven_level `{PG : PoissonGen G} (img : list (list Z))
    (imgs : list (list (list Z))) (level : Z) :
  is_grid 28 28 img → Forall (is_grid 28 28) imgs →
  level < 15 → ¬ (level | 28) →
  (level < 0
   ∧ down_sample_list (img :: imgs) level
     = Raise (ValueError "negative dimensions are not allowed"))
  ∨ (level = 0
     ∧ down_sample_list (img :: imgs) level = Raise ZeroDivisionError)
  ∨ ((level = 6 ∨ level = 8 ∨ level = 10 ∨ level = 11 ∨ level = 12 ∨ level = 13)
     ∧ down_sample_list (img :: imgs) level
       = Raise (ValueError (broadcast_msg (28 / (28 / level), 28 / (28 / level))
                                          (level, level))))
  ∨ ((level = 3 ∨ level = 5 ∨ level = 9)
     ∧ down_sample_list (img :: imgs) level
       = Ok (map (λ im, block_medians im (Z.to_nat (28 / level)) (Z.to_nat level)
                          (Z.to_nat level))
                 (img :: imgs))
     ∧ ∀ clean_test out_dim (g : G),
         Forall raw_image (img :: imgs) → Forall raw_image clean_test →
         ∃ noisy g', create_training_data (img :: imgs) clean_test level out_dim g
                     = (Ok noisy, g')).
Proof.
  intros Hg Hgs Hlt Hdiv.
  destruct (Z.lt_trichotomy level 0) as [Hneg | [-> | Hpos]].
  - left. split; [done|]. unfold down_sample_list.
    by rewrite (proj2 (Z.ltb_lt level 0)).
  - right; left. split; [done|]. by cbn.
  - right; right.
    assert (Hcases : level = 1 ∨ level = 2 ∨ level = 3 ∨ level = 4 ∨ level = 5
                     ∨ level = 6 ∨ level = 7 ∨ level = 8 ∨ level = 9 ∨ level = 10
                     ∨ level = 11 ∨ level = 12 ∨ level = 13 ∨ level = 14) by lia.
    assert (Hfit : ∀ l, 1 ≤ l < 15 → 28 / (28 / l) = l →
              down_sample_list (img :: imgs) l
              = Ok (map (λ im, block_medians im (Z.to_nat (28 / l)) (Z.to_nat l)
                                 (Z.to_nat l)) (img :: imgs))
              ∧ ∀ clean_test out_dim (g : G),
                  Forall raw_image (img :: imgs) → Forall raw_image clean_test →
                  ∃ noisy g', create_training_data (img :: imgs) clean_test l out_dim g
                              = (Ok noisy, g')).
    { intros l Hl Hn. split.
      - rewrite down_sample_list_loop, (proj2 (Z.ltb_ge l 0)) by lia.
        apply for_each_map. constructor; [by apply compress_small|].
        eapply list.Forall_impl; [exact Hgs|]. intros im Him. cbn beta.
        by apply compress_small.
      - intros clean_test out_dim g Htrain Htest.
        assert (Hfits : level_fits l) by (by left).
        destruct (create_training_data_returns (img :: imgs) clean_test l out_dim g
                    Htrain Htest Hfits)
          as (d1 & d2 & g1 & g2 & _ & _ & _ & _ & _ & _ & Hrun).
        by eexists _, _. }
    assert (Hmis : ∀ l, 2 ≤ l < 15 → 28 / (28 / l) ≠ l →
              down_sample_list (img :: imgs) l
              = Raise (ValueError (broadcast_msg (28 / (28 / l), 28 / (28 / l))
                                                 (l, l)))).
    { intros l Hl Hn.
      rewrite down_sample_list_loop, (proj2 (Z.ltb_ge l 0)) by lia.
      cbn [for_each]. by rewrite compress_misfit. }
    destruct Hcases as [-> | [-> | [-> | [-> | [-> | [-> | [-> | [-> | [-> | [->
                        | [-> | [-> | [-> | ->]]]]]]]]]]]]];
      [ by_divisor Hdiv 28 | by_divisor Hdiv 14 | fits Hfit | by_divisor Hdiv 7
      | fits Hfit | misfits Hmis | by_divisor Hdiv 4 | misfits Hmis | fits Hfit
      | misfits Hmis | misfits Hmis | misfits Hmis | misfits Hmis
      | by_divisor Hdiv 2 ].
Qed.

(** C4. Whenever [create_training_data] returns, every value after the
    Poisson draw and the clamp lies between 0 and 255, and every value of the
    two returned arrays, after the division by 255, lies between 0 and 1.
    On images of the corpus at a level of the data model it does return. *)
Theorem create_training_data_ranges `{PG : PoissonGen G}
    (clean_train clean_test : list (list (list Z))) (level out_dim : Z) (g : G) :
  (∀ noisy_train noisy_test g',
     create_training_data clean_train clean_test level out_dim g
     = (Ok (noisy_train, noisy_test), g') →
     ∃ cmp_train cmp_test noisy_train_ noisy_test_ g1,
       down_sample_list clean_train level = Ok cmp_train
       ∧ down_sample_list clean_test level = Ok cmp_test
       ∧ random_poisson cmp_train g = (Ok noisy_train_, g1)
       ∧ random_poisson cmp_test g1 = (Ok noisy_test_, g')
       ∧ in_range (λ v, 0 ≤ v ≤ 255) (map3d (λ x, clip x 0 255) noisy_train_)
       ∧ in_range (λ v, 0 ≤ v ≤ 255) (map3d (λ x, clip x 0 255) noisy_test_)
       ∧ noisy_train
         = map (@concat Q) (map3d div255 (map3d (λ x, clip x 0 255) noisy_train_))
       ∧ noisy_test
         = map (@concat Q) (map3d div255 (map3d (λ x, clip x 0 255) noisy_test_))
       ∧ Forall (Forall (λ q, 0 <= q <= 1)%Q) noisy_train
       ∧ Forall (Forall (λ q, 0 <= q <= 1)%Q) noisy_test)
  ∧ (Forall raw_image clean_train → Forall raw_image clean_test →
     compression_level level →
     ∃ noisy g', create_training_data clean_train clean_test level out_dim g
                 = (Ok noisy, g')).
Proof.
  split.
  - intros noisy_train noisy_test g' Hrun.
    apply create_training_data_steps in Hrun
      as (c1 & c2 & d1 & d2 & g1 & Hc1 & Hc2 & Hd1 & Hd2 & -> & -> & _).
    exists c1, c2, d1, d2, g1.
    assert (Hclamp : ∀ d, in_range (λ v, 0 ≤ v ≤ 255) (map3d (λ x, clip x 0 255) d))
      by (intros d; apply map3d_in_range, clip_range).
    split; [done|]. split; [done|]. split; [done|]. split; [done|].
    split; [apply Hclamp|]. split; [apply Hclamp|].
    split; [done|]. split; [done|].
    split; apply flat_in_range;
      by apply (map3d_in_range_impl div255 (λ v, 0 ≤ v ≤ 255));
         [apply div255_range|apply Hclamp].
  - intros Htrain Htest Hl.
    destruct (create_training_data_returns clean_train clean_test level out_dim g
                Htrain Htest (compression_level_fits level Hl))
      as (d1 & d2 & g1 & g2 & _ & _ & _ & _ & _ & _ & Hrun).
    by eexists _, _.
Qed.

(** C5. Whenever [create_training_data] returns, at whatever level, every
    sample of the two arrays is the row-major flattening, of length
    [level²], of its level-by-level grid of scaled clamped draws, and
    reshaping the sample to level-by-level gives that grid back; each array
    holds one such vector per input image.  On images of the corpus at a
    level of the data model it does return. *)
Theorem create_training_data_flattening `{PG : PoissonGen G}
    (clean_train clean_test : list (list (list Z))) (level out_dim : Z) (g : G) :
  (∀ noisy_train noisy_test g',
     create_training_data clean_train clean_test level out_dim g
     = (Ok (noisy_train, noisy_test), g') →
     ∃ cmp_train cmp_test noisy_train_ noisy_test_ g1,
       down_sample_list clean_train level = Ok cmp_train
       ∧ down_sample_list clean_test level = Ok cmp_test
       ∧ random_poisson cmp_train g = (Ok noisy_train_, g1)
       ∧ random_poisson cmp_test g1 = (Ok noisy_test_, g')
       ∧ let n := Z.to_nat level in
         let grids_train := map3d div255 (map3d (λ x, clip x 0 255) noisy_train_) in
         let grids_test := map3d div255 (map3d (λ x, clip x 0 255) noisy_test_) in
         Forall (is_grid n n) grids_train
         ∧ Forall (is_grid n n) grids_test
         ∧ noisy_train = map (@concat Q) grids_train
         ∧ noisy_test = map (@concat Q) grids_test
         ∧ length noisy_train = length clean_train
         ∧ length noisy_test = length clean_test
         ∧ Forall (λ v, Z.of_nat (length v) = level ^ 2) noisy_train
         ∧ Forall (λ v, Z.of_nat (length v) = level ^ 2) noisy_test
         ∧ for_each (reshape2 n n) noisy_train = Ok grids_train
         ∧ for_each (reshape2 n n) noisy_test = Ok grids_test)
  ∧ (Forall raw_image clean_train → Forall raw_image clean_test →
     compression_level level →
     ∃ noisy g', create_training_data clean_train clean_test level out_dim g
                 = (Ok noisy, g')).
Proof.
  split.
  - intros noisy_train noisy_test g' Hrun.
    apply create_training_data_steps in Hrun
      as (c1 & c2 & d1 & d2 & g1 & Hc1 & Hc2 & Hr1 & Hr2 & -> & -> & Hpos
          & Hlen1 & Hlen2 & Hd1 & Hd2).
    exists c1, c2, d1, d2, g1.
    split; [done|]. split; [done|]. split; [done|]. split; [done|].
    assert (Hgrids : ∀ d, Forall (is_grid (Z.to_nat level) (Z.to_nat level)) d →
              Forall (is_grid (Z.to_nat level) (Z.to_nat level))
                     (map3d div255 (map3d (λ x, clip x 0 255) d)))
      by (intros d Hd; by do 2 apply map3d_grids).
    assert (Hflat : ∀ (a : list (list (list Q))),
              Forall (is_grid (Z.to_nat level) (Z.to_nat level)) a →
              Forall (λ v, Z.of_nat (length v) = level ^ 2) (map (@concat Q) a)).
    { intros a Ha. eapply list.Forall_impl; [exact (flat_lengths _ a Ha)|].
      intros v Hv. cbn beta in *. rewrite Hv. lia. }
    cbn zeta.
    split; [by apply Hgrids|]. split; [by apply Hgrids|].
    split; [done|]. split; [done|].
    split; [by rewrite length_map; unfold map3d; rewrite !length_map|].
    split; [by rewrite length_map; unfold map3d; rewrite !length_map|].
    split; [by apply Hflat, Hgrids|]. split; [by apply Hflat, Hgrids|].
    split; by apply for_each_reshape_back, Hgrids.
  - intros Htrain Htest Hl.
    destruct (create_training_data_returns clean_train clean_test level out_dim g
                Htrain Htest (compression_level_fits level Hl))
      as (d1 & d2 & g1 & g2 & _ & _ & _ & _ & _ & _ & Hrun).
    by eexists _, _.
Qed.

(** C8. Sample count and index alignment.  Whenever [down_sample_list]
    returns, its output has one entry per input image and entry [i] is what
    the loop body gives for image [i] alone.  Whenever
    [create_training_data] returns, each of its two arrays has one vector
    per input image and vector [i] is the noisy sample of image [i]: its
    compression, the draws made for it when the generator reaches it, their
    clamp, scaling and flattening; the train samples are made first, in
    order, then the test samples.  Nothing is reordered.  On images of the
    corpus at a level of the data model both functions do return. *)
Theorem builder_keeps_samples_aligned `{PG : PoissonGen G}
    (clean_train clean_test : list (list (list Z))) (level out_dim : Z) (g : G) :
  (∀ out, down_sample_list clean_train level = Ok out →
     length out = length clean_train
     ∧ ∀ i image, clean_train !! i = Some image →
         ∃ slot, out !! i = Some slot ∧ one_slot level image = Ok slot)
  ∧ (∀ noisy_train noisy_test g',
       create_training_data clean_train clean_test level out_dim g
       = (Ok (noisy_train, noisy_test), g') →
       length noisy_train = length clean_train
       ∧ length noisy_test = length clean_test
       ∧ (∃ g_mid, samples_from level clean_train g = Some (noisy_train, g_mid)
                   ∧ samples_from level clean_test g_mid = Some (noisy_test, g'))
       ∧ (∀ i image, clean_train !! i = Some image →
            ∃ v gi gi', noisy_train !! i = Some v
                        ∧ noisy_sample level image gi = (Ok v, gi'))
       ∧ (∀ i image, clean_test !! i = Some image →
            ∃ v gi gi', noisy_test !! i = Some v
                        ∧ noisy_sample level image gi = (Ok v, gi')))
  ∧ (Forall raw_image clean_train → Forall raw_image clean_test →
     compression_level level →
     (∃ out, down_sample_list clean_train level = Ok out)
     ∧ ∃ noisy g', create_training_data clean_train clean_test level out_dim g
                   = (Ok noisy, g')).
Proof.
  split; [|split].
  - intros out Hout. apply down_sample_list_inv in Hout.
    split; [symmetry; by eapply Forall2_length|].
    intros i image Hi.
    destruct (Forall2_lookup_l _ _ _ _ _ Hout Hi) as (slot & Hslot & Hbody).
    by exists slot.
  - intros noisy_train noisy_test g' Hrun.
    apply create_training_data_inv in Hrun
      as (c1 & c2 & d1 & d2 & g1 & Hc1 & Hc2 & Hd1 & Hd2 & Hv1 & Hv2).
    apply down_sample_list_inv in Hc1, Hc2.
    apply random_poisson_inv in Hd1, Hd2.
    pose proof (samples_from_stagewise level _ _ _ _ _ _ Hc1 Hd1 Hv1) as Hs1.
    pose proof (samples_from_stagewise level _ _ _ _ _ _ Hc2 Hd2 Hv2) as Hs2.
    destruct (samples_from_lookup level _ _ _ _ Hs1) as [Hlen1 Hlook1].
    destruct (samples_from_lookup level _ _ _ _ Hs2) as [Hlen2 Hlook2].
    split; [done|]. split; [done|]. split; [by exists g1|]. by split.
  - intros Htrain Htest Hl. apply compression_level_fits in Hl. split.
    + eexists. by apply compressed_all.
    + destruct (create_training_data_returns clean_train clean_test level out_dim g
                  Htrain Htest Hl)
        as (d1 & d2 & g1 & g2 & _ & _ & _ & _ & _ & _ & Hrun).
      by eexists _, _.
Qed.

(** *** Concrete runs *)

Lemma two_samples_raw : Forall raw_image [flat_image; ramp_image].
Proof.
  constructor; [exact flat_image_raw|].
  constructor; [exact ramp_image_raw|constructor].
Qed.

Lemma one_sample_raw : Forall raw_image [ramp_image].
Proof. constructor; [exact ramp_image_raw|constructor]. Qed.

Lemma create_training_data_ranges_witness :
  (Forall raw_image [flat_image; ramp_image]
   ∧ Forall raw_image [ramp_image]
   ∧ compression_level 4)
  ∧ ∃ noisy_train_ noisy_test_ noisy_train noisy_test g2,
      create_training_data [flat_image; ramp_image] [ramp_image] 4 28 0
      = (Ok (noisy_train, noisy_test), g2)
      ∧ in_range (λ v, 0 ≤ v ≤ 255) (map3d (λ x, clip x 0 255) noisy_train_)
      ∧ in_range (λ v, 0 ≤ v ≤ 255) (map3d (λ x, clip x 0 255) noisy_test_)
      ∧ noisy_train
        = map (@concat Q) (map3d div255 (map3d (λ x, clip x 0 255) noisy_train_))
      ∧ noisy_test
        = map (@concat Q) (map3d div255 (map3d (λ x, clip x 0 255) noisy_test_))
      ∧ Forall (Forall (λ q, 0 <= q <= 1)%Q) noisy_train
      ∧ Forall (Forall (λ q, 0 <= q <= 1)%Q) noisy_test.
Proof.
  assert (Hl : compression_level 4) by (left; reflexivity).
  split; [split; [exact two_samples_raw|split; [exact one_sample_raw|exact Hl]]|].
  destruct (create_training_data_ranges [flat_image; ramp_image] [ramp_image] 4 28 0)
    as [Hrange Htotal].
  destruct (Htotal two_samples_raw one_sample_raw Hl) as ([v1 v2] & g2 & Hrun).
  destruct (Hrange v1 v2 g2 Hrun)
    as (c1 & c2 & d1 & d2 & g1 & _ & _ & _ & _ & Hr1 & Hr2 & Hv1 & Hv2 & Hq1 & Hq2).
  exists d1, d2, v1, v2, g2.
  exact (conj Hrun (conj Hr1 (conj Hr2 (conj Hv1 (conj Hv2 (conj Hq1 Hq2)))))).
Defined.

Lemma create_training_data_flattening_witness :
  (Forall raw_image [flat_image; ramp_image]
   ∧ Forall raw_image [ramp_image]
   ∧ compression_level 7)
  ∧ ∃ grids_train grids_test noisy_train noisy_test g2,
      create_training_data [flat_image; ramp_image] [ramp_image] 7 28 0
      = (Ok (noisy_train, noisy_test), g2)
      ∧ noisy_train = map (@concat Q) grids_train
      ∧ noisy_test = map (@concat Q) grids_test
      ∧ length noisy_train = 2%nat
      ∧ length noisy_test = 1%nat
      ∧ Forall (λ v, Z.of_nat (length v) = 7 ^ 2) noisy_train
      ∧ Forall (λ v, Z.of_nat (length v) = 7 ^ 2) noisy_test
      ∧ for_each (reshape2 7 7) noisy_train = Ok grids_train
      ∧ for_each (reshape2 7 7) noisy_test = Ok grids_test.
Proof.
  assert (Hl : compression_level 7) by (right; left; reflexivity).
  split; [split; [exact two_samples_raw|split; [exact one_sample_raw|exact Hl]]|].
  destruct (create_training_data_flattening [flat_image; ramp_image] [ramp_image]
              7 28 0) as [Hflat Htotal].
  destruct (Htotal two_samples_raw one_sample_raw Hl) as ([v1 v2] & g2 & Hrun).
  destruct (Hflat v1 v2 g2 Hrun)
    as (c1 & c2 & d1 & d2 & g1 & _ & _ & _ & _ & _ & _ & Hv1 & Hv2
        & Hn1 & Hn2 & Hl1 & Hl2 & Hb1 & Hb2).
  eexists _, _, v1, v2, g2.
  exact (conj Hrun (conj Hv1 (conj Hv2 (conj Hn1 (conj Hn2
           (conj Hl1 (conj Hl2 (conj Hb1 Hb2)))))))).
Defined.

Lemma builder_keeps_samples_aligned_witness :
  (Forall raw_image [flat_image; ramp_image]
   ∧ Forall raw_image [ramp_image]
   ∧ compression_level 14)
  ∧ ∃ out noisy_train noisy_test g',
      down_sample_list [flat_image; ramp_image] 14 = Ok out
      ∧ length out = 2%nat
      ∧ create_training_data [flat_image; ramp_image] [ramp_image] 14 28 0
        = (Ok (noisy_train, noisy_test), g')
      ∧ length noisy_train = 2%nat
      ∧ length noisy_test = 1%nat
      ∧ ∃ g_mid, samples_from 14 [flat_image; ramp_image] 0 = Some (noisy_train, g_mid)
                 ∧ samples_from 14 [ramp_image] g_mid = Some (noisy_test, g').
Proof.
  assert (Hl : compression_level 14) by (right; right; left; reflexivity).
  split; [split; [exact two_samples_raw|split; [exact one_sample_raw|exact Hl]]|].
  destruct (builder_keeps_samples_aligned [flat_image; ramp_image] [ramp_image]
              14 28 0) as (Hdown & Hcreate & Htotal).
  destruct (Htotal two_samples_raw one_sample_raw Hl)
    as [[out Hout] ([v1 v2] & g' & Hrun)].
  destruct (Hdown out Hout) as [Hlen _].
  destruct (Hcreate v1 v2 g' Hrun) as (Hn1 & Hn2 & Hmid & _ & _).
  exists out, v1, v2, g'.
  exact (conj Hout (conj Hlen (conj Hrun (conj Hn1 (conj Hn2 Hmid))))).
Defined.

Lemma median_downsampling_block_median_witness :
  (is_grid 28 28 ramp_image ∧ (7 = 4 ∨ 7 = 7 ∨ 7 = 14))
  ∧ (∃ out,
       median_downsampling ramp_image 7 = Ok (FloatArray out)
       ∧ is_grid (Z.to_nat 7) (Z.to_nat 7) out
       ∧ ∀ i j, (i < Z.to_nat 7)%nat → (j < Z.to_nat 7)%nat →
           ∃ blk, is_block ramp_image (Z.to_nat (28 / 7)) i j blk
                  ∧ at2 out i j = Some (median blk)
                  ∧ exact_median blk (median blk)).
Proof.
  assert (Hl : 7 = 4 ∨ 7 = 7 ∨ 7 = 14) by (right; left; reflexivity).
  split; [split; [exact (proj1 ramp_image_raw)|exact Hl]|].
  exact (proj1 (median_downsampling_block_median ramp_image 7
                  (proj1 ramp_image_raw) Hl)).
Defined.

Lemma median_downsampling_level_28_identity_witness :
  is_grid 28 28 ramp_image
  ∧ median_downsampling ramp_image 28 = Ok (IntArray ramp_image)
  ∧ down_sample_list [ramp_image] 28 = Ok [map2d inject_Z ramp_image].
Proof.
  split; [exact (proj1 ramp_image_raw)|]. split.
  - exact (proj1 (median_downsampling_level_28_identity ramp_image)).
  - exact (proj2 (median_downsampling_level_28_identity ramp_image)
             (proj1 ramp_image_raw)).
Defined.

(** Level 5 is below 15 and does not divide 28, and yet nothing fails:
    windows of side 5 fit 5 times along each axis, so the 5-by-5 grid of
    medians fits its slot and the image's last 3 rows and columns are left
    out. *)
Lemma level_5_builds_without_error :
  5 < 15
  ∧ ¬ (5 | 28)
  ∧ (∃ out, down_sample_list [flat_image] 5 = Ok out)
  ∧ ∃ noisy g', create_training_data [flat_image] [flat_image] 5 28 0 = (Ok noisy, g').
Proof.
  split; [lia|]. split; [intros [k Hk]; lia|]. split.
  - eexists. by vm_compute.
  - eexists _, _. by vm_compute.
Qed.

Lemma down_sample_list_uneven_level_witness :
  (is_grid 28 28 flat_image ∧ Forall (is_grid 28 28) [ramp_image]
   ∧ 6 < 15 ∧ ¬ (6 | 28))
  ∧ down_sample_list [flat_image; ramp_image] 6
    = Raise (ValueError "could not broadcast input array from shape (7,7) into shape (6,6)").
Proof.
  assert (Hdiv : ¬ (6 | 28)) by (intros [k Hk]; lia).
  assert (Hgs : Forall (is_grid 28 28) [ramp_image])
    by (constructor; [exact (proj1 ramp_image_raw)|constructor]).
  split; [split; [exact (proj1 flat_image_raw)|split; [exact Hgs|split; [lia|exact Hdiv]]]|].
  destruct (down_sample_list_uneven_level (PG := counter_gen) flat_image [ramp_image] 6
              (proj1 flat_image_raw) Hgs ltac:(lia) Hdiv)
    as [[Hneg _] | [[Hz _] | [[_ Hres] | [Hl _]]]].
  - lia.
  - lia.
  - exact Hres.
  - lia.
Defined.

End BuilderFacts.

(** ** More on the dataset builder *)

Module BuilderMore.
Import DatasetBuilder Spec NpFacts BuilderFacts Examples.

(** *** Which levels work *)

Lemma level_fits_list (level : Z) :
  level_fits level
  ↔ level = 1 ∨ level = 2 ∨ level = 3 ∨ level = 4 ∨ level = 5 ∨ level = 7
    ∨ level = 9 ∨ level = 14 ∨ level = 28.
Proof.
  split.
  - intros [[Hl Hn] | ->]; [|tauto].
    assert (Hcases : level = 1 ∨ level = 2 ∨ level = 3 ∨ level = 4 ∨ level = 5
                     ∨ level = 6 ∨ level = 7 ∨ level = 8 ∨ level = 9 ∨ level = 10
                     ∨ level = 11 ∨ level = 12 ∨ level = 13 ∨ level = 14) by lia.
    destruct Hcases as [-> | [-> | [-> | [-> | [-> | [-> | [-> | [-> | [-> | [->
                        | [-> | [-> | [-> | ->]]]]]]]]]]]]];
      first [tauto | discriminate Hn].
  - intros [-> | [-> | [-> | [-> | [-> | [-> | [-> | [-> | ->]]]]]]]];
      first [by right | left; split; [lia|reflexivity]].
Qed.

(** From 15 on the image is returned as it is, and only a level of 28 gives
    it the shape of its slot. *)
Lemma compress_large (level : Z) (img : list (list Z)) :
  is_grid 28 28 img → 15 ≤ level → level ≠ 28 →
  one_slot level img = Raise (ValueError (broadcast_msg (28, 28) (level, level))).
Proof.
  intros Hg Hl Hne. unfold one_slot, median_downsampling.
  rewrite (proj2 (Z.ltb_ge level 15)) by lia.
  cbn [mret result_ret mbind result_bind Ok]. unfold assign_slot.
  cbn [as_float shape_of].
  rewrite (broadcast2_mismatch _ 28) by (by apply map2d_grid || lia).
  by rewrite (shape2_grid _ 28 28 Hg) by lia.
Qed.

Lemma down_sample_list_misfit (img : list (list Z)) (imgs : list (list (list Z)))
    (level : Z) :
  is_grid 28 28 img → ¬ level_fits level →
  ∃ e, down_sample_list (img :: imgs) level = Raise e.
Proof.
  intros Hg Hfit. rewrite down_sample_list_loop.
  destruct (level <? 0) eqn:Hneg; [by eexists|]. apply Z.ltb_ge in Hneg.
  cbn [for_each].
  destruct (decide (level = 0)) as [-> | Hz]; [by eexists|].
  destruct (decide (level < 15)) as [Hsmall | Hlarge].
  - destruct (decide (28 / (28 / level) = level)) as [Hn | Hn].
    + exfalso. apply Hfit. left. split; [lia|done].
    + assert (level ≠ 1) by (intros ->; by apply Hn).
      rewrite compress_misfit by (done || lia). by eexists.
  - destruct (decide (level = 28)) as [-> | Hne]; [exfalso; apply Hfit; by right|].
    rewrite compress_large by (done || lia). by eexists.
Qed.

(** X1. On a non-empty array of 28-by-28 images [down_sample_list] returns
    exactly at the levels 1, 2, 3, 4, 5, 7, 9, 14 and 28; at every other level
    it raises. *)
Theorem down_sample_list_returns_iff (img : list (list Z))
    (imgs : list (list (list Z))) (level : Z) :
  is_grid 28 28 img → Forall (is_grid 28 28) imgs →
  ((∃ out, down_sample_list (img :: imgs) level = Ok out)
   ↔ level = 1 ∨ level = 2 ∨ level = 3 ∨ level = 4 ∨ level = 5 ∨ level = 7
     ∨ level = 9 ∨ level = 14 ∨ level = 28)
  ∧ ((∃ e, down_sample_list (img :: imgs) level = Raise e)
     ↔ ¬ (level = 1 ∨ level = 2 ∨ level = 3 ∨ level = 4 ∨ level = 5 ∨ level = 7
          ∨ level = 9 ∨ level = 14 ∨ level = 28)).
Proof.
  intros Hg Hgs. rewrite <- level_fits_list.
  assert (Hall : Forall (is_grid 28 28) (img :: imgs)) by (by constructor).
  split; split.
  - intros [out Hout]. destruct (decide (level_fits level)) as [|Hn]; [done|].
    destruct (down_sample_list_misfit img imgs level Hg Hn) as [e He].
    rewrite He in Hout. discriminate Hout.
  - intros Hfit. eexists. by apply down_sample_list_levels.
  - intros [e He] Hfit.
    rewrite (down_sample_list_levels _ _ Hall Hfit) in He. discriminate He.
  - intros Hn. by apply down_sample_list_misfit.
Qed.

Lemma down_sample_list_returns_iff_witness :
  (is_grid 28 28 flat_image ∧ Forall (is_grid 28 28) [ramp_image])
  ∧ (∃ out, down_sample_list [flat_image; ramp_image] 5 = Ok out)
  ∧ ∃ e, down_sample_list [flat_image; ramp_image] 6 = Raise e.
Proof.
  assert (H1 : is_grid 28 28 flat_image) by exact (proj1 flat_image_raw).
  assert (H2 : Forall (is_grid 28 28) [ramp_image])
    by (constructor; [exact (proj1 ramp_image_raw)|constructor]).
  split; [exact (conj H1 H2)|]. split.
  - apply (proj1 (down_sample_list_returns_iff flat_image [ramp_image] 5 H1 H2)). lia.
  - apply (proj2 (down_sample_list_returns_iff flat_image [ramp_image] 6 H1 H2)). lia.
Defined.



(** *** Medians stay within the data *)

Lemma median_bounds (l : list Z) (lo hi : Z) :
  l ≠ [] → Forall (λ x, lo ≤ x ≤ hi) l →
  (inject_Z lo <= median l <= inject_Z hi)%Q.
Proof.
  intros Hne Hl. pose proof (median_exact l Hne) as Hm.
  assert (Hin : ∀ k v, has_rank l k v → lo ≤ v ≤ hi).
  { intros k v (Hv & _). by apply (proj1 (list.Forall_forall _ _) Hl v). }
  unfold exact_median in Hm. destruct (Nat.odd (length l)).
  - destruct Hm as (v & Hv & ->). apply Hin in Hv.
    rewrite <- !Zle_Qle. lia.
  - destruct Hm as (a & b & Ha & Hb & ->). apply Hin in Ha, Hb.
    unfold Qle, Qdiv, Qmult, Qinv, Qplus, inject_Z. simpl. lia.
Qed.

Lemma median_reduced (l : list Z) : Qred (median l) = median l.
Proof. unfold median, mean. destruct (Nat.odd _); apply Qcanon.Qred_involutive. Qed.

Lemma median_const (l : list Z) (c : Z) :
  l ≠ [] → Forall (λ x, x = c) l → median l = inject_Z c.
Proof.
  intros Hne Hl.
  destruct (median_bounds l c c Hne) as [Hlo Hhi].
  { eapply list.Forall_impl; [exact Hl|]. intros x ->. lia. }
  rewrite <- median_reduced, <- (inject_Z_Qred c).
  apply Qred_complete. by apply Qle_antisym.
Qed.

Lemma block_nonempty (img : list (list Z)) (w i j : nat) :
  is_grid 28 28 img → (0 < w)%nat → (i * w + w ≤ 28)%nat → (j * w + w ≤ 28)%nat →
  concat (window img (i * w) (j * w) w w) ≠ [].
Proof.
  intros Hg Hw Hi Hj Hnil.
  destruct (window_is_block img w i j 28 28 Hg Hi Hj) as [Hlen _].
  rewrite Hnil in Hlen. simpl in Hlen. nia.
Qed.

(** What holds of the median of every block holds of the whole grid. *)
Lemma block_medians_Forall (R : Q → Prop) (img : list (list Z)) (level : Z) :
  is_grid 28 28 img → 1 ≤ level < 15 → 28 / (28 / level) = level →
  (∀ i j, (i < Z.to_nat level)%nat → (j < Z.to_nat level)%nat →
     R (median (concat (window img (i * Z.to_nat (28 / level))
                               (j * Z.to_nat (28 / level))
                               (Z.to_nat (28 / level)) (Z.to_nat (28 / level)))))) →
  Forall (Forall R)
    (block_medians img (Z.to_nat (28 / level)) (Z.to_nat level) (Z.to_nat level)).
Proof.
  intros Hg Hl Hn HR. unfold block_medians.
  apply Forall_fmap, list.Forall_forall. intros i Hi%elem_of_seq. cbn.
  apply Forall_fmap, list.Forall_forall. intros j Hj%elem_of_seq. cbn.
  apply HR; lia.
Qed.

Lemma block_index_bound (level : Z) (i : nat) :
  1 ≤ level < 15 → 28 / (28 / level) = level → (i < Z.to_nat level)%nat →
  (0 < Z.to_nat (28 / level))%nat
  ∧ (i * Z.to_nat (28 / level) + Z.to_nat (28 / level) ≤ 28)%nat.
Proof.
  intros Hl Hn Hi. pose proof (window_side_bounds level Hl) as Hw.
  assert (level * (28 / level) ≤ 28).
  { apply Z.mul_div_le. lia. }
  split; [lia|]. nia.
Qed.

Lemma compressed_bounds (level lo hi : Z) (img : list (list Z)) :
  is_grid 28 28 img → level_fits level →
  Forall (Forall (λ p, lo ≤ p ≤ hi)) img →
  Forall (Forall (λ q, inject_Z lo <= q <= inject_Z hi)%Q) (compressed level img).
Proof.
  intros Hg [[Hl Hn] | ->] Hpix; unfold compressed.
  - rewrite (proj2 (Z.ltb_lt level 15)) by lia.
    apply block_medians_Forall; [done..|].
    intros i j Hi Hj.
    destruct (block_index_bound level i Hl Hn Hi) as [Hw Hib].
    destruct (block_index_bound level j Hl Hn Hj) as [_ Hjb].
    apply median_bounds; [by apply block_nonempty|by apply window_Forall].
  - unfold map2d. cbn [Z.ltb Z.compare Pos.compare Pos.compare_cont].
    apply Forall_fmap. eapply list.Forall_impl; [exact Hpix|]. intros row Hrow. cbn.
    apply Forall_fmap. eapply list.Forall_impl; [exact Hrow|]. intros p Hp. cbn in *.
    rewrite <- !Zle_Qle. lia.
Qed.

(** X3. Compression never leaves the range of the pixels: whenever
    [down_sample_list] returns on 28-by-28 images whose pixels lie between
    [lo] and [hi], every value it stores lies between [lo] and [hi]; for
    uint8 images the rates handed to the Poisson generator are therefore
    between 0 and 255. *)
Theorem down_sample_list_within_pixel_range (imgs : list (list (list Z)))
    (level lo hi : Z) (out : list (list (list Q))) :
  Forall (λ img, is_grid 28 28 img ∧ Forall (Forall (λ p, lo ≤ p ≤ hi)) img) imgs →
  down_sample_list imgs level = Ok out →
  in_range (λ q, inject_Z lo <= q <= inject_Z hi)%Q out.
Proof.
  intros Himgs Hout.
  assert (Hgs : Forall (is_grid 28 28) imgs).
  { eapply list.Forall_impl; [exact Himgs|]. by intros img [Hg _]. }
  destruct imgs as [|img imgs].
  { rewrite down_sample_list_loop in Hout. destruct (level <? 0); [done|].
    injection Hout as <-. constructor. }
  destruct (decide (level_fits level)) as [Hfit | Hfit].
  - rewrite (down_sample_list_levels _ _ Hgs Hfit) in Hout. injection Hout as <-.
    change (in_range (λ q, inject_Z lo <= q <= inject_Z hi)%Q
              (map (compressed level) (img :: imgs))).
    apply Forall_fmap. eapply list.Forall_impl; [exact Himgs|].
    intros im [Hg Hp]. cbn. by apply compressed_bounds.
  - apply list.Forall_cons in Hgs as [Hg _].
    destruct (down_sample_list_misfit img imgs level Hg Hfit) as [e He].
    rewrite He in Hout. discriminate Hout.
Qed.

Lemma down_sample_list_within_pixel_range_witness :
  Forall (λ img, is_grid 28 28 img ∧ Forall (Forall (λ p, 0 ≤ p ≤ 255)) img)
         [flat_image; ramp_image]
  ∧ ∃ out, down_sample_list [flat_image; ramp_image] 7 = Ok out
           ∧ in_range (λ q, inject_Z 0 <= q <= inject_Z 255)%Q out.
Proof.
  assert (Hl : level_fits 7) by (left; split; [lia|reflexivity]).
  destruct (compressed_all 7 [flat_image; ramp_image] two_samples_raw Hl)
    as (Hout & _).
  split; [exact two_samples_raw|]. eexists. split; [exact Hout|].
  exact (down_sample_list_within_pixel_range [flat_image; ramp_image] 7 0 255 _
           two_samples_raw Hout).
Defined.

(** *** Uniform images *)

Lemma map_seq_const {A} (f : nat → A) (x : A) (n : nat) :
  (∀ i, (i < n)%nat → f i = x) → map f (seq 0 n) = replicate n x.
Proof.
  intros Hf. apply list_eq_same_length with n.
  - by rewrite length_replicate.
  - by rewrite length_map, length_seq.
  - intros i a b Hi Ha Hb.
    rewrite list_lookup_fmap, lookup_seq_lt in Ha by done. injection Ha as <-.
    rewrite lookup_replicate_2 in Hb by done. injection Hb as <-. by apply Hf.
Qed.

(** X4. A uniform image stays uniform: at every level that works, the grid
    stored for the 28-by-28 image with every pixel equal to [c] is the
    level-by-level grid with every entry equal to [c]. *)
Theorem down_sample_list_uniform_image (c level : Z) :
  level_fits level →
  down_sample_list [replicate 28 (replicate 28 c)] level
  = Ok [replicate (Z.to_nat level) (replicate (Z.to_nat level) (inject_Z c))].
Proof.
  intros Hfit.
  assert (Hg : is_grid 28 28 (replicate 28 (replicate 28 c))).
  { split; [by rewrite length_replicate|].
    apply Forall_replicate. by rewrite length_replicate. }
  assert (Hpix : Forall (Forall (λ x, x = c)) (replicate 28 (replicate 28 c))).
  { apply Forall_replicate. by apply Forall_replicate. }
  rewrite down_sample_list_levels by (done || by repeat constructor).
  cbn [map]. do 2 f_equal. unfold compressed.
  destruct Hfit as [[Hl Hn] | ->].
  - rewrite (proj2 (Z.ltb_lt level 15)) by lia. unfold block_medians.
    apply map_seq_const. intros i Hi. apply map_seq_const. intros j Hj.
    destruct (block_index_bound level i Hl Hn Hi) as [Hw Hib].
    destruct (block_index_bound level j Hl Hn Hj) as [_ Hjb].
    apply median_const; [by apply block_nonempty|by apply window_Forall].
  - cbn [Z.ltb Z.compare Pos.compare Pos.compare_cont]. unfold map2d.
    change (Z.to_nat 28) with 28%nat.
    by rewrite !fmap_replicate.
Qed.

Lemma down_sample_list_uniform_image_witness :
  level_fits 5
  ∧ down_sample_list [replicate 28 (replicate 28 100)] 5
    = Ok [replicate (Z.to_nat 5) (replicate (Z.to_nat 5) (inject_Z 100))].
Proof.
  assert (H : level_fits 5) by (left; split; [lia|reflexivity]).
  exact (conj H (down_sample_list_uniform_image 100 5 H)).
Defined.

(** *** What the windows read *)

Lemma window_ext {A} (a a' : list (list A)) (r c h w H W : nat) :
  is_grid H W a → is_grid H W a' → (r + h ≤ H)%nat → (c + w ≤ W)%nat →
  (∀ x y, (x < h)%nat → (y < w)%nat →
     at2 a (r + x) (c + y) = at2 a' (r + x) (c + y)) →
  window a r c h w = window a' r c h w.
Proof.
  intros Hg Hg' Hr Hc Hagree.
  destruct (window_grid a r c h w H W Hg Hr Hc) as [Hlen Hrows].
  destruct (window_grid a' r c h w H W Hg' Hr Hc) as [Hlen' Hrows'].
  apply list_eq_same_length with h; [done..|].
  intros x row row' Hx Hrow Hrow'.
  apply list_eq_same_length with w.
  - by apply (proj1 (Forall_lookup _ _) Hrows' x).
  - by apply (proj1 (Forall_lookup _ _) Hrows x).
  - intros y v v' Hy Hv Hv'.
    pose proof (window_lookup a r c h w x y Hx Hy) as Ha.
    pose proof (window_lookup a' r c h w x y Hx Hy) as Ha'.
    unfold at2 in Ha at 1. unfold at2 in Ha' at 1.
    rewrite Hrow in Ha. rewrite Hrow' in Ha'. simpl in Ha, Ha'.
    rewrite Hv in Ha. rewrite Hv' in Ha'.
    rewrite Hagree in Ha by done. rewrite <- Ha' in Ha. by injection Ha.
Qed.

(** X5. Below 15 the output reads only the top-left square covered by whole
    windows: two 28-by-28 images that agree on the first
    [(28 // w) * w] rows and columns, [w = 28 // level], have the same
    [median_downsampling].  At level 5 that square has side 25: the last
    three rows and columns of the image never matter. *)
Theorem median_downsampling_ignores_margin (img img' : list (list Z)) (level : Z) :
  is_grid 28 28 img → is_grid 28 28 img' → 1 ≤ level < 15 →
  (∀ r c, (r < Z.to_nat (28 / (28 / level) * (28 / level)))%nat →
          (c < Z.to_nat (28 / (28 / level) * (28 / level)))%nat →
          at2 img r c = at2 img' r c) →
  median_downsampling img level = median_downsampling img' level.
Proof.
  intros Hg Hg' Hl Hagree. pose proof (window_side_bounds level Hl) as Hw.
  rewrite !median_downsampling_small by done.
  rewrite window_count by lia.
  set (w := Z.to_nat (28 / level)) in *.
  set (n := Z.to_nat (28 / (28 / level))) in *.
  assert (Hcover : (n * w ≤ 28)%nat).
  { subst n w. rewrite <- Z2Nat.inj_mul by (try apply Z.div_pos; lia).
    assert (28 / (28 / level) * (28 / level) ≤ 28); [|lia].
    rewrite Z.mul_comm. apply Z.mul_div_le. lia. }
  assert (Hside : Z.to_nat (28 / (28 / level) * (28 / level)) = (n * w)%nat).
  { subst n w. rewrite Z2Nat.inj_mul by (try apply Z.div_pos; lia). done. }
  rewrite Hside in Hagree.
  do 2 f_equal. unfold block_medians.
  apply List.map_ext_in. intros i Hi%List.in_seq.
  apply List.map_ext_in. intros j Hj%List.in_seq.
  do 2 f_equal.
  apply (window_ext img img' (i * w) (j * w) w w 28 28); [done|done|nia|nia|].
  intros x y Hx Hy. apply Hagree; nia.
Qed.

Lemma zero_margin_grid (m h w : nat) (img : list (list Z)) :
  is_grid h w img → is_grid h w (Examples2.zero_margin m img).
Proof.
  intros [Hrows Hcols]. unfold Examples2.zero_margin. split.
  - by rewrite length_imap.
  - apply Forall_lookup. intros i row Hrow.
    rewrite list_lookup_imap in Hrow.
    destruct (img !! i) as [row0|] eqn:Hi; [|done]. injection Hrow as <-.
    rewrite length_imap. by apply (proj1 (Forall_lookup _ _) Hcols i).
Qed.

Lemma zero_margin_corner (m : nat) (img : list (list Z)) (r c : nat) :
  (r < m)%nat → (c < m)%nat →
  at2 img r c = at2 (Examples2.zero_margin m img) r c.
Proof.
  intros Hr Hc. unfold at2, Examples2.zero_margin.
  rewrite list_lookup_imap. destruct (img !! r) as [row|]; [|done]. simpl.
  rewrite list_lookup_imap. destruct (row !! c) as [p|]; [|done]. simpl.
  by rewrite (proj2 (Nat.ltb_lt r m)), (proj2 (Nat.ltb_lt c m)).
Qed.

Lemma median_downsampling_ignores_margin_witness :
  (is_grid 28 28 ramp_image
   ∧ is_grid 28 28 (Examples2.zero_margin 25 ramp_image)
   ∧ 1 ≤ 5 < 15)
  ∧ median_downsampling ramp_image 5
    = median_downsampling (Examples2.zero_margin 25 ramp_image) 5.
Proof.
  assert (H1 : is_grid 28 28 ramp_image) by exact (proj1 ramp_image_raw).
  assert (H2 : is_grid 28 28 (Examples2.zero_margin 25 ramp_image))
    by exact (zero_margin_grid 25 28 28 ramp_image H1).
  assert (H3 : 1 ≤ 5 < 15) by lia.
  split; [exact (conj H1 (conj H2 H3))|].
  apply (median_downsampling_ignores_margin ramp_image
           (Examples2.zero_margin 25 ramp_image) 5 H1 H2 H3).
  intros r c Hr Hc. exact (zero_margin_corner 25 ramp_image r c Hr Hc).
Defined.

(** *** Where the pipeline can fail *)

Section Failures.
Context `{PG : PoissonGen G}.



End Failures.


End BuilderMore.

(** ** More on the staged trainer *)

Module TrainerMore.
Import Trainer Spec Spec2 TrainerFacts Examples.

Arguments stage_msg : simpl never.
Arguments String.append : simpl never.

Section Stages.
Context `{K : Keras P X Y V}.
Implicit Types (w : world P) (x : X) (y : Y) (d h : dict (list V)).

(** One round of the loop whose [fit] returns. *)
Lemma stages_step_ok in_model idx epoch rest bs x y acc w b p' h :
  bs !! idx = Some b →
  fit (heap w in_model) x y epoch b (2 # 10) = inr (p', h) →
  stages in_model idx (epoch :: rest) bs x y acc w
  = match (if decide (idx = 0%nat) then Ok h
           else all ← read_local "fit_hist_all" acc; merge_history all h) with
    | inl e => (inl e, after_stage in_model idx epoch b p' w)
    | inr merged =>
        stages in_model (S idx) rest bs x y (Some merged)
               (after_stage in_model idx epoch b p' w)
    end.
Proof.
  intros Hb Hfit. cbn [stages]. unfold index. rewrite Hb.
  unfold print, emit, call_fit, emit, get, put, raise, lift, mbind,
    SE_bind, mret, SE_ret, Ok. cbn.
  rewrite Hfit. unfold after_stage. cbn.
  by destruct (decide (idx = 0%nat)).
Qed.

(** One round of the loop whose [fit] raises: the banner was printed, the
    call was made, the parameters are as before. *)
Lemma stages_step_raise in_model idx epoch rest bs x y acc w b what :
  bs !! idx = Some b →
  fit (heap w in_model) x y epoch b (2 # 10) = inl what →
  stages in_model idx (epoch :: rest) bs x y acc w
  = (Raise (FitRaised what), after_failed_stage in_model idx epoch b w).
Proof.
  intros Hb Hfit. cbn [stages]. unfold index. rewrite Hb.
  unfold print, emit, call_fit, emit, get, put, raise, lift, mbind,
    SE_bind, mret, SE_ret, Ok. cbn.
  by rewrite Hfit.
Qed.

(** *** What the loop can raise *)

Lemma merge_keys_raises keys d h e :
  merge_keys keys d h = Raise e → ∃ key, e = KeyError key ∧ key ∈ keys.
Proof.
  revert d. induction keys as [|k keys IH]; intros d; simpl; [done|].
  unfold dict_get.
  destruct (dict_lookup d k); simpl;
    [|intros [= <-]; exists k; split; [done|by left]].
  destruct (dict_lookup h k); simpl.
  - intros He. destruct (IH _ He) as (key & -> & Hkey).
    exists key. split; [done|by right].
  - intros [= <-]. exists k. split; [done|by left].
Qed.

Lemma stages_errors in_model x y : ∀ el idx bs acc w e,
  (∀ i, (i < length el)%nat → is_Some (bs !! (idx + i)%nat)) →
  (idx ≠ 0%nat → is_Some acc) →
  (stages in_model idx el bs x y acc w).1 = Raise e →
  (∃ what, e = FitRaised what) ∨ (∃ key, e = KeyError key).
Proof.
  induction el as [|epoch rest IH]; intros idx bs acc w e Hbs Hacc; [done|].
  destruct (Hbs 0%nat) as [b Hb]; [simpl; lia|]. rewrite Nat.add_0_r in Hb.
  assert (Hbs' : ∀ i, (i < length rest)%nat → is_Some (bs !! (S idx + i)%nat)).
  { intros i Hi. replace (S idx + i)%nat with (idx + S i)%nat by lia.
    apply Hbs. simpl. lia. }
  destruct (fit (heap w in_model) x y epoch b (2 # 10)) as [what|[p' h]] eqn:Hfit.
  - rewrite (stages_step_raise _ _ _ _ _ _ _ _ _ _ _ Hb Hfit).
    intros [= <-]. left. by eexists.
  - rewrite (stages_step_ok _ _ _ _ _ _ _ _ _ _ _ _ Hb Hfit).
    destruct (decide (idx = 0%nat)) as [Hz|Hnz].
    + unfold Ok. by apply IH.
    + destruct (Hacc Hnz) as [all ->]. cbn [read_local mbind result_bind Ok].
      destruct (merge_history all h) as [e'|merged] eqn:Hm.
      * intros [= <-]. right.
        destruct (merge_keys_raises _ _ _ _ Hm) as (key & -> & _). by eexists.
      * by apply IH.
Qed.

(** Once the body has run, [fit_hist_all] is bound. *)
Lemma stages_binds in_model x y : ∀ el idx bs acc w acc' w',
  stages in_model idx el bs x y acc w = (Ok acc', w') →
  is_Some acc ∨ el ≠ [] → is_Some acc'.
Proof.
  induction el as [|epoch rest IH]; intros idx bs acc w acc' w' Hrun Hsome.
  - injection Hrun as <- <-. by destruct Hsome.
  - destruct (bs !! idx) as [b|] eqn:Hb;
      [|cbn [stages] in Hrun; unfold index in Hrun; by rewrite Hb in Hrun].
    destruct (fit (heap w in_model) x y epoch b (2 # 10)) as [what|[p' h]] eqn:Hfit.
    + by rewrite (stages_step_raise _ _ _ _ _ _ _ _ _ _ _ Hb Hfit) in Hrun.
    + rewrite (stages_step_ok _ _ _ _ _ _ _ _ _ _ _ _ Hb Hfit) in Hrun.
      destruct (if decide (idx = 0%nat) then _ else _) as [e|merged]; [done|].
      eapply IH; [exact Hrun|]. left. by eexists.
Qed.

(** *** The loop up to a given stage *)

Lemma stage_events_app in_model : ∀ plan1 plan2 idx,
  stage_events in_model idx (plan1 ++ plan2)
  = stage_events in_model idx plan1
    ++ stage_events in_model (idx + length plan1) plan2.
Proof.
  induction plan1 as [|[epoch b] plan1 IH]; intros plan2 idx; simpl.
  - by rewrite Nat.add_0_r.
  - rewrite IH. by replace (S idx + length plan1)%nat
      with (idx + S (length plan1))%nat by lia.
Qed.

Lemma stages_run in_model x y : ∀ (plan : list (Z * Z)) idx el_rest bs all w runs,
  idx ≠ 0%nat →
  (∀ i b, plan.*2 !! i = Some b → bs !! (idx + i)%nat = Some b) →
  train_seq (heap w in_model) x y plan = Some runs →
  NoDup (dict_keys all) →
  (∀ h key, h ∈ runs.*2 → key ∈ dict_keys all → is_Some (dict_lookup h key)) →
  ∃ merged w',
    stages in_model idx (plan.*1 ++ el_rest) bs x y (Some all) w
    = stages in_model (idx + length plan) el_rest bs x y (Some merged) w'
    ∧ heap w' in_model = default (heap w in_model) (list.last runs.*1)
    ∧ (∀ r, r ≠ in_model → heap w' r = heap w r)
    ∧ events w' = events w ++ stage_events in_model idx plan
    ∧ dict_keys merged = dict_keys all
    ∧ ∀ key, key ∈ dict_keys all →
        dict_lookup merged key
        = (old ← dict_lookup all key; Some (old ++ concat_histories key runs.*2)).
Proof.
  induction plan as [|[epoch b] plan IH];
    intros idx el_rest bs all w runs Hnz Hbs Hrun Hnd Hkeys.
  - injection Hrun as <-. exists all, w. simpl. rewrite Nat.add_0_r.
    split; [done|]. split; [done|]. split; [done|].
    split; [by rewrite app_nil_r|]. split; [done|].
    intros key Hkey. apply dict_lookup_keys in Hkey as [old ->]. simpl.
    unfold concat_histories. simpl. by rewrite app_nil_r.
  - simpl in Hrun.
    destruct (fit (heap w in_model) x y epoch b (2 # 10)) as [e|[p' h]] eqn:Hfit; [done|].
    destruct (train_seq p' x y plan) as [runs'|] eqn:Hrun'; [|done].
    injection Hrun as <-.
    destruct (merge_history_spec all h Hnd) as (all1 & Hm & Hk1 & Hl1).
    { intros key Hkey. apply (Hkeys h key); [|done]. simpl. by left. }
    assert (Hb : bs !! idx = Some b).
    { rewrite <- (Nat.add_0_r idx). by apply Hbs. }
    destruct (IH (S idx) el_rest bs all1 (after_stage in_model idx epoch b p' w) runs')
      as (merged & w' & Hst & Hheap & Hother & Hev & Hk & Hl).
    { done. }
    { intros i b' Hi. replace (S idx + i)%nat with (idx + S i)%nat by lia.
      by apply Hbs. }
    { unfold after_stage. cbn [heap]. by rewrite fn_lookup_insert. }
    { by rewrite Hk1. }
    { intros h' key Hh' Hkey. rewrite Hk1 in Hkey.
      apply (Hkeys h' key); [|done]. simpl. by right. }
    exists merged, w'. split; [|split; [|split; [|split; [|split]]]].
    + rewrite fmap_cons. cbn [fst app].
      rewrite (stages_step_ok _ _ _ _ _ _ _ _ _ _ _ _ Hb Hfit).
      rewrite decide_False by done. cbn [read_local mbind result_bind Ok].
      rewrite Hm. unfold Ok. rewrite Hst.
      by replace (S idx + length plan)%nat
        with (idx + length ((epoch, b) :: plan))%nat by (simpl; lia).
    + rewrite Hheap. unfold after_stage. cbn [heap]. rewrite fn_lookup_insert.
      rewrite fmap_cons. cbn [fst]. by rewrite last_cons_default.
    + intros r Hr. rewrite Hother by done. unfold after_stage. cbn [heap].
      by rewrite fn_lookup_insert_ne.
    + rewrite Hev. unfold after_stage. simpl. by rewrite <- !app_assoc.
    + by rewrite Hk, Hk1.
    + intros key Hkey. rewrite Hl by (by rewrite Hk1). rewrite Hl1 by done.
      apply dict_lookup_keys in Hkey as [old ->]. simpl.
      unfold concat_histories. simpl. by rewrite app_assoc.
Qed.

(** The loop from its start, through the stages [done] whose [fit] calls
    return and whose histories merge. *)
Lemma stages_through in_model x y (done : list (Z * Z)) el_rest bs w runs :
  (∀ i b, done.*2 !! i = Some b → bs !! i = Some b) →
  train_seq (heap w in_model) x y done = Some runs →
  (∀ h0, head runs.*2 = Some h0 →
     NoDup (dict_keys h0)
     ∧ ∀ h key, h ∈ runs.*2 → key ∈ dict_keys h0 → is_Some (dict_lookup h key)) →
  ∃ acc w',
    stages in_model 0 (done.*1 ++ el_rest) bs x y None w
    = stages in_model (length done) el_rest bs x y acc w'
    ∧ heap w' in_model = default (heap w in_model) (list.last runs.*1)
    ∧ (∀ r, r ≠ in_model → heap w' r = heap w r)
    ∧ events w' = events w ++ stage_events in_model 0 done
    ∧ (done = [] → acc = None)
    ∧ (∀ h0, head runs.*2 = Some h0 →
         ∃ merged, acc = Some merged
                   ∧ dict_keys merged = dict_keys h0
                   ∧ ∀ key, key ∈ dict_keys h0 →
                       dict_lookup merged key = Some (concat_histories key runs.*2)).
Proof.
  intros Hbs Hrun Hwf. destruct done as [|[epoch b] done].
  - injection Hrun as <-. exists None, w. simpl.
    split; [done|]. split; [done|]. split; [done|].
    split; [by rewrite app_nil_r|]. split; [done|]. by intros h0 ?.
  - simpl in Hrun.
    destruct (fit (heap w in_model) x y epoch b (2 # 10)) as [e|[p1 h1]] eqn:Hfit; [done|].
    destruct (train_seq p1 x y done) as [runs'|] eqn:Hrun'; [|done].
    injection Hrun as <-.
    destruct (Hwf h1 eq_refl) as [Hnd Hkeys].
    assert (Hb : bs !! 0%nat = Some b) by (by apply Hbs).
    destruct (stages_run in_model x y done 1 el_rest bs h1
                (after_stage in_model 0 epoch b p1 w) runs')
      as (merged & w' & Hst & Hheap & Hother & Hev & Hk & Hl).
    { done. }
    { intros i b' Hi. by apply (Hbs (S i)). }
    { unfold after_stage. cbn [heap]. by rewrite fn_lookup_insert. }
    { done. }
    { intros h key Hh Hkey. apply Hkeys; [|done]. rewrite fmap_cons. by right. }
    exists (Some merged), w'. split; [|split; [|split; [|split; [|split]]]].
    + rewrite fmap_cons. cbn [fst app].
      rewrite (stages_step_ok _ _ _ _ _ _ _ _ _ _ _ _ Hb Hfit).
      rewrite decide_True by done. unfold Ok. by rewrite Hst.
    + rewrite Hheap. unfold after_stage. cbn [heap]. rewrite fn_lookup_insert.
      rewrite fmap_cons. cbn [fst]. by rewrite last_cons_default.
    + intros r Hr. rewrite Hother by done. unfold after_stage. cbn [heap].
      by rewrite fn_lookup_insert_ne.
    + rewrite Hev. unfold after_stage. simpl. by rewrite <- !app_assoc.
    + done.
    + intros h0 [= <-]. exists merged. split; [done|]. split; [done|].
      intros key Hkey. rewrite Hl by done.
      apply dict_lookup_keys in Hkey as [old Hold].
      rewrite fmap_cons. unfold concat_histories. cbn [map concat snd].
      by rewrite Hold.
Qed.

Lemma lookup_plan_batch (done : list (Z * Z)) (b : Z) (rest_bs : list Z) :
  (∀ i b', done.*2 !! i = Some b' → (done.*2 ++ b :: rest_bs) !! i = Some b')
  ∧ (done.*2 ++ b :: rest_bs) !! length done = Some b.
Proof.
  split.
  - intros i b' Hi. by apply lookup_app_l_Some.
  - apply list_lookup_middle. by rewrite length_fmap.
Qed.

Lemma merge_keys_missing h (key0 : string) post : ∀ pre d,
  (∀ k, k ∈ pre ++ key0 :: post → is_Some (dict_lookup d k)) →
  (∀ k, k ∈ pre → is_Some (dict_lookup h k)) →
  dict_lookup h key0 = None →
  merge_keys (pre ++ key0 :: post) d h = Raise (KeyError key0).
Proof.
  induction pre as [|k pre IH]; intros d Hd Hpre Hmiss; simpl.
  - unfold dict_get. destruct (Hd key0) as [old ->]; [by left|]. simpl.
    by rewrite Hmiss.
  - unfold dict_get. destruct (Hd k) as [old ->]; [by left|]. simpl.
    destruct (Hpre k) as [new ->]; [by left|]. simpl.
    apply IH; [|intros k' Hk'; apply Hpre; by right|done].
    intros k' Hk'. rewrite dict_lookup_set.
    destruct (decide (k = k')); [done|]. apply Hd. by right.
Qed.

End Stages.

(** X7. A call of [fit_model] on lists of equal length that are not empty
    either returns or fails in one of two ways: with the exception of a
    [fit] call, or with the [KeyError] of the merge loop.  It never raises
    the length check's [ValueError], an [IndexError] on [batch_sizes] or the
    [UnboundLocalError] of an empty run. *)
Theorem fit_model_failure_kinds `{K : Keras P X Y V} (in_model : nat)
    (epochs_list batch_sizes : list Z) (x : X) (y : Y) (w w' : world P) (e : exn) :
  length epochs_list = length batch_sizes → epochs_list ≠ [] →
  fit_model in_model epochs_list batch_sizes x y w = (Raise e, w') →
  (∃ what, e = FitRaised what) ∨ (∃ key, e = KeyError key).
Proof.
  intros Hlen Hne. unfold fit_model. rewrite decide_False by (by intros ?).
  unfold mbind, SE_bind.
  destruct (stages in_model 0 epochs_list batch_sizes x y None w)
    as [[e1|acc] w1] eqn:Hst.
  - intros [= <- <-].
    apply (stages_errors in_model x y epochs_list 0 batch_sizes None w e1);
      [|done|by rewrite Hst].
    intros i Hi. apply lookup_lt_is_Some_2. simpl. lia.
  - destruct (stages_binds _ _ _ _ _ _ _ _ _ _ Hst) as [all ->]; [by right|].
    discriminate.
Qed.

Lemma fit_model_failure_kinds_witness :
  (length [2; -1] = length [100; 150] ∧ [2; -1] ≠ @nil Z)
  ∧ ∃ e w',
      fit_model 0%nat [2; -1] [100; 150] tt tt fresh_world = (Raise e, w')
      ∧ ((∃ what, e = FitRaised what) ∨ (∃ key, e = KeyError key)).
Proof.
  assert (Hne : [2; -1] ≠ @nil Z) by discriminate.
  split; [exact (conj eq_refl Hne)|].
  eexists _, _. split; [reflexivity|].
  exact (fit_model_failure_kinds (K := epoch_counter) 0%nat [2; -1]
           [100; 150] tt tt fresh_world _ _ eq_refl Hne eq_refl).
Defined.



(** X9. The merge loop's [KeyError].  If the stages [done], of which there
    is at least one, train and merge, and the next stage's [fit] returns a
    history that lacks a key of the first stage's history, [fit_model] raises
    [KeyError] for the first such key in the first history's order; the
    model already holds the parameters that last [fit] returned. *)
Theorem fit_model_missing_key `{K : Keras P X Y V} (in_model : nat)
    (done : list (Z * Z)) (epoch b : Z) (rest_el rest_bs : list Z)
    (x : X) (y : Y) (w : world P) (runs : list (P * dict (list V)))
    (h0 h : dict (list V)) (p' : P) (pre post : list string) (key0 : string) :
  length rest_el = length rest_bs →
  train_seq (heap w in_model) x y done = Some runs →
  head runs.*2 = Some h0 →
  NoDup (dict_keys h0) →
  (∀ h' key, h' ∈ runs.*2 → key ∈ dict_keys h0 → is_Some (dict_lookup h' key)) →
  fit (default (heap w in_model) (list.last runs.*1)) x y epoch b (2 # 10)
  = inr (p', h) →
  dict_keys h0 = pre ++ key0 :: post →
  (∀ k, k ∈ pre → is_Some (dict_lookup h k)) →
  dict_lookup h key0 = None →
  ∃ w',
    fit_model in_model (done.*1 ++ epoch :: rest_el) (done.*2 ++ b :: rest_bs) x y w
    = (Raise (KeyError key0), w')
    ∧ heap w' in_model = p'
    ∧ (∀ r, r ≠ in_model → heap w' r = heap w r)
    ∧ events w' = events w ++ stage_events in_model 0 (done ++ [(epoch, b)]).
Proof.
  intros Hlen Hrun Hhead Hnd Hkeys Hfit Hsplit Hpre Hmiss.
  destruct (lookup_plan_batch done b rest_bs) as [Hbs Hb].
  destruct (stages_through in_model x y done (epoch :: rest_el)
              (done.*2 ++ b :: rest_bs) w runs Hbs Hrun)
    as (acc & w1 & Hst & Hheap & Hother & Hev & _ & Hacc).
  { intros h1 Hh1. rewrite Hhead in Hh1. injection Hh1 as <-. by split. }
  destruct (Hacc h0 Hhead) as (merged & -> & Hk & Hl).
  rewrite <- Hheap in Hfit.
  assert (Hnz : length done ≠ 0%nat).
  { destruct done; [|done]. injection Hrun as <-. discriminate Hhead. }
  exists (after_stage in_model (length done) epoch b p' w1).
  split; [|split; [|split]].
  - unfold fit_model.
    rewrite decide_False by (rewrite !length_app, !length_fmap; simpl; lia).
    unfold mbind at 1, SE_bind at 1. rewrite Hst.
    rewrite (stages_step_ok _ _ _ _ _ _ _ _ _ _ _ _ Hb Hfit).
    rewrite decide_False by done. cbn [read_local mbind result_bind Ok].
    unfold merge_history. rewrite Hk, Hsplit.
    rewrite (merge_keys_missing h key0 post pre merged); [done| |done|done].
    intros k Hk'. apply dict_lookup_keys. by rewrite Hk, Hsplit.
  - unfold after_stage. cbn [heap]. by rewrite fn_lookup_insert.
  - intros r Hr. unfold after_stage. cbn [heap].
    rewrite fn_lookup_insert_ne by done. by apply Hother.
  - unfold after_stage. cbn [events]. rewrite Hev, stage_events_app.
    simpl. by rewrite <- !app_assoc.
Qed.

Lemma fit_model_missing_key_witness :
  ∃ w',
    fit_model 0%nat [2; 0; 3] [100; 150; 200] tt tt fresh_world
    = (Raise (KeyError "loss"), w')
    ∧ heap w' 0%nat = 2
    ∧ (∀ r, r ≠ 0%nat → heap w' r = heap fresh_world r)
    ∧ events w'
      = events fresh_world ++ stage_events 0 0 [(2, 100); (0, 150)].
Proof.
  assert (Hnd : NoDup (dict_keys [("loss", [0; 1]); ("val_loss", [100; 100])])).
  { apply NoDup_cons_2; [|apply NoDup_singleton].
    intros Hin%list_elem_of_singleton. discriminate Hin. }
  apply (fit_model_missing_key (K := epoch_counter) 0%nat [(2, 100)]
           0 150 [3] [200] tt tt fresh_world
           [(2, [("loss", [0; 1]); ("val_loss", [100; 100])])]
           [("loss", [0; 1]); ("val_loss", [100; 100])] [] 2
           [] ["val_loss"] "loss" eq_refl eq_refl eq_refl Hnd);
    [|reflexivity|reflexivity| |reflexivity].
  - intros h key Hh Hkey. cbn in Hh, Hkey.
    apply list_elem_of_In in Hh. apply list_elem_of_In in Hkey.
    destruct Hkey as [<-|[<-|[]]]; destruct Hh as [<-|[]]; by eexists.
  - intros k Hk. by apply elem_of_nil in Hk.
Defined.

End TrainerMore.

(** ** More on the label preparation *)

Module LabelMore.
Import Trainer Spec LabelFacts.

(** The row [to_categorical] gives for class index [v] out of 26. *)
Lemma to_categorical_26 (x : list Z) :
  to_categorical x 26
  = if forallb (λ v, (- 26 <=? v) && (v <? 26)) x
    then Ok (map (λ v, <[Z.to_nat (if v <? 0 then v + 26 else v) := 1%Q]>
                         (replicate 26 0%Q)) x)
    else Raise IndexError.
Proof. reflexivity. Qed.

Lemma label_index_valid (raw : Z) :
  0 ≤ raw ≤ 255 →
  ((- 26 <=? uint8_sub raw 1) && (uint8_sub raw 1 <? 26) = true ↔ 1 ≤ raw ≤ 26).
Proof.
  intros Hraw. unfold uint8_sub. rewrite andb_true_iff, Z.leb_le, Z.ltb_lt.
  destruct (decide (raw = 0)) as [-> | Hnz].
  - change ((0 - 1) mod 256) with 255. lia.
  - rewrite Z.mod_small by lia. lia.
Qed.

Lemma encode_labels_rows (labels : list Z) :
  Forall (λ raw, 1 ≤ raw ≤ 26) labels →
  encode_labels labels
  = Ok (map (λ raw, <[Z.to_nat (raw - 1) := 1%Q]> (replicate 26 0%Q)) labels).
Proof.
  intros Hraw. unfold encode_labels. rewrite to_categorical_26.
  replace (forallb _ _) with true.
  - f_equal. rewrite map_map. apply map_ext_Forall.
    eapply list.Forall_impl; [exact Hraw|]. intros raw Hr. cbn beta in Hr |- *.
    rewrite uint8_sub_label by done.
    by rewrite (proj2 (Z.ltb_ge _ _)) by lia.
  - symmetry. apply List.forallb_forall. intros v Hv.
    apply List.in_map_iff in Hv as (raw & <- & Hin).
    pose proof (proj1 (List.Forall_forall _ _) Hraw raw Hin) as Hr.
    cbn beta in Hr. apply label_index_valid; lia.
Qed.

(** X10. On uint8 labels the encoding returns exactly when every label is
    between 1 and 26; any other label makes it raise [IndexError]: label 0
    wraps around to 255 under the uint8 subtraction, and labels from 27 on
    index past the 26 classes. *)
Theorem encode_labels_returns_iff (labels : list Z) :
  Forall (λ raw, 0 ≤ raw ≤ 255) labels →
  ((∃ rows, encode_labels labels = Ok rows) ↔ Forall (λ raw, 1 ≤ raw ≤ 26) labels)
  ∧ (¬ Forall (λ raw, 1 ≤ raw ≤ 26) labels → encode_labels labels = Raise IndexError).
Proof.
  intros Hu8.
  assert (Hcheck : forallb (λ v, (- 26 <=? v) && (v <? 26))
                     (map (λ l, uint8_sub l 1) labels) = true
                   ↔ Forall (λ raw, 1 ≤ raw ≤ 26) labels).
  { rewrite List.forallb_forall, List.Forall_forall. split.
    - intros Hall raw Hin. apply label_index_valid.
      + by apply (proj1 (List.Forall_forall _ _) Hu8).
      + apply Hall. apply List.in_map_iff. by exists raw.
    - intros Hall v Hv. apply List.in_map_iff in Hv as (raw & <- & Hin).
      apply label_index_valid; [|by apply Hall].
      by apply (proj1 (List.Forall_forall _ _) Hu8). }
  unfold encode_labels. rewrite to_categorical_26.
  destruct (forallb _ _) eqn:Hb.
  - split; [|intros Hn; exfalso; by apply Hn, Hcheck].
    split; [intros _; by apply Hcheck|by eexists].
  - split; [|done].
    split; [by intros [rows ?]|].
    intros Hall. apply Hcheck in Hall. congruence.
Qed.

Lemma encode_labels_returns_iff_witness :
  Forall (λ raw, 0 ≤ raw ≤ 255) [1; 26; 0]
  ∧ encode_labels [1; 26; 0] = Raise IndexError.
Proof.
  assert (H : Forall (λ raw, 0 ≤ raw ≤ 255) [1; 26; 0])
    by (repeat constructor; lia).
  split; [exact H|].
  apply (proj2 (encode_labels_returns_iff [1; 26; 0] H)).
  intros Hall. apply list.Forall_cons in Hall as [_ Hall].
  apply list.Forall_cons in Hall as [_ Hall].
  apply list.Forall_cons in Hall as [Hzero _]. lia.
Defined.

Lemma one_hot_row_inj (a b : Z) :
  1 ≤ a ≤ 26 → 1 ≤ b ≤ 26 →
  <[Z.to_nat (a - 1) := 1%Q]> (replicate 26 0%Q)
  = <[Z.to_nat (b - 1) := 1%Q]> (replicate 26 0%Q) →
  a = b.
Proof.
  intros Ha Hb Heq.
  destruct (one_hot_row (Z.to_nat (a - 1)) 26) as (_ & _ & Hone & _); [lia|].
  destruct (one_hot_row (Z.to_nat (b - 1)) 26) as (_ & _ & _ & Hzero); [lia|].
  destruct (decide (Z.to_nat (a - 1) = Z.to_nat (b - 1))) as [Hi|Hi]; [lia|].
  cbn zeta in Hone, Hzero. rewrite Heq in Hone.
  rewrite Hzero in Hone by (done || lia). discriminate Hone.
Qed.

(** X11. The encoding loses nothing: two arrays of labels between 1 and 26
    with the same one-hot encoding are the same array. *)
Theorem encode_labels_injective (la lb : list Z) :
  Forall (λ raw, 1 ≤ raw ≤ 26) la → Forall (λ raw, 1 ≤ raw ≤ 26) lb →
  encode_labels la = encode_labels lb → la = lb.
Proof.
  intros Ha Hb. rewrite !encode_labels_rows by done. intros [= Heq].
  revert lb Hb Heq. induction Ha as [|a la Hra Ha IH]; intros lb Hb Heq.
  - by destruct lb.
  - destruct Hb as [|b lb Hrb Hb]; [done|].
    injection Heq as Hrow Hrest.
    f_equal; [by apply one_hot_row_inj|by apply IH].
Qed.

Lemma encode_labels_injective_witness :
  (Forall (λ raw, 1 ≤ raw ≤ 26) [3; 7] ∧ encode_labels [3; 7] = encode_labels [3; 7])
  ∧ [3; 7] = [3; 7].
Proof.
  assert (H : Forall (λ raw, 1 ≤ raw ≤ 26) [3; 7]) by (repeat constructor; lia).
  exact (conj (conj H eq_refl) (encode_labels_injective [3; 7] [3; 7] H H eq_refl)).
Defined.

End LabelMore.

(** ** The cells that drive the notebooks *)

Module NotebookFacts.
Import DatasetBuilder Trainer Spec Spec2 Notebook BuilderFacts Examples.

Arguments String.append : simpl never.
Arguments dat_file_name : simpl never.

Lemma dat_file_dirname (level : Z) :
  level ∈ [4; 7; 14; 28] → dirname (dat_file_name level) = directory.
Proof.
  rewrite !elem_of_cons, elem_of_nil.
  intros [-> | [-> | [-> | [-> | []]]]]; vm_compute; reflexivity.
Qed.

Lemma dat_file_not_directory (level : Z) :
  level ∈ [4; 7; 14; 28] → dat_file_name level ≠ directory.
Proof.
  rewrite !elem_of_cons, elem_of_nil.
  intros [-> | [-> | [-> | [-> | []]]]]; vm_compute; discriminate.
Qed.

Section Build.
Context `{PG : PoissonGen G}.
Implicit Types (m : machine G) (d : fs).

(** What a returning pass of the builder's loop did. *)
Lemma build_level_inv (train test : list (list (list Z))) (level : Z) m m' :
  build_level train test level m = (inr tt, m') →
  ∃ noisy,
    create_training_data train test level out_dim (gen m) = (Ok noisy, gen m')
    ∧ dirs (disk m') = dirs (disk m)
    ∧ files (disk m')
      = <[dat_file_name level := container noisy]> (files (disk m)).
Proof.
  unfold build_level, mbind, IO_bind, with_gen, on_disk.
  destruct (create_training_data train test level out_dim (gen m))
    as [[e|noisy] g'] eqn:Hrun; cbn; [done|].
  unfold h5_create. cbn.
  destruct (bool_decide _ && negb _); cbn; [|done].
  unfold create_dataset. cbn.
  rewrite fin_maps.lookup_insert_eq. cbn beta iota.
  rewrite (fin_maps.lookup_empty (M := gmap.gmap string)). cbn beta iota.
  destruct (bool_decide (noisy.1 = [])); [done|].
  cbn beta iota delta [files dirs disk gen].
  rewrite fin_maps.lookup_insert_eq. cbn beta iota.
  rewrite fin_maps.lookup_insert_ne by done.
  rewrite (fin_maps.lookup_empty (M := gmap.gmap string)). cbn beta iota.
  destruct (bool_decide (noisy.2 = [])); [done|].
  intros [= <-]. cbn. exists noisy.
  by rewrite !fin_maps.insert_insert_eq.
Qed.

(** A pass of the loop whose data get built, in a directory that exists. *)
Lemma build_level_stores (train test : list (list (list Z))) (level : Z) m
    (noisy : list (list Q) * list (list Q)) (g' : G) :
  create_training_data train test level out_dim (gen m) = (Ok noisy, g') →
  noisy.1 ≠ [] → noisy.2 ≠ [] →
  dirname (dat_file_name level) ∈ dirs (disk m) →
  dat_file_name level ∉ dirs (disk m) →
  build_level train test level m
  = (inr tt,
     Machine g' (FS (dirs (disk m))
                    (<[dat_file_name level := container noisy]> (files (disk m))))).
Proof.
  intros Hrun Htrain Htest Hdir Hfile.
  unfold build_level, mbind, IO_bind, with_gen, on_disk.
  rewrite Hrun. cbn.
  unfold h5_create. cbn.
  rewrite bool_decide_true by (by right).
  rewrite bool_decide_false by done. cbn.
  unfold create_dataset. cbn.
  rewrite fin_maps.lookup_insert_eq. cbn beta iota.
  rewrite (fin_maps.lookup_empty (M := gmap.gmap string)). cbn beta iota.
  rewrite (bool_decide_false (noisy.1 = [])) by done.
  cbn beta iota delta [files dirs disk gen].
  rewrite fin_maps.lookup_insert_eq. cbn beta iota.
  rewrite fin_maps.lookup_insert_ne by done.
  rewrite (fin_maps.lookup_empty (M := gmap.gmap string)). cbn beta iota.
  rewrite (bool_decide_false (noisy.2 = [])) by done.
  by rewrite !fin_maps.insert_insert_eq.
Qed.

(** A pass of the loop whose data get built, but whose directory is
    missing: the draws are made, nothing is written. *)
Lemma build_level_no_directory (train test : list (list (list Z))) (level : Z) m
    (noisy : list (list Q) * list (list Q)) (g' : G) :
  create_training_data train test level out_dim (gen m) = (Ok noisy, g') →
  dirname (dat_file_name level) ≠ EmptyString →
  dirname (dat_file_name level) ∉ dirs (disk m) →
  build_level train test level m
  = (inl (OSError (dat_file_name level)), Machine g' (disk m)).
Proof.
  intros Hrun Hne Hdir.
  unfold build_level, mbind, IO_bind, with_gen, on_disk.
  rewrite Hrun. cbn.
  unfold h5_create. cbn.
  rewrite bool_decide_false by (by intros [?|?]). done.
Qed.

Lemma for_each_IO_cons {A} (body : A → IO G unit) (x : A) (l : list A) m :
  for_each_IO body (x :: l) m
  = match body x m with
    | (inl e, m') => (inl e, m')
    | (inr _, m') => for_each_IO body l m'
    end.
Proof. reflexivity. Qed.

Lemma for_each_IO_cons_inv {A} (body : A → IO G unit) (x : A) (l : list A) m m' :
  for_each_IO body (x :: l) m = (inr tt, m') →
  ∃ m1, body x m = (inr tt, m1) ∧ for_each_IO body l m1 = (inr tt, m').
Proof.
  rewrite for_each_IO_cons. destruct (body x m) as [[e|[]] m1]; [done|].
  intros Hrest. by exists m1.
Qed.

(** The first statement of the builder's cell: afterwards the disk has the
    same files, and the directories it had. *)
Lemma ensure_directory d (g : G) :
  ∃ d0,
    (if path_exists directory d then (inr tt, Machine g d)
     else on_disk (makedirs directory) (Machine g d))
    = (inr tt, Machine g d0)
    ∧ files d0 = files d
    ∧ dirs d0 = (if path_exists directory d then dirs d else {[directory]} ∪ dirs d).
Proof.
  destruct (path_exists directory d) eqn:Hex.
  - by exists d.
  - exists (FS ({[directory]} ∪ dirs d) (files d)).
    unfold on_disk, makedirs. cbn. by rewrite Hex.
Qed.

Lemma ensure_directory_free d (g : G) :
  files d !! directory = None →
  ∃ d0,
    (if path_exists directory d then (inr tt, Machine g d)
     else on_disk (makedirs directory) (Machine g d))
    = (inr tt, Machine g d0)
    ∧ files d0 = files d
    ∧ ∀ path, path ∈ dirs d0 ↔ path = directory ∨ path ∈ dirs d.
Proof.
  intros Hfile. destruct (ensure_directory d g) as (d0 & Hrun & Hf & Hd).
  exists d0. split; [done|]. split; [done|]. intros path. rewrite Hd.
  destruct (path_exists directory d) eqn:Hex.
  - unfold path_exists in Hex. apply orb_true_iff in Hex as [Hin|Hin].
    + apply bool_decide_eq_true in Hin. split; [by right|]. by intros [->|?].
    + apply bool_decide_eq_true in Hin. rewrite Hfile in Hin. by destruct Hin.
  - rewrite elem_of_union, elem_of_singleton. done.
Qed.

Lemma build_datasets_unfold (train test : list (list (list Z))) m :
  build_datasets train test m
  = match (if path_exists directory (disk m) then (inr tt, m)
           else on_disk (makedirs directory) m) with
    | (inl e, m') => (inl e, m')
    | (inr _, m') => for_each_IO (build_level train test) [4; 7; 14; 28] m'
    end.
Proof. reflexivity. Qed.

Lemma create_training_data_total (train test : list (list (list Z))) (level : Z)
    (g : G) :
  Forall raw_image train → Forall raw_image test → compression_level level →
  ∃ noisy g',
    create_training_data train test level out_dim g = (Ok noisy, g')
    ∧ length noisy.1 = length train ∧ length noisy.2 = length test.
Proof.
  intros Htrain Htest Hl.
  destruct (create_training_data_returns train test level out_dim g Htrain Htest
              (compression_level_fits level Hl))
    as (d1 & d2 & ? & g' & _ & _ & Hn1 & Hn2 & _ & _ & Hrun).
  eexists _, g'. split; [exact Hrun|].
  cbn [fst snd]. unfold map3d. by rewrite !length_map.
Qed.

(** What a returning run of the builder's cell did. *)
Lemma build_datasets_inv (train test : list (list (list Z))) (g : G) d m' :
  build_datasets train test (Machine g d) = (inr tt, m') →
  ∃ r4 r7 r14 r28 g4 g7 g14,
    create_training_data train test 4 out_dim g = (Ok r4, g4)
    ∧ create_training_data train test 7 out_dim g4 = (Ok r7, g7)
    ∧ create_training_data train test 14 out_dim g7 = (Ok r14, g14)
    ∧ create_training_data train test 28 out_dim g14 = (Ok r28, gen m')
    ∧ files (disk m')
      = <[dat_file_name 28 := container r28]>
          (<[dat_file_name 14 := container r14]>
             (<[dat_file_name 7 := container r7]>
                (<[dat_file_name 4 := container r4]> (files d)))).
Proof.
  rewrite build_datasets_unfold. cbn [disk].
  destruct (ensure_directory d g) as (d0 & -> & Hf & _).
  intros Hloop.
  apply for_each_IO_cons_inv in Hloop as (m4 & H4 & Hloop).
  apply for_each_IO_cons_inv in Hloop as (m7 & H7 & Hloop).
  apply for_each_IO_cons_inv in Hloop as (m14 & H14 & Hloop).
  apply for_each_IO_cons_inv in Hloop as (m28 & H28 & Hloop).
  injection Hloop as ->.
  apply build_level_inv in H4 as (r4 & Hr4 & _ & Hf4).
  apply build_level_inv in H7 as (r7 & Hr7 & _ & Hf7).
  apply build_level_inv in H14 as (r14 & Hr14 & _ & Hf14).
  apply build_level_inv in H28 as (r28 & Hr28 & _ & Hf28).
  exists r4, r7, r14, r28, (gen m4), (gen m7), (gen m14).
  cbn [gen disk] in *.
  split; [done|]. split; [done|]. split; [done|]. split; [done|].
  by rewrite Hf28, Hf14, Hf7, Hf4, Hf.
Qed.

End Build.

(** *** Reading the containers back *)

Lemma container_train (noisy : list (list Q) * list (list Q)) :
  container noisy !! "noisy_train" = Some noisy.1.
Proof.
  unfold container. rewrite fin_maps.lookup_insert_ne by done.
  apply fin_maps.lookup_insert_eq.
Qed.

Lemma container_test (noisy : list (list Q) * list (list Q)) :
  container noisy !! "noisy_test" = Some noisy.2.
Proof. apply fin_maps.lookup_insert_eq. Qed.

Lemma load_level_reads (d : fs) (acc : dict signals) (level : Z)
    (noisy : list (list Q) * list (list Q)) :
  stored d level noisy →
  load_level d acc level = inr (dict_set acc (signal_key level) (signals_of noisy)).
Proof.
  intros (f & Hf & Ha & Hb).
  unfold load_level, h5_open, h5_read, mbind, outcome_bind.
  by rewrite Hf, Ha, Hb.
Qed.

Lemma load_level_inv (d : fs) (acc acc' : dict signals) (level : Z) :
  load_level d acc level = inr acc' →
  ∃ noisy, stored d level noisy
           ∧ acc' = dict_set acc (signal_key level) (signals_of noisy).
Proof.
  unfold load_level, h5_open, h5_read, mbind, outcome_bind.
  destruct (files d !! dat_file_name level) as [f|] eqn:Hf; [|done].
  destruct (f !! "noisy_train") as [a|] eqn:Ha; [|done].
  destruct (f !! "noisy_test") as [b|] eqn:Hb; [|done].
  intros [= <-]. exists (a, b). split; [by exists f|done].
Qed.

Lemma signals_table_sets (s4 s7 s14 s28 : signals) :
  dict_set (dict_set (dict_set (dict_set in_signals_by_cmp0 (signal_key 4) s4)
                        (signal_key 7) s7) (signal_key 14) s14) (signal_key 28) s28
  = [("4x4", s4); ("7x7", s7); ("14x14", s14); ("28x28", s28)].
Proof. reflexivity. Qed.

Lemma load_levels_reads (d : fs) (r4 r7 r14 r28 : list (list Q) * list (list Q)) :
  stored d 4 r4 → stored d 7 r7 → stored d 14 r14 → stored d 28 r28 →
  load_levels d in_signals_by_cmp0 [4; 7; 14; 28]
  = inr (signals_table r4 r7 r14 r28).
Proof.
  intros H4 H7 H14 H28. cbn [load_levels].
  rewrite (load_level_reads _ _ _ _ H4). cbn [mbind outcome_bind].
  rewrite (load_level_reads _ _ _ _ H7). cbn [mbind outcome_bind].
  rewrite (load_level_reads _ _ _ _ H14). cbn [mbind outcome_bind].
  rewrite (load_level_reads _ _ _ _ H28). cbn [mbind outcome_bind].
  unfold mret, outcome_ret. by rewrite signals_table_sets.
Qed.

Lemma load_levels_inv (d : fs) (table : dict signals) :
  load_levels d in_signals_by_cmp0 [4; 7; 14; 28] = inr table →
  ∃ r4 r7 r14 r28,
    stored d 4 r4 ∧ stored d 7 r7 ∧ stored d 14 r14 ∧ stored d 28 r28
    ∧ table = signals_table r4 r7 r14 r28.
Proof.
  cbn [load_levels]. unfold mbind, outcome_bind.
  destruct (load_level d in_signals_by_cmp0 4) as [|acc4] eqn:H4; [done|].
  destruct (load_level d acc4 7) as [|acc7] eqn:H7; [done|].
  destruct (load_level d acc7 14) as [|acc14] eqn:H14; [done|].
  destruct (load_level d acc14 28) as [|acc28] eqn:H28; [done|].
  intros [= <-].
  apply load_level_inv in H4 as (r4 & Hs4 & ->).
  apply load_level_inv in H7 as (r7 & Hs7 & ->).
  apply load_level_inv in H14 as (r14 & Hs14 & ->).
  apply load_level_inv in H28 as (r28 & Hs28 & ->).
  exists r4, r7, r14, r28. by rewrite signals_table_sets.
Qed.

Lemma load_levels_app (d : fs) (done rest : list Z) : ∀ acc,
  Forall (λ level, ∃ noisy, stored d level noisy) done →
  ∃ acc', load_levels d acc (done ++ rest) = load_levels d acc' rest.
Proof.
  induction done as [|level done IH]; intros acc Hdone; [by exists acc|].
  apply list.Forall_cons in Hdone as [[noisy Hs] Hdone].
  cbn [app load_levels]. rewrite (load_level_reads _ _ _ _ Hs).
  cbn [mbind outcome_bind]. by apply IH.
Qed.

Lemma dat_file_name_inj (a b : Z) :
  a ∈ [4; 7; 14; 28] → b ∈ [4; 7; 14; 28] → a ≠ b →
  dat_file_name a ≠ dat_file_name b.
Proof.
  rewrite !elem_of_cons, !elem_of_nil.
  intros [-> | [-> | [-> | [-> | []]]]] [-> | [-> | [-> | [-> | []]]]] Hne;
    try done; intros Heq; vm_compute in Heq; discriminate Heq.
Qed.

(** The four containers on a disk whose files are those of a builder's
    run. *)
Lemma stored_after_build (d : fs) (files0 : gmap.gmap string h5file)
    (r4 r7 r14 r28 : list (list Q) * list (list Q)) :
  files d
  = <[dat_file_name 28 := container r28]>
      (<[dat_file_name 14 := container r14]>
         (<[dat_file_name 7 := container r7]>
            (<[dat_file_name 4 := container r4]> files0))) →
  stored d 4 r4 ∧ stored d 7 r7 ∧ stored d 14 r14 ∧ stored d 28 r28.
Proof.
  intros Hf.
  assert (Hne : ∀ a b, a ∈ [4; 7; 14; 28] → b ∈ [4; 7; 14; 28] → a ≠ b →
                       dat_file_name a ≠ dat_file_name b)
    by exact dat_file_name_inj.
  assert (H4 : (4:Z) ∈ [4; 7; 14; 28]) by (rewrite !elem_of_cons; tauto).
  assert (H7 : (7:Z) ∈ [4; 7; 14; 28]) by (rewrite !elem_of_cons; tauto).
  assert (H14 : (14:Z) ∈ [4; 7; 14; 28]) by (rewrite !elem_of_cons; tauto).
  assert (H28 : (28:Z) ∈ [4; 7; 14; 28]) by (rewrite !elem_of_cons; tauto).
  repeat split.
  - exists (container r4). rewrite Hf.
    rewrite !fin_maps.lookup_insert_ne by (apply Hne; done).
    rewrite fin_maps.lookup_insert_eq.
    by rewrite container_train, container_test.
  - exists (container r7). rewrite Hf.
    rewrite !fin_maps.lookup_insert_ne by (apply Hne; done).
    rewrite fin_maps.lookup_insert_eq.
    by rewrite container_train, container_test.
  - exists (container r14). rewrite Hf.
    rewrite !fin_maps.lookup_insert_ne by (apply Hne; done).
    rewrite fin_maps.lookup_insert_eq.
    by rewrite container_train, container_test.
  - exists (container r28). rewrite Hf.
    rewrite fin_maps.lookup_insert_eq.
    by rewrite container_train, container_test.
Qed.

(** *** Shapes of what the load cell prepares *)

Lemma reshape1_length {A} (n : Z) (m : list (list A)) (v : list A) :
  reshape1 n m = Ok v → Z.of_nat (length v) = n.
Proof.
  unfold reshape1, size2. destruct (decide _) as [Hn|]; [|done].
  by intros [= <-].
Qed.

Lemma scale_and_flatten_shape (level : Z) (a : list (list (list Z)))
    (out : list (list Q)) :
  scale_and_flatten level a = Ok out →
  length out = length a ∧ Forall (λ v, Z.of_nat (length v) = level ^ 2) out.
Proof.
  unfold scale_and_flatten. intros Hout. apply for_each_inv in Hout.
  split.
  - rewrite <- (Forall2_length Hout). unfold map3d. by rewrite length_map.
  - induction Hout as [|m v ms vs Hv Hout IH]; constructor; [|done].
    by apply reshape1_length in Hv.
Qed.

Lemma to_categorical_shape (x : list Z) (out : list (list Q)) :
  to_categorical x 26 = Ok out →
  length out = length x ∧ Forall (λ row, length row = 26%nat) out.
Proof.
  rewrite LabelMore.to_categorical_26. destruct (forallb _ x); [|done].
  intros [= <-]. split; [by rewrite length_map|].
  apply Forall_fmap, list.Forall_forall. intros v _. cbn beta. unfold compose.
  rewrite length_insert. reflexivity.
Qed.

(** One pass of the builder's loop, by [build_level_stores]. *)
Ltac pass Hrun Hlen Hdir :=
  rewrite for_each_IO_cons;
  match goal with
  | |- context [build_level ?train ?test ?level ?m] =>
      rewrite (build_level_stores train test level m _ _ Hrun
                 (proj1 Hlen) (proj2 Hlen) (proj1 Hdir) (proj2 Hdir))
  end.

Section Cells.
Context `{PG : PoissonGen G}.
Implicit Types (m : machine G) (d : fs).

(** X12. The builder's cell on images of the corpus, at least one for
    training and one for testing, when no regular file has the name of the
    output directory and no directory has the name of a container: it
    returns, having run [create_training_data] at the levels 4, 7, 14, 28
    in this order on one generator; the directory exists afterwards, and
    each of the four containers holds exactly the two datasets of its
    level, whatever it held before; no other file changes. *)
Theorem build_datasets_stores (train test : list (list (list Z))) (g : G) d :
  Forall raw_image train → Forall raw_image test →
  train ≠ [] → test ≠ [] →
  files d !! directory = None →
  (∀ level, level ∈ [4; 7; 14; 28] → dat_file_name level ∉ dirs d) →
  ∃ r4 r7 r14 r28 g4 g7 g14 g28 d',
    create_training_data train test 4 out_dim g = (Ok r4, g4)
    ∧ create_training_data train test 7 out_dim g4 = (Ok r7, g7)
    ∧ create_training_data train test 14 out_dim g7 = (Ok r14, g14)
    ∧ create_training_data train test 28 out_dim g14 = (Ok r28, g28)
    ∧ build_datasets train test (Machine g d) = (inr tt, Machine g28 d')
    ∧ (∀ path, path ∈ dirs d' ↔ path = directory ∨ path ∈ dirs d)
    ∧ files d'
      = <[dat_file_name 28 := container r28]>
          (<[dat_file_name 14 := container r14]>
             (<[dat_file_name 7 := container r7]>
                (<[dat_file_name 4 := container r4]> (files d)))).
Proof.
  intros Htrain Htest Hne1 Hne2 Hfile Hfree.
  assert (Hfull : ∀ r : list (list Q) * list (list Q),
            length r.1 = length train ∧ length r.2 = length test →
            r.1 ≠ [] ∧ r.2 ≠ []).
  { intros [a b] [Ha Hb]. cbn [fst snd] in *.
    split; intros ->; [by destruct train|by destruct test]. }
  destruct (create_training_data_total train test 4 g Htrain Htest)
    as (r4 & g4 & H4 & Hn4%Hfull); [by left|].
  destruct (create_training_data_total train test 7 g4 Htrain Htest)
    as (r7 & g7 & H7 & Hn7%Hfull); [right; by left|].
  destruct (create_training_data_total train test 14 g7 Htrain Htest)
    as (r14 & g14 & H14 & Hn14%Hfull); [right; right; by left|].
  destruct (create_training_data_total train test 28 g14 Htrain Htest)
    as (r28 & g28 & H28 & Hn28%Hfull); [right; right; by right|].
  destruct (ensure_directory_free d g Hfile) as (d0 & Hrun & Hf & Hd).
  assert (Hdir : ∀ level, level ∈ [4; 7; 14; 28] →
                          dirname (dat_file_name level) ∈ dirs d0
                          ∧ dat_file_name level ∉ dirs d0).
  { intros level Hl. rewrite (dat_file_dirname level Hl), !Hd. split; [by left|].
    intros [Heq|Hin]; [by apply (dat_file_not_directory level)|by apply (Hfree level)]. }
  assert (Hl4 : (4:Z) ∈ [4; 7; 14; 28]) by (rewrite !elem_of_cons; tauto).
  assert (Hl7 : (7:Z) ∈ [4; 7; 14; 28]) by (rewrite !elem_of_cons; tauto).
  assert (Hl14 : (14:Z) ∈ [4; 7; 14; 28]) by (rewrite !elem_of_cons; tauto).
  assert (Hl28 : (28:Z) ∈ [4; 7; 14; 28]) by (rewrite !elem_of_cons; tauto).
  eexists r4, r7, r14, r28, g4, g7, g14, g28, _.
  split; [done|]. split; [done|]. split; [done|]. split; [done|].
  split; [|split].
  - rewrite build_datasets_unfold. cbn [disk]. rewrite Hrun.
    pass H4 Hn4 (Hdir 4 Hl4). pass H7 Hn7 (Hdir 7 Hl7).
    pass H14 Hn14 (Hdir 14 Hl14). pass H28 Hn28 (Hdir 28 Hl28).
    reflexivity.
  - exact Hd.
  - cbn [files disk]. by rewrite Hf.
Qed.

(** X13. When a regular file has the name of the output directory, the
    cell makes no directory; it builds the data of level 4, which advances
    the generator, and then fails with [OSError] on opening the first
    container. The disk is as it was. *)
Theorem build_datasets_directory_is_file (train test : list (list (list Z)))
    (g g4 : G) d (noisy : list (list Q) * list (list Q)) :
  is_Some (files d !! directory) → directory ∉ dirs d →
  create_training_data train test 4 out_dim g = (Ok noisy, g4) →
  build_datasets train test (Machine g d)
  = (inl (OSError (dat_file_name 4)), Machine g4 d).
Proof.
  intros Hfile Hdir Hrun.
  assert (Hl4 : (4:Z) ∈ [4; 7; 14; 28]) by (rewrite !elem_of_cons; tauto).
  rewrite build_datasets_unfold. cbn [disk].
  unfold path_exists. rewrite (bool_decide_true _ Hfile), orb_true_r.
  rewrite for_each_IO_cons.
  rewrite (build_level_no_directory train test 4 (Machine g d) noisy g4 Hrun);
    [done| |by rewrite (dat_file_dirname 4 Hl4)].
  by rewrite (dat_file_dirname 4 Hl4).
Qed.

(** X14. Round trip between the notebooks: whenever the builder's cell
    returns, the load cell of the trainer, run on the disk it leaves and on
    28-by-28 images with labels from 1 to 26, returns; [in_signals_by_cmp]
    then holds, under the keys 4x4, 7x7, 14x14, 28x28, exactly the pairs
    that [create_training_data] returned at the four levels, the clean
    images scaled and flattened, and the one-hot rows of the labels. *)
Theorem build_then_load (train test : list (list (list Z))) (tl tel : list Z)
    (g : G) d m' :
  build_datasets train test (Machine g d) = (inr tt, m') →
  Forall (is_grid 28 28) train → Forall (is_grid 28 28) test →
  Forall (λ raw, 1 ≤ raw ≤ 26) tl → Forall (λ raw, 1 ≤ raw ≤ 26) tel →
  ∃ r4 r7 r14 r28 g4 g7 g14,
    create_training_data train test 4 out_dim g = (Ok r4, g4)
    ∧ create_training_data train test 7 out_dim g4 = (Ok r7, g7)
    ∧ create_training_data train test 14 out_dim g7 = (Ok r14, g14)
    ∧ create_training_data train test 28 out_dim g14 = (Ok r28, gen m')
    ∧ load_training_data (disk m') train tl test tel
      = inr (TrainingData (signals_table r4 r7 r14 r28)
               (map (@concat Q) (map3d div255 train))
               (map (@concat Q) (map3d div255 test))
               (map (λ raw, <[Z.to_nat (raw - 1) := 1%Q]> (replicate 26 0%Q)) tl)
               (map (λ raw, <[Z.to_nat (raw - 1) := 1%Q]> (replicate 26 0%Q)) tel)).
Proof.
  intros Hrun Htrain Htest Htl Htel.
  apply build_datasets_inv in Hrun
    as (r4 & r7 & r14 & r28 & g4 & g7 & g14 & H4 & H7 & H14 & H28 & Hf).
  exists r4, r7, r14, r28, g4, g7, g14.
  split; [done|]. split; [done|]. split; [done|]. split; [done|].
  apply stored_after_build in Hf as (Hs4 & Hs7 & Hs14 & Hs28).
  unfold load_training_data.
  rewrite (load_levels_reads _ _ _ _ _ Hs4 Hs7 Hs14 Hs28).
  cbn [mbind outcome_bind].
  rewrite !(scale_and_flatten_grids 28 out_dim) by done.
  cbn [of_result Ok mbind outcome_bind].
  change (to_categorical (map (λ l, uint8_sub l 1) tl) 26) with (encode_labels tl).
  change (to_categorical (map (λ l, uint8_sub l 1) tel) 26) with (encode_labels tel).
  by rewrite !LabelMore.encode_labels_rows by done.
Qed.

End Cells.

Lemma fresh_disk_free :
  files (FS ∅ ∅) !! directory = None
  ∧ ∀ level, level ∈ [4; 7; 14; 28] → dat_file_name level ∉ dirs (FS ∅ ∅).
Proof.
  split; [apply (fin_maps.lookup_empty (M := gmap.gmap string))|].
  intros level _. apply not_elem_of_empty.
Qed.

Lemma build_datasets_stores_witness :
  (Forall raw_image [flat_image] ∧ Forall raw_image [ramp_image]
   ∧ [flat_image] ≠ [] ∧ [ramp_image] ≠ []
   ∧ files (FS ∅ ∅) !! directory = None
   ∧ ∀ level, level ∈ [4; 7; 14; 28] → dat_file_name level ∉ dirs (FS ∅ ∅))
  ∧ ∃ r28 g28 d',
      build_datasets [flat_image] [ramp_image]
        (Machine (0 : Z) (FS ∅ ∅))
      = (inr tt, Machine g28 d')
      ∧ (∀ path, path ∈ dirs d' ↔ path = directory ∨ path ∈ dirs (FS ∅ ∅))
      ∧ files d' !! dat_file_name 28 = Some (container r28).
Proof.
  assert (H1 : Forall raw_image [flat_image])
    by (constructor; [exact flat_image_raw|constructor]).
  destruct fresh_disk_free as [H3 H4].
  assert (Hn1 : [flat_image] ≠ []) by discriminate.
  assert (Hn2 : [ramp_image] ≠ []) by discriminate.
  split; [exact (conj H1 (conj one_sample_raw (conj Hn1 (conj Hn2 (conj H3 H4)))))|].
  destruct (build_datasets_stores [flat_image] [ramp_image]
              (0 : Z) (FS ∅ ∅) H1 one_sample_raw Hn1 Hn2 H3 H4)
    as (r4 & r7 & r14 & r28 & g4 & g7 & g14 & g28 & d' & _ & _ & _ & _
        & Hrun & Hd & Hf).
  exists r28, g28, d'. split; [exact Hrun|]. split; [exact Hd|].
  rewrite Hf. apply fin_maps.lookup_insert_eq.
Defined.

Lemma build_datasets_directory_is_file_witness :
  (is_Some (files (FS ∅ {[directory := ∅]}) !! directory)
   ∧ directory ∉ dirs (FS ∅ {[directory := ∅]}))
  ∧ ∃ noisy g4,
      create_training_data [flat_image] [] 4 out_dim (0 : Z) = (Ok noisy, g4)
      ∧ build_datasets [flat_image] []
          (Machine (0 : Z) (FS ∅ {[directory := ∅]}))
        = (inl (OSError (dat_file_name 4)), Machine g4 (FS ∅ {[directory := ∅]})).
Proof.
  assert (H1 : is_Some (files (FS ∅ {[directory := ∅]}) !! directory))
    by (eexists; apply fin_maps.lookup_singleton_eq).
  assert (H2 : directory ∉ dirs (FS ∅ {[directory := ∅]}))
    by apply not_elem_of_empty.
  split; [exact (conj H1 H2)|].
  destruct (create_training_data_total [flat_image] [] 4 (0 : Z))
    as (noisy & g4 & Hrun & _);
    [constructor; [exact flat_image_raw|constructor]|constructor|by left|].
  exists noisy, g4. split; [exact Hrun|].
  exact (build_datasets_directory_is_file [flat_image] [] 0 g4
           (FS ∅ {[directory := ∅]}) noisy H1 H2 Hrun).
Defined.

Lemma build_then_load_witness :
  ∃ m' data,
    (build_datasets [flat_image] [flat_image] (Machine (0 : Z) (FS ∅ ∅))
     = (inr tt, m')
     ∧ Forall (is_grid 28 28) [flat_image]
     ∧ Forall (λ raw, 1 ≤ raw ≤ 26) [3])
    ∧ load_training_data (disk m') [flat_image] [3] [flat_image] [3] = inr data
    ∧ dict_keys (in_signals_by_cmp data) = ["4x4"; "7x7"; "14x14"; "28x28"].
Proof.
  assert (Hrun : ∃ m', build_datasets [flat_image] [flat_image]
                         (Machine (0 : Z) (FS ∅ ∅)) = (inr tt, m'))
    by (eexists; vm_compute; reflexivity).
  destruct Hrun as [m' Hrun].
  assert (H1 : Forall (is_grid 28 28) [flat_image])
    by (constructor; [exact (proj1 flat_image_raw)|constructor]).
  assert (H2 : Forall (λ raw, 1 ≤ raw ≤ 26) [3]) by (repeat constructor; lia).
  destruct (build_then_load [flat_image] [flat_image] [3] [3] 0 (FS ∅ ∅) m' Hrun
              H1 H1 H2 H2)
    as (r4 & r7 & r14 & r28 & g4 & g7 & g14 & _ & _ & _ & _ & Hload).
  eexists m', _.
  exact (conj (conj Hrun (conj H1 H2)) (conj Hload eq_refl)).
Defined.

(** X15. The load cell reads the containers in the order 4, 7, 14, 28 and
    stops at the first one that is incomplete: [OSError] for a missing
    container, [KeyError] for a missing dataset, [noisy_train] before
    [noisy_test]; the corpus is not looked at. *)
Theorem load_training_data_incomplete (d : fs) (train test : list (list (list Z)))
    (tl tel : list Z) (done rest : list Z) (level : Z) :
  [4; 7; 14; 28] = done ++ level :: rest →
  Forall (λ c, ∃ noisy, stored d c noisy) done →
  (files d !! dat_file_name level = None →
   load_training_data d train tl test tel = inl (OSError (dat_file_name level)))
  ∧ (∀ f, files d !! dat_file_name level = Some f → f !! "noisy_train" = None →
          load_training_data d train tl test tel
          = inl (PyError (KeyError "noisy_train")))
  ∧ (∀ f, files d !! dat_file_name level = Some f →
          is_Some (f !! "noisy_train") → f !! "noisy_test" = None →
          load_training_data d train tl test tel
          = inl (PyError (KeyError "noisy_test"))).
Proof.
  intros Heq Hdone. unfold load_training_data. rewrite Heq.
  destruct (load_levels_app d done (level :: rest) in_signals_by_cmp0 Hdone)
    as (acc & ->).
  cbn [load_levels]. unfold load_level, h5_open, h5_read, mbind, outcome_bind.
  split; [|split].
  - by intros ->.
  - by intros f -> ->.
  - by intros f -> [a ->] ->.
Qed.

Lemma load_training_data_incomplete_witness :
  ([4; 7; 14; 28] = [] ++ 4 :: [7; 14; 28]
   ∧ Forall (λ c, ∃ noisy, stored (FS ∅ ∅) c noisy) [])
  ∧ load_training_data (FS ∅ ∅) [] [] [] [] = inl (OSError (dat_file_name 4)).
Proof.
  split; [exact (conj eq_refl (Forall_nil _))|].
  apply (proj1 (load_training_data_incomplete (FS ∅ ∅) [] [] [] [] [] [7; 14; 28] 4
                  eq_refl (Forall_nil _))).
  apply (fin_maps.lookup_empty (M := gmap.gmap string)).
Defined.

(** What a returning run of the load cell went through. *)
Lemma load_training_data_inv (d : fs) (train test : list (list (list Z)))
    (tl tel : list Z) (data : training_data) :
  load_training_data d train tl test tel = inr data →
  ∃ r4 r7 r14 r28 ct cte lt lte,
    stored d 4 r4 ∧ stored d 7 r7 ∧ stored d 14 r14 ∧ stored d 28 r28
    ∧ data = TrainingData (signals_table r4 r7 r14 r28) ct cte lt lte
    ∧ scale_and_flatten out_dim train = Ok ct
    ∧ scale_and_flatten out_dim test = Ok cte
    ∧ to_categorical (map (λ l, uint8_sub l 1) tl) 26 = Ok lt
    ∧ to_categorical (map (λ l, uint8_sub l 1) tel) 26 = Ok lte.
Proof.
  unfold load_training_data, mbind, outcome_bind.
  destruct (load_levels d in_signals_by_cmp0 [4; 7; 14; 28]) as [|table] eqn:Ht;
    [done|].
  destruct (scale_and_flatten out_dim train) as [|ct] eqn:Hct; [done|].
  destruct (scale_and_flatten out_dim test) as [|cte] eqn:Hcte; [done|].
  cbn [of_result].
  destruct (to_categorical (map _ tl) 26) as [|lt] eqn:Hlt; [done|].
  destruct (to_categorical (map _ tel) 26) as [|lte] eqn:Hlte; [done|].
  cbn [of_result]. intros [= <-].
  apply load_levels_inv in Ht as (r4 & r7 & r14 & r28 & H4 & H7 & H14 & H28 & ->).
  by exists r4, r7, r14, r28, ct, cte, lt, lte.
Qed.

Lemma stored_agree (d : fs) (level : Z) (r r' : list (list Q) * list (list Q)) :
  stored d level r → stored d level r' → r = r'.
Proof.
  intros (f & Hf & Ha & Hb) (f' & Hf' & Ha' & Hb').
  rewrite Hf in Hf'. injection Hf' as <-.
  rewrite Ha in Ha'. rewrite Hb in Hb'.
  destruct r, r'. cbn in *. congruence.
Qed.

(** The features a training cell reads for a level, after a returning load
    cell. *)
Lemma train_signals_of (d : fs) (train test : list (list (list Z)))
    (tl tel : list Z) (data : training_data) (level : Z)
    (r : list (list Q) * list (list Q)) :
  load_training_data d train tl test tel = inr data →
  level ∈ [4; 7; 14; 28] → stored d level r →
  train_signals data (signal_key level) = inr r.1.
Proof.
  intros Hrun Hl Hs.
  apply load_training_data_inv in Hrun
    as (r4 & r7 & r14 & r28 & ct & cte & lt & lte
        & H4 & H7 & H14 & H28 & -> & _).
  revert Hl Hs. rewrite !elem_of_cons, elem_of_nil.
  intros [-> | [-> | [-> | [-> | []]]]] Hs.
  - by rewrite (stored_agree _ _ _ _ Hs H4).
  - by rewrite (stored_agree _ _ _ _ Hs H7).
  - by rewrite (stored_agree _ _ _ _ Hs H14).
  - by rewrite (stored_agree _ _ _ _ Hs H28).
Qed.

(** X16. Whenever the load cell returns, the disk held the four containers
    with both datasets; no entry of [in_signals_by_cmp] is the list that
    [dict.fromkeys] put there: each key gives the two arrays of its
    container, so that the features of a training cell are read without
    [KeyError] or [TypeError]; the clean targets are one vector of 784
    values per image, the label targets one row of 26 values per label. *)
Theorem load_training_data_shapes (d : fs) (train test : list (list (list Z)))
    (tl tel : list Z) (data : training_data) :
  load_training_data d train tl test tel = inr data →
  ∃ r4 r7 r14 r28,
    stored d 4 r4 ∧ stored d 7 r7 ∧ stored d 14 r14 ∧ stored d 28 r28
    ∧ in_signals_by_cmp data = signals_table r4 r7 r14 r28
    ∧ train_signals data "4x4" = inr r4.1
    ∧ train_signals data "7x7" = inr r7.1
    ∧ train_signals data "14x14" = inr r14.1
    ∧ train_signals data "28x28" = inr r28.1
    ∧ length (clean_train data) = length train
    ∧ length (clean_test data) = length test
    ∧ Forall (λ v, length v = 784%nat) (clean_train data)
    ∧ Forall (λ v, length v = 784%nat) (clean_test data)
    ∧ length (train_labels data) = length tl
    ∧ length (test_labels data) = length tel
    ∧ Forall (λ row, length row = 26%nat) (train_labels data)
    ∧ Forall (λ row, length row = 26%nat) (test_labels data).
Proof.
  intros Hrun.
  apply load_training_data_inv in Hrun
    as (r4 & r7 & r14 & r28 & ct & cte & lt & lte
        & H4 & H7 & H14 & H28 & -> & Hct & Hcte & Hlt & Hlte).
  apply scale_and_flatten_shape in Hct as [Hct1 Hct2].
  apply scale_and_flatten_shape in Hcte as [Hcte1 Hcte2].
  apply to_categorical_shape in Hlt as [Hlt1 Hlt2].
  apply to_categorical_shape in Hlte as [Hlte1 Hlte2].
  rewrite length_map in Hlt1, Hlte1.
  exists r4, r7, r14, r28. cbn [in_signals_by_cmp clean_train clean_test
                               train_labels test_labels].
  do 5 (split; [done|]). do 4 (split; [reflexivity|]).
  split; [done|]. split; [done|].
  split; [eapply list.Forall_impl; [exact Hct2|]; intros v Hv; cbn beta in Hv;
          change (out_dim ^ 2) with 784 in Hv; lia|].
  split; [eapply list.Forall_impl; [exact Hcte2|]; intros v Hv; cbn beta in Hv;
          change (out_dim ^ 2) with 784 in Hv; lia|].
  done.
Qed.

Lemma load_training_data_shapes_witness :
  ∃ data,
    load_training_data Examples2.tiny_disk [flat_image] [3] [] [] = inr data
    ∧ train_signals data "7x7" = inr [replicate 49 0%Q]
    ∧ length (clean_train data) = 1%nat
    ∧ Forall (λ v, length v = 784%nat) (clean_train data)
    ∧ Forall (λ row, length row = 26%nat) (train_labels data).
Proof.
  assert (Hrun : ∃ data, load_training_data Examples2.tiny_disk
                           [flat_image] [3] [] [] = inr data)
    by (eexists; vm_compute; reflexivity).
  destruct Hrun as [data Hrun].
  destruct (load_training_data_shapes Examples2.tiny_disk [flat_image] []
              [3] [] data Hrun)
    as (r4 & r7 & r14 & r28 & _ & H7 & _ & _ & _ & _ & Hs7 & _ & _
        & Hn & _ & Hw & _ & _ & _ & Hl & _).
  exists data. split; [exact Hrun|].
  split; [|exact (conj Hn (conj Hw Hl))].
  rewrite Hs7. f_equal.
  destruct H7 as (f & Hf & Ha & _).
  assert (Hc : files Examples2.tiny_disk !! dat_file_name 7
               = Some (container ([replicate 49 0%Q], [replicate 49 0%Q])))
    by (vm_compute; reflexivity).
  rewrite Hc in Hf. injection Hf as <-.
  rewrite container_train in Ha. injection Ha as Ha. by rewrite <- Ha.
Defined.

End NotebookFacts.

(** ** The architecture *)

Module SCRNetFacts.
Import Trainer Spec Spec2 SCRNet.

Lemma call_unfold (name : option string) (l : layer) (args : list tensor) :
  call name l args
  = match out_shape l (map shape args) with
    | inl e => inl e
    | inr s => inr (Tensor name l args s)
    end.
Proof. reflexivity. Qed.

Lemma dense_shape (units : Z) (act : activation) (n : Z) :
  1 ≤ units → out_shape (Dense units act) [[n]] = inr [units].
Proof.
  intros Hu. unfold out_shape.
  by rewrite (proj2 (Z.leb_le _ _)) by done.
Qed.

Lemma reshape_square (o : Z) :
  1 ≤ o → out_shape (Reshape [o; o; 1]) [[o ^ 2]] = inr [o; o; 1].
Proof.
  intros Ho. unfold out_shape, product. cbn [forallb foldr].
  rewrite (proj2 (Z.leb_le 1 o)) by done.
  rewrite (proj2 (Z.eqb_eq _ _)) by ring. reflexivity.
Qed.

Lemma pool_shape (h w c : Z) :
  2 ≤ h → 2 ≤ w →
  out_shape (MaxPooling2D (2, 2)) [[h; w; c]]
  = inr [(h - 2) / 2 + 1; (w - 2) / 2 + 1; c].
Proof.
  intros Hh Hw. unfold out_shape.
  by rewrite !(proj2 (Z.leb_le 2 _)) by done.
Qed.

Lemma conv_valid_shape (filters h w c : Z) (act : activation) :
  1 ≤ filters → 3 ≤ h → 3 ≤ w →
  out_shape (Conv2D filters (3, 3) act Valid) [[h; w; c]]
  = inr [h - 3 + 1; w - 3 + 1; filters].
Proof.
  intros Hf Hh Hw. unfold out_shape.
  rewrite (proj2 (Z.leb_le 1 _)) by done.
  by rewrite !(proj2 (Z.leb_le 3 _)) by done.
Qed.

Lemma conv_same_shape (filters h w c : Z) (act : activation) (kernel : Z * Z) :
  1 ≤ filters →
  out_shape (Conv2D filters kernel act Same) [[h; w; c]] = inr [h; w; filters].
Proof.
  intros Hf. unfold out_shape. destruct kernel as [kh kw].
  by rewrite (proj2 (Z.leb_le 1 _)) by done.
Qed.

Lemma add_same_shape (n : Z) : out_shape Add [[n]; [n]] = inr [n].
Proof.
  unfold out_shape. cbn [reverse rev_append broadcast_rev].
  by rewrite decide_True by done.
Qed.

Lemma pool_conv_pool (o : Z) :
  8 ≤ o →
  (o - 2) / 2 + 1 = o / 2
  ∧ 3 ≤ o / 2
  ∧ (o / 2 - 3 + 1 - 2) / 2 + 1 = (o / 2 - 2) / 2
  ∧ 2 ≤ o / 2 - 3 + 1.
Proof. intros Ho. Z.div_mod_to_equations. lia. Qed.

(** One layer call of [build_SCRNet], its shape given by [Hshape]. *)
Ltac layer_call Hshape :=
  rewrite call_unfold; cbn [map shape]; rewrite Hshape; cbn beta iota.

(** The graph of [build_SCRNet], as far as the properties below use it. *)
Lemma build_SCRNet_graph (in_dim out_dim enc_dim : Z) (lr : Q) :
  in_dim ≠ 0 → 8 ≤ out_dim → 1 ≤ enc_dim →
  ∃ inputs flatt Dec2_hid,
    shape inputs = [in_dim ^ 2]
    ∧ shape flatt = [64 * ((out_dim / 2 - 2) / 2) ^ 2]
    ∧ build_SCRNet in_dim out_dim enc_dim lr
      = Ok (Model inputs
              [Tensor (Some "reconimg") (Dense (out_dim ^ 2) Sigmoid) [Dec2_hid]
                      [out_dim ^ 2];
               Tensor (Some "digit-pred") (Dense 26 Softmax)
                      [Tensor None (Dense 128 Relu) [flatt] [128]] [26]]
              lr
              [("reconimg", "mse"); ("digit-pred", "mse")]
              [("reconimg", 1%Q); ("digit-pred", 1%Q)]
              [("reconimg", "mse"); ("digit-pred", "categorical_crossentropy")]).
Proof.
  intros Hin Hout Henc.
  assert (Hi2 : 1 ≤ in_dim ^ 2) by nia.
  assert (Ho2 : 1 ≤ out_dim ^ 2) by nia.
  destruct (pool_conv_pool out_dim Hout) as (Hp1 & Hc2 & Hp2 & Hc3).
  unfold build_SCRNet, mbind, result_bind, mret, result_ret.
  rewrite call_unfold. cbn [out_shape map shape]. unfold Ok at 1. cbn beta iota.
  layer_call (dense_shape (out_dim ^ 2) Sigmoid (in_dim ^ 2) Ho2).
  layer_call (reshape_square out_dim ltac:(lia)).
  layer_call (conv_same_shape 32 out_dim out_dim 1 Relu (3, 3) ltac:(lia)).
  layer_call (pool_shape out_dim out_dim 32 ltac:(lia) ltac:(lia)).
  rewrite Hp1.
  layer_call (conv_valid_shape 64 (out_dim / 2) (out_dim / 2) 32 Relu ltac:(lia) Hc2 Hc2).
  layer_call (pool_shape (out_dim / 2 - 3 + 1) (out_dim / 2 - 3 + 1) 64 Hc3 Hc3).
  rewrite Hp2.
  rewrite call_unfold. cbn [out_shape map shape]. unfold Ok at 1. cbn beta iota.
  layer_call (dense_shape 128 Relu (product [(out_dim / 2 - 2) / 2; (out_dim / 2 - 2) / 2; 64])
           ltac:(lia)).
  layer_call (dense_shape 26 Softmax 128 ltac:(lia)).
  layer_call (dense_shape enc_dim Sigmoid (out_dim ^ 2) Henc).
  layer_call (dense_shape (in_dim ^ 2) Sigmoid enc_dim Hi2).
  layer_call (dense_shape (in_dim ^ 2) Sigmoid 26 Hi2).
  layer_call (add_same_shape (in_dim ^ 2)).
  layer_call (dense_shape enc_dim Sigmoid (in_dim ^ 2) Henc).
  layer_call (dense_shape (out_dim ^ 2) Sigmoid enc_dim Ho2).
  eexists _, _, _. split; [|split; [|reflexivity]]; [reflexivity|].
  cbn [shape]. unfold product. cbn [foldr]. f_equal. ring.
Qed.

(** X17. For a non-zero input side, an output side of at least 8 and a
    positive encoding width, [build_SCRNet] returns a model: every layer
    accepts the shape it is given, and the two operands of [Add] have the
    same shape. The model takes vectors of [in_dim ** 2] values and gives
    [reconimg] with [out_dim ** 2] values and [digit-pred] with 26, in this
    order; the classifier reads [64 * ((out_dim // 2 - 2) // 2) ** 2]
    flattened features; the keys of the loss, weight and metric
    dictionaries are the names of the two outputs. *)
Theorem build_SCRNet_shapes (in_dim out_dim enc_dim : Z) (lr : Q) :
  in_dim ≠ 0 → 8 ≤ out_dim → 1 ≤ enc_dim →
  ∃ model,
    build_SCRNet in_dim out_dim enc_dim lr = Ok model
    ∧ shape (inputs model) = [in_dim ^ 2]
    ∧ map shape (outputs model) = [[out_dim ^ 2]; [26]]
    ∧ map name_of (outputs model) = [Some "reconimg"; Some "digit-pred"]
    ∧ classifier_features model = Some [64 * ((out_dim / 2 - 2) / 2) ^ 2]
    ∧ map Some (dict_keys (loss model)) = map name_of (outputs model)
    ∧ map Some (dict_keys (loss_weights model)) = map name_of (outputs model)
    ∧ map Some (dict_keys (metrics model)) = map name_of (outputs model)
    ∧ learning_rate model = lr.
Proof.
  intros Hin Hout Henc.
  destruct (build_SCRNet_graph in_dim out_dim enc_dim lr Hin Hout Henc)
    as (inputs & flatt & Dec2_hid & Hi & Hf & ->).
  eexists. split; [reflexivity|]. cbn.
  split; [done|]. split; [done|]. split; [done|].
  split; [by rewrite Hf|]. done.
Qed.

Lemma build_SCRNet_shapes_witness :
  (7 ≠ 0 ∧ 8 ≤ 28 ∧ 1 ≤ 256)
  ∧ ∃ model,
      build_SCRNet 7 28 256 (1 # 1000) = Ok model
      ∧ shape (inputs model) = [49]
      ∧ map shape (outputs model) = [[784]; [26]]
      ∧ classifier_features model = Some [2304].
Proof.
  assert (H1 : 7 ≠ 0) by lia. assert (H2 : 8 ≤ 28) by lia.
  assert (H3 : 1 ≤ 256) by lia.
  split; [exact (conj H1 (conj H2 H3))|].
  destruct (build_SCRNet_shapes 7 28 256 (1 # 1000) H1 H2 H3)
    as (model & Hrun & Hi & Ho & _ & Hf & _).
  exists model. exact (conj Hrun (conj Hi (conj Ho Hf))).
Defined.

End SCRNetFacts.

(** ** The notebooks together *)

Module PipelineFacts.
Import DatasetBuilder Trainer Spec Spec2 Notebook SCRNet.
Import BuilderFacts NotebookFacts SCRNetFacts Examples.

Section Together.
Context `{PG : PoissonGen G}.

(** The container of a level after a returning run of the builder's cell
    holds what [create_training_data] returned at that level. *)
Lemma built_level (train test : list (list (list Z))) (g : G) (d : fs)
    (m' : machine G) (level : Z) :
  build_datasets train test (Machine g d) = (inr tt, m') →
  level ∈ [4; 7; 14; 28] →
  ∃ r ga gb,
    create_training_data train test level Notebook.out_dim ga = (Ok r, gb)
    ∧ stored (disk m') level r.
Proof.
  intros Hrun Hl.
  apply build_datasets_inv in Hrun
    as (r4 & r7 & r14 & r28 & g4 & g7 & g14 & H4 & H7 & H14 & H28 & Hf).
  apply stored_after_build in Hf as (Hs4 & Hs7 & Hs14 & Hs28).
  revert Hl. rewrite !elem_of_cons, elem_of_nil.
  intros [-> | [-> | [-> | [-> | []]]]]; by eexists _, _, _.
Qed.

Lemma noisy_width (train test : list (list (list Z))) (level od : Z) (g g' : G)
    (r : list (list Q) * list (list Q)) :
  create_training_data train test level od g = (Ok r, g') →
  length r.1 = length train
  ∧ Forall (λ v, Z.of_nat (length v) = level ^ 2) r.1.
Proof.
  destruct r as [a b]. intros Hrun.
  apply create_training_data_steps in Hrun
    as (c1 & c2 & d1 & d2 & g1 & _ & _ & _ & _ & -> & _ & Hpos & Hlen & _ & Hg & _).
  cbn [fst]. split.
  - unfold map3d. by rewrite !length_map.
  - apply Forall_fmap.
    pose proof (map3d_grids div255 _ _ _
                  (map3d_grids (λ x, clip x 0 255) _ _ _ Hg)) as Hgrids.
    eapply list.Forall_impl; [exact Hgrids|].
    intros m [Hrows Hcols]. cbn beta. unfold compose.
    rewrite (NpFacts.length_concat_uniform _ _ Hcols), Hrows. nia.
Qed.

(** X18. The cells fit together. After a returning run of the builder's
    cell and of the load cell on the disk it leaves, with as many labels
    as images, the training cell of each level 4, 7, 14, 28 builds its
    model and reads its features without error; features, clean targets
    and label targets have the same number of samples; every feature
    vector has the shape of the model's input, every clean target that of
    its first output and every label row that of its second output. *)
Theorem training_cell_shapes (train test : list (list (list Z))) (tl tel : list Z)
    (g : G) (d : fs) (m' : machine G) (data : training_data) (level : Z) :
  build_datasets train test (Machine g d) = (inr tt, m') →
  load_training_data (disk m') train tl test tel = inr data →
  length tl = length train →
  level ∈ [4; 7; 14; 28] →
  ∃ model features,
    build_SCRNet_for level Notebook.out_dim = Ok model
    ∧ train_signals data (signal_key level) = inr features
    ∧ length features = length (clean_train data)
    ∧ length features = length (train_labels data)
    ∧ fits (inputs model) features
    ∧ Forall2 fits (outputs model) [clean_train data; train_labels data].
Proof.
  intros Hbuild Hload Hlabels Hl.
  destruct (built_level train test g d m' level Hbuild Hl)
    as (r & ga & gb & Hr & Hs).
  pose proof (train_signals_of _ _ _ _ _ _ _ _ Hload Hl Hs) as Hsig.
  destruct (noisy_width _ _ _ _ _ _ _ Hr) as [Hlen Hwidth].
  apply load_training_data_inv in Hload
    as (r4 & r7 & r14 & r28 & ct & cte & lt & lte
        & _ & _ & _ & _ & -> & Hct & _ & Hlt & _).
  apply scale_and_flatten_shape in Hct as [Hct1 Hct2].
  apply to_categorical_shape in Hlt as [Hlt1 Hlt2].
  rewrite length_map in Hlt1.
  assert (Hnz : level ≠ 0).
  { revert Hl. rewrite !elem_of_cons, elem_of_nil. lia. }
  destruct (build_SCRNet_graph level Notebook.out_dim 256 (1 # 1000) Hnz)
    as (inputs & flatt & Dec2_hid & Hi & _ & Hmodel); [done|done|].
  eexists _, r.1. split; [exact Hmodel|]. split; [exact Hsig|].
  cbn [clean_train train_labels SCRNet.inputs SCRNet.outputs].
  split; [congruence|]. split; [congruence|].
  split; [|constructor; [|constructor; [|constructor]]].
  - unfold fits. rewrite Hi. eapply list.Forall_impl; [exact Hwidth|].
    intros v Hv. cbn beta in Hv |- *. by rewrite Hv.
  - unfold fits. cbn [shape]. eapply list.Forall_impl; [exact Hct2|].
    intros v Hv. cbn beta in Hv |- *. by rewrite Hv.
  - unfold fits. cbn [shape]. eapply list.Forall_impl; [exact Hlt2|].
    intros v Hv. cbn beta in Hv |- *. by rewrite Hv.
Qed.

End Together.

Lemma training_cell_shapes_witness :
  ∃ m' data,
    (build_datasets [flat_image] [flat_image] (Machine (0 : Z) (FS ∅ ∅)) = (inr tt, m')
     ∧ load_training_data (disk m') [flat_image] [3] [flat_image] [3] = inr data
     ∧ length [3] = length [flat_image]
     ∧ 7 ∈ [4; 7; 14; 28])
    ∧ ∃ model features,
        build_SCRNet_for 7 Notebook.out_dim = Ok model
        ∧ train_signals data (signal_key 7) = inr features
        ∧ length features = length (clean_train data)
        ∧ length features = length (train_labels data)
        ∧ fits (inputs model) features
        ∧ Forall2 fits (outputs model) [clean_train data; train_labels data].
Proof.
  assert (Hrun : ∃ m', build_datasets [flat_image] [flat_image]
                         (Machine (0 : Z) (FS ∅ ∅)) = (inr tt, m'))
    by (eexists; vm_compute; reflexivity).
  destruct Hrun as [m' Hrun].
  assert (Hload : ∃ data, load_training_data (disk m') [flat_image] [3] [flat_image] [3]
                          = inr data).
  { assert (H1 : Forall (is_grid 28 28) [flat_image])
      by (constructor; [exact (proj1 flat_image_raw)|constructor]).
    assert (H2 : Forall (λ raw, 1 ≤ raw ≤ 26) [3]) by (repeat constructor; lia).
    destruct (build_datasets_inv _ _ _ _ _ Hrun)
      as (r4 & r7 & r14 & r28 & g4 & g7 & g14 & _ & _ & _ & _ & Hf).
    apply stored_after_build in Hf as (Hs4 & Hs7 & Hs14 & Hs28).
    eexists. unfold load_training_data.
    rewrite (load_levels_reads _ _ _ _ _ Hs4 Hs7 Hs14 Hs28).
    cbn [mbind outcome_bind].
    rewrite !(scale_and_flatten_grids 28 Notebook.out_dim) by done.
    reflexivity. }
  destruct Hload as [data Hload].
  assert (Hl : (7 : Z) ∈ [4; 7; 14; 28]) by (rewrite !elem_of_cons; tauto).
  exists m', data.
  exact (conj (conj Hrun (conj Hload (conj eq_refl Hl)))
           (training_cell_shapes [flat_image] [flat_image] [3] [3] 0 (FS ∅ ∅) m' data 7
              Hrun Hload eq_refl Hl)).
Defined.

End PipelineFacts.
